(** * I-SEMS frontend: query surface, load interlock and control path

    A shallow embedding of the React pages and the API service of the
    I-SEMS dashboard, together with the properties its design document
    states about them.

    Layout of the development:
    - [Js]          the fragment of JavaScript the pages rely on: values,
                    truthiness, [||], [??], [?.], [<] against a numeric
                    literal, completions (return / throw);
    - [Api]         services/api.js ([handleResponse], [controlLoad],
                    [setGridMode]) in its two variants;
    - [Chart]       the [chartData] expression shared by the pages;
    - [LoadPage_battery_soc], [LoadPage_current_soc]
                    the two LoadPage components;
    - [Ui]          the controls a page shows and the effects of a handler;
    - [GridPage], [MetricCard], [DashboardPage], [SolarPage],
      [BatteryPage], [ChartsPage]
                    the derived [deviceOnline] flag, the offline warnings
                    and the grid mode buttons;
    - [Forecast]    the linear-regression forecast of the design document;
    - [PowerOverviewChart], [Live], [App]
                    the overview chart, the WebSocket hook with the
                    dashboard it feeds, and theme, session, protected
                    routes and the login form;
    - [JsFacts], [Interlock], [ControlPath], [Rejection], [ChartFacts],
      [ForecastFacts], [QuerySurface]
                    the properties the design document states;
    - [InFlight], [GridFacts], [StatusFacts], [SeriesFacts], [LiveFacts],
      [FilterFacts], [ApiFacts], [AppFacts]
                    further properties of the code (X1 to X24).

    A finite Number is carried as the rational it denotes; a numeric
    string converts to the binary64 number nearest to it. *)

From Stdlib Require Import QArith Qminmax Ascii.
From stdpp Require Import gmap strings list pretty.

Set Warnings "-register-all".

(* ================================================================= *)
(** ** JavaScript values and operators *)
(* ================================================================= *)

Module Js.

(** A JavaScript Number.  Every finite binary64 value is a rational, so
    finite numbers are carried as [Q]; both zeros are [Fin 0]. *)
Inductive number := NaN | NegInf | Fin (q : Q) | PosInf.

(** What [response.json()] and [JSON.parse] produce, plus [undefined],
    which arises from reading a property that is not there. *)
Inductive JsVal :=
| JUndefined
| JNull
| JBool (b : bool)
| JNum (n : number)
| JStr (s : string)
| JArr (items : list JsVal)
| JObj (props : gmap string JsVal).

(** Exceptions the code throws or meets.  [Error m] is [new Error(m)],
    carrying the constructor's argument. *)
Inductive Exn :=
| Error (message : JsVal)
| TypeError
| SyntaxError
| RangeError.

(** The outcome of evaluating an expression or awaiting a promise. *)
Inductive Completion (A : Type) :=
| Return (a : A)
| Throw (e : Exn).
Arguments Return {A} a.
Arguments Throw {A} e.

Definition bind {A B} (c : Completion A) (k : A -> Completion B) : Completion B :=
  match c with
  | Return a => k a
  | Throw e => Throw e
  end.

(** [try { c } catch { h }] *)
Definition try_catch {A} (c : Completion A) (h : Exn -> Completion A) : Completion A :=
  match c with
  | Return a => Return a
  | Throw e => h e
  end.

Definition returns {A} (c : Completion A) : bool :=
  match c with Return _ => true | Throw _ => false end.

(** ToBoolean *)
Definition ToBoolean (v : JsVal) : bool :=
  match v with
  | JUndefined | JNull => false
  | JBool b => b
  | JNum NaN => false
  | JNum (Fin q) => negb (Qeq_bool q 0)
  | JNum _ => true
  | JStr s => negb (String.eqb s "")
  | JArr _ | JObj _ => true
  end.

(** [a || b] *)
Definition or (a b : JsVal) : JsVal := if ToBoolean a then a else b.

(** [a ?? b] *)
Definition nullish (a b : JsVal) : JsVal :=
  match a with
  | JUndefined | JNull => b
  | _ => a
  end.

(** [!a] *)
Definition not (a : JsVal) : bool := negb (ToBoolean a).

Definition is_nullish (v : JsVal) : bool :=
  match v with JUndefined | JNull => true | _ => false end.

(** [v.k] for a [v] that is neither [null] nor [undefined], and a key
    [k] that no prototype defines (every key read by the pages is a
    telemetry field name): own properties of an object, [undefined]
    otherwise. *)
Definition prop (v : JsVal) (k : string) : JsVal :=
  match v with
  | JObj o => default JUndefined (o !! k)
  | _ => JUndefined
  end.

(** [v.k] in general: a TypeError on [null] and [undefined]. *)
Definition member (v : JsVal) (k : string) : Completion JsVal :=
  if is_nullish v then Throw TypeError else Return (prop v k).

(** [v?.k] *)
Definition opt (v : JsVal) (k : string) : JsVal :=
  if is_nullish v then JUndefined else prop v k.

(** *** String to number (StringToNumber of ECMA-262)

    White space and line terminators are trimmed; the empty string is 0;
    then an optionally signed decimal literal with fraction and exponent,
    [Infinity], or an unsigned [0x], [0o], [0b] integer.  The value is the
    binary64 number nearest to the literal's value, ties to even.

    A string is its sequence of UTF-8 bytes.  [ws_rest s] is what follows
    a leading WhiteSpace or LineTerminator code point of [s]: U+0009 to
    U+000D, U+0020, U+00A0, U+1680, U+2000 to U+200A, U+2028, U+2029,
    U+202F, U+205F, U+3000 and U+FEFF. *)

Definition ws_rest (s : string) : option string :=
  match s with
  | String c s1 =>
      let n := N_of_ascii c in
      if ((9 <=? n) && (n <=? 13) || (n =? 32))%N then Some s1
      else
        match s1 with
        | String c2 s2 =>
            let n2 := N_of_ascii c2 in
            if ((n =? 194) && (n2 =? 160))%N then Some s2
            else
              match s2 with
              | String c3 s3 =>
                  let n3 := N_of_ascii c3 in
                  if ((n =? 225) && (n2 =? 154) && (n3 =? 128)
                      || (n =? 226) && (n2 =? 128)
                         && ((128 <=? n3) && (n3 <=? 138)
                             || (n3 =? 168) || (n3 =? 169) || (n3 =? 175))
                      || (n =? 226) && (n2 =? 129) && (n3 =? 159)
                      || (n =? 227) && (n2 =? 128) && (n3 =? 128)
                      || (n =? 239) && (n2 =? 187) && (n3 =? 191))%N
                  then Some s3 else None
              | EmptyString => None
              end
        | EmptyString => None
        end
  | EmptyString => None
  end.

Fixpoint ltrim_upto (fuel : nat) (s : string) : string :=
  match fuel with
  | S fuel' =>
      match ws_rest s with
      | Some rest => ltrim_upto fuel' rest
      | None => s
      end
  | O => s
  end.

Definition ltrim (s : string) : string := ltrim_upto (String.length s) s.

Fixpoint rtrim (s : string) : string :=
  match s with
  | String c s' => if String.eqb (ltrim s) "" then "" else String c (rtrim s')
  | EmptyString => EmptyString
  end.

Definition trim (s : string) : string := rtrim (ltrim s).

(** [num / den] rounded to the nearest integer, ties to even. *)
Definition round_half_even (num den : Z) : Z :=
  let m := (num / den)%Z in
  match (2 * (num mod den) ?= den)%Z with
  | Lt => m
  | Gt => (m + 1)%Z
  | Eq => if Z.even m then m else (m + 1)%Z
  end.

(** The binary64 number nearest to a rational: 53 bits of significand,
    exponents of the unit in the last place from -1074 (subnormal) to
    971, infinity beyond. *)
Definition binary64 (q : Q) : number :=
  let n := Z.abs (Qnum q) in
  let d := Zpos (Qden q) in
  if (n =? 0)%Z then Fin 0
  else
    let k := (Z.log2 n - Z.log2 d)%Z in
    let above := if (0 <=? k)%Z then (d * 2 ^ k <=? n)%Z
                 else (d <=? n * 2 ^ (- k))%Z in
    let floor_log2 := if above then k else (k - 1)%Z in
    let e := Z.max (floor_log2 - 52) (-1074) in
    let m := if (0 <=? e)%Z then round_half_even n (d * 2 ^ e)
             else round_half_even (n * 2 ^ (- e)) d in
    let negative := (Qnum q <? 0)%Z in
    if ((971 <? e) || (e =? 971) && (m =? 2 ^ 53))%Z
    then (if negative then NegInf else PosInf)
    else
      let sm := if negative then (- m)%Z else m in
      if (0 <=? e)%Z then Fin (inject_Z (sm * 2 ^ e))
      else Fin (Qmake sm (Z.to_pos (2 ^ (- e)))).

Definition digit_val (base : N) (c : ascii) : option N :=
  let n := N_of_ascii c in
  let d := (if (48 <=? n) && (n <=? 57) then Some (n - 48)
            else if (97 <=? n) && (n <=? 102) then Some (n - 87)
            else if (65 <=? n) && (n <=? 70) then Some (n - 55)
            else None)%N in
  match d with
  | Some v => if (v <? base)%N then Some v else None
  | None => None
  end.

(** Reads the longest run of digits in [base]: its value, its length and
    the rest of the input. *)
Fixpoint digits (base : N) (s : string) (acc : N) (cnt : nat) : N * nat * string :=
  match s with
  | String c s' =>
      match digit_val base c with
      | Some d => digits base s' (acc * base + d)%N (S cnt)
      | None => (acc, cnt, s)
      end
  | EmptyString => (acc, cnt, s)
  end.

Definition pow10 (e : Z) : Q := Qpower 10 e.

(** An exponent part, or nothing. [None] when an [e] is not followed by
    digits. *)
Definition exponent (s : string) : option (Z * string) :=
  match s with
  | String c s' =>
      if (Ascii.eqb c "e" || Ascii.eqb c "E")%bool then
        let '(neg, s'') :=
          match s' with
          | String "-" t => (true, t)
          | String "+" t => (false, t)
          | _ => (false, s')
          end in
        let '(v, cnt, rest) := digits 10 s'' 0%N 0 in
        match cnt with
        | O => None
        | _ => Some (if neg then (- Z.of_N v)%Z else Z.of_N v, rest)
        end
      else Some (0%Z, s)
  | EmptyString => Some (0%Z, s)
  end.

Definition unsigned_decimal (s : string) : option Q :=
  let '(ip, ic, r1) := digits 10 s 0%N 0 in
  let '(fp, fc, r2) :=
    match r1 with
    | String "." t => digits 10 t 0%N 0
    | _ => (0%N, 0, r1)
    end in
  match (ic + fc)%nat with
  | O => None
  | _ =>
      match exponent r2 with
      | Some (e, EmptyString) =>
          Some ((inject_Z (Z.of_N ip)
                 + inject_Z (Z.of_N fp) * pow10 (- Z.of_nat fc)) * pow10 e)%Q
      | _ => None
      end
  end.

Definition non_decimal (base : N) (s : string) : number :=
  match digits base s 0%N 0 with
  | (v, S _, EmptyString) => binary64 (inject_Z (Z.of_N v))
  | _ => NaN
  end.

Definition signed_decimal (s : string) : number :=
  let '(neg, body) :=
    match s with
    | String "-" t => (true, t)
    | String "+" t => (false, t)
    | _ => (false, s)
    end in
  if String.eqb body "Infinity" then (if neg then NegInf else PosInf)
  else match unsigned_decimal body with
       | Some q => binary64 (if neg then - q else q)%Q
       | None => NaN
       end.

Definition StringToNumber (s : string) : number :=
  match trim s with
  | EmptyString => Fin 0
  | String "0" (String "x" t) | String "0" (String "X" t) => non_decimal 16 t
  | String "0" (String "o" t) | String "0" (String "O" t) => non_decimal 8 t
  | String "0" (String "b" t) | String "0" (String "B" t) => non_decimal 2 t
  | t => signed_decimal t
  end.

(** ToNumber.  An array converts through its string form: [[]] is the
    empty string, a one-element array is its element's string form, and
    two or more elements are joined by commas, which no numeric literal
    contains.  A plain object converts through ["[object Object]"]. *)
Fixpoint ToNumber (v : JsVal) : number :=
  match v with
  | JUndefined => NaN
  | JNull => Fin 0
  | JBool b => if b then Fin 1 else Fin 0
  | JNum n => n
  | JStr s => StringToNumber s
  | JArr [] => Fin 0
  | JArr [x] =>
      match x with
      | JUndefined | JNull => Fin 0
      | JBool _ | JObj _ => NaN
      | _ => ToNumber x
      end
  | JArr _ => NaN
  | JObj _ => NaN
  end.

(** [a < b] on Numbers *)
Definition lt_number (a b : number) : bool :=
  match a, b with
  | NaN, _ | _, NaN => false
  | _, NegInf => false
  | NegInf, _ => true
  | PosInf, _ => false
  | Fin _, PosInf => true
  | Fin p, Fin q => negb (Qle_bool q p)
  end.

(** [v < n] where the right operand is a Number: the comparison is
    numeric (the string comparison of [<] needs two strings). *)
Definition lt (v : JsVal) (n : number) : bool := lt_number (ToNumber v) n.

(** [a && b] *)
Definition and (a b : JsVal) : JsVal := if ToBoolean a then b else a.

(** [v === 'literal'] against a string literal: equal only to that
    very string. *)
Definition is_string (v : JsVal) (literal : string) : bool :=
  match v with
  | JStr s => String.eqb s literal
  | _ => false
  end.

(** [v > n] where the right operand is a Number. *)
Definition gt (v : JsVal) (n : number) : bool := lt_number n (ToNumber v).

(** [a <= b] and [a >= b] on Numbers: false as soon as one is NaN. *)
Definition le_number (a b : number) : bool :=
  match a, b with
  | NaN, _ | _, NaN => false
  | NegInf, _ => true
  | _, PosInf => true
  | _, NegInf => false
  | PosInf, _ => false
  | Fin p, Fin q => Qle_bool p q
  end.

(** [items.join(sep)] on an array of strings. *)
Fixpoint join (sep : string) (items : list string) : string :=
  match items with
  | [] => ""
  | [s] => s
  | s :: rest => s +:+ sep +:+ join sep rest
  end.

End Js.

(* ================================================================= *)
(** ** services/api.js *)
(* ================================================================= *)

Module Api.
Import Js.

(** What [fetch] resolves to, as far as the service reads it: the [ok]
    flag, the status text, and the outcome of [response.json()], which
    rejects with a SyntaxError when the body is not JSON. *)
Record Response := mkResponse {
  ok : bool;
  statusText : string;
  json : Completion JsVal
}.

(** The requests the service can send. *)
Inductive Request :=
| GetLoad
| GetPredictions
| GetGrid
| PostLoadControl (device : string) (state : bool)
| PostGridMode (mode : string).

(** [handleResponse], the variant of the service that shares one
    response handler:
<<
  if (!response.ok) {
    let errorDetail = 'Request failed';
    try {
      const errorData = await response.json();
      errorDetail = errorData.detail || errorData.message || errorDetail;
    } catch {
      errorDetail = response.statusText || errorDetail;
    }
    throw new Error(errorDetail);
  }
  return response.json();
>> *)
Definition handleResponse (response : Response) : Completion JsVal :=
  if negb (ok response) then
    let errorDetail := JStr "Request failed" in
    bind
      (try_catch
         (bind (json response) (fun errorData =>
          bind (member errorData "detail") (fun detail =>
          if ToBoolean detail then Return detail else
          bind (member errorData "message") (fun message =>
          Return (or message errorDetail)))))
         (fun _ => Return (or (JStr (statusText response)) errorDetail)))
      (fun errorDetail => Throw (Error errorDetail))
  else json response.

(** [api.controlLoad(device, state)]: the request it sends, and its
    outcome given what [fetch] resolved or rejected with. *)
Definition controlLoad_request (device : string) (state : bool) : Request :=
  PostLoadControl device state.

Definition controlLoad (device : string) (state : bool)
    (fetched : Completion Response) : Completion JsVal :=
  bind fetched handleResponse.

(** [api.setGridMode(mode)] *)
Definition setGridMode_request (mode : string) : Request := PostGridMode mode.

Definition setGridMode (mode : string) (fetched : Completion Response)
    : Completion JsVal :=
  bind fetched handleResponse.

(** [api.controlLoad] of the other variant of the service, which
    inlines the check:
<<
  if (!response.ok) {
    const error = await response.json();
    throw new Error(error.detail || 'Failed to control load');
  }
  return response.json();
>> *)
Definition controlLoad_inline (device : string) (state : bool)
    (fetched : Completion Response) : Completion JsVal :=
  bind fetched (fun response =>
    if negb (ok response) then
      bind (json response) (fun error =>
      bind (member error "detail") (fun detail =>
      Throw (Error (or detail (JStr "Failed to control load")))))
    else json response).

End Api.

(* ================================================================= *)
(** ** The chart series *)
(* ================================================================= *)

Module Chart.
Import Js.

(** [arr.slice(-k)]: the last [k] elements, all of them when there are
    fewer. *)
Definition slice_last {A} (k : nat) (arr : list A) : list A :=
  drop (length arr - k) arr.

(** [arr.map(f)] for a callback that may throw: elements are visited in
    order and the first exception ends the traversal. *)
Fixpoint mapM {A B} (f : A -> Completion B) (arr : list A) : Completion (list B) :=
  match arr with
  | [] => Return []
  | x :: rest =>
      bind (f x) (fun y =>
      bind (mapM f rest) (fun ys =>
      Return (y :: ys)))
  end.

(** The own enumerable properties copied by [{...v}]: those of an
    object; the indexed elements of an array or characters of a string;
    nothing for the other primitives. *)
Definition indexed (items : list JsVal) : gmap string JsVal :=
  list_to_map (imap (fun i x => (pretty i, x)) items).

Fixpoint chars (s : string) : list JsVal :=
  match s with
  | EmptyString => []
  | String c s' => JStr (String c EmptyString) :: chars s'
  end.

Definition spread (v : JsVal) : gmap string JsVal :=
  match v with
  | JObj o => o
  | JArr items => indexed items
  | JStr s => indexed (chars s)
  | _ => ∅
  end.

Section ChartData.

(** [format(parseISO(ts), 'HH:mm')] of date-fns: the label of a
    timestamp it can parse, a RangeError for one it cannot.  The label
    depends on the viewer's time zone, so the function is a parameter. *)
Variable formatHHmm : JsVal -> Completion JsVal.

(** The callback of the map:
<<
item => ({
  ...item,
  time: item.timestamp ? format(parseISO(item.timestamp), 'HH:mm') : '',
})
>> *)
Definition withTime (item : JsVal) : Completion JsVal :=
  bind (member item "timestamp") (fun timestamp =>
  bind (if ToBoolean timestamp then formatHHmm timestamp
        else Return (JStr "")) (fun time =>
  Return (JObj (<["time" := time]> (spread item))))).

(** The series every page with a history chart derives (LoadPage in
    both variants, SolarPage and BatteryPage carry the same expression):
<<
const chartData = data?.history?.map(item => ...).slice(-50) || [];
>>
    [history?.map] is [undefined] for a missing history and a TypeError
    for a history that is not an array; an array is truthy, so [|| []]
    only replaces [undefined]. *)
Definition chartData (data : JsVal) : Completion (list JsVal) :=
  match opt data "history" with
  | JUndefined | JNull => Return []
  | JArr history =>
      bind (mapM withTime history) (fun mapped =>
      Return (slice_last 50 mapped))
  | _ => Throw TypeError
  end.

End ChartData.

End Chart.

(* ================================================================= *)
(** ** What a page shows and sends *)
(* ================================================================= *)

Module Ui.
Import Js.

(** What a handler does besides updating the component state.
    [ToastErrorOf error fallback] is [toast.error(error.message || fallback)]. *)
Inductive Effect :=
| Send (request : Api.Request)
| ToastSuccess (message : string)
| ToastError (message : string)
| ToastErrorOf (error : Exn) (fallback : string)
| ConsoleError (e : Exn).

(** The control at the top right of a load card: either the lock icon
    or a switch, whose [onCheckedChange] is
    [() => handleToggle(load.id, load.isOn)]. *)
Inductive Control :=
| LockIcon
| Switch (checked : JsVal) (device : string) (currentState : JsVal) (disabled : JsVal).

(** Modelled from the spec: the Switch component (components/ui/switch)
    is not among the sources.  As the pages say of it ("Device Offline -
    Controls disabled"), a switch whose [disabled] is truthy calls no
    handler; an enabled one calls [onCheckedChange], that is
    [handleToggle] with the arguments below.  A lock icon has no
    handler. *)
Definition fires (c : Control) : option (string * JsVal) :=
  match c with
  | LockIcon => None
  | Switch _ device currentState disabled =>
      if ToBoolean disabled then None else Some (device, currentState)
  end.

Definition is_disabled (c : Control) : bool :=
  match c with
  | LockIcon => false
  | Switch _ _ _ disabled => ToBoolean disabled
  end.

(** A mode button of the grid page, with [onClick] being
    [() => handleModeChange(mode.id)].  It is a DOM button: when
    [disabled] is truthy a click dispatches nothing. *)
Record Button := mkButton {
  mode : string;
  disabled : JsVal
}.

Definition clicks (b : Button) : option string :=
  if ToBoolean (disabled b) then None else Some (mode b).

(** The requests among the effects of a handler. *)
Definition requests (effects : list Effect) : list Api.Request :=
  omap (fun e => match e with Send r => Some r | _ => None end) effects.

(** The requests that actuate the device. *)
Definition is_command (r : Api.Request) : bool :=
  match r with
  | Api.PostLoadControl _ _ | Api.PostGridMode _ => true
  | _ => false
  end.

Definition targets (device : string) (r : Api.Request) : bool :=
  match r with
  | Api.PostLoadControl d _ => String.eqb d device
  | _ => false
  end.

End Ui.

(* ================================================================= *)
(** ** LoadPage, the variant that reads [battery_soc] *)
(* ================================================================= *)

Module LoadPage_battery_soc.
Import Js Ui.

Module Load.
Record t := mk {
  id : string;
  name : string;
  isOn : JsVal;
  tier : string;
  tierLabel : string;
  description : string;
  locked : bool;
  voltage : JsVal;
  current : JsVal;
  power : JsVal
}.
End Load.

(** The component state: [useState(null)], [useState(null)],
    [useState(true)], [useState({})]. *)
Record State := mkState {
  loadData : JsVal;
  predictions : JsVal;
  loading : bool;
  controlling : gmap string bool
}.

Definition initial : State :=
  {| loadData := JNull; predictions := JNull; loading := true; controlling := ∅ |}.

Definition setLoadData (v : JsVal) (st : State) : State :=
  {| loadData := v; predictions := predictions st;
     loading := loading st; controlling := controlling st |}.

Definition setPredictions (v : JsVal) (st : State) : State :=
  {| loadData := loadData st; predictions := v;
     loading := loading st; controlling := controlling st |}.

Definition setLoading (b : bool) (st : State) : State :=
  {| loadData := loadData st; predictions := predictions st;
     loading := b; controlling := controlling st |}.

(** [setControlling(prev => ({ ...prev, [device]: b }))] *)
Definition setControlling (device : string) (b : bool) (st : State) : State :=
  {| loadData := loadData st; predictions := predictions st;
     loading := loading st; controlling := <[device := b]> (controlling st) |}.

(** [fetchData], after [Promise.all([api.getLoad(), api.getPredictions()])]
    has settled with [outcome]:
<<
    try {
      const [loadResponse, predResponse] = await Promise.all([...]);
      setLoadData(loadResponse);
      setPredictions(predResponse);
    } catch (error) {
      console.error('Failed to fetch load data:', error);
      toast.error('Could not fetch load data');
    } finally {
      setLoading(false);
    }
>> *)
Definition fetchData (outcome : Completion (JsVal * JsVal)) (st : State)
    : State * list Effect :=
  match outcome with
  | Return (loadResponse, predResponse) =>
      (setLoading false (setPredictions predResponse (setLoadData loadResponse st)),
       [])
  | Throw error =>
      (setLoading false st,
       [ConsoleError error; ToastError "Could not fetch load data"])
  end.

Definition fetchData_requests : list Effect :=
  [Send Api.GetLoad; Send Api.GetPredictions].

(** [handleToggle(device, currentState)] up to its first [await]: the
    load is marked as being controlled and the request is sent. *)
Definition handleToggle_begin (device : string) (currentState : JsVal) (st : State)
    : State * list Effect :=
  (setControlling device true st,
   [Send (Api.controlLoad_request device (not currentState))]).

(** The rest of [handleToggle], once [api.controlLoad] has settled with
    [result]; on success the page refetches, and [refetched] is what that
    fetch settles with:
<<
    try {
      const result = await api.controlLoad(device, !currentState);
      toast.success(`${device} ${!currentState ? 'enabled' : 'disabled'}`);
      await fetchData();
    } catch (error) {
      toast.error(error.message || `Failed to control ${device}`);
    } finally {
      setControlling(prev => ({ ...prev, [device]: false }));
    }
>> *)
Definition handleToggle_settle (device : string) (currentState : JsVal)
    (result : Completion JsVal) (refetched : Completion (JsVal * JsVal))
    (st : State) : State * list Effect :=
  match result with
  | Return _ =>
      let '(st', effects) := fetchData refetched st in
      (setControlling device false st',
       ToastSuccess (device +:+ " " +:+
                     (if not currentState then "enabled" else "disabled"))
         :: fetchData_requests ++ effects)
  | Throw error =>
      (setControlling device false st,
       [ToastErrorOf error ("Failed to control " +:+ device)])
  end.

Section Render.
Variable loadData : JsVal.
Variable controlling : gmap string bool.

(** [const current = loadData?.current || {};] *)
Definition current : JsVal := or (opt loadData "current") (JObj ∅).

(** [const deviceOnline = loadData?.device_online ?? false;] *)
Definition deviceOnline : JsVal :=
  nullish (opt loadData "device_online") (JBool false).

(** The condition of the offline warning:
    [{!deviceOnline && (... Device Offline, Controls disabled ...)}] *)
Definition offlineWarning : bool := not deviceOnline.

(** [const batterySoc = loadData?.battery_soc ?? 100;] *)
Definition batterySoc : JsVal :=
  nullish (opt loadData "battery_soc") (JNum (Fin 100)).

Definition loads : list Load.t :=
  [ {| Load.id := "light";
       Load.name := "Light";
       Load.isOn := or (prop current "light_on") (JBool false);
       Load.tier := "essential";
       Load.tierLabel := "Essential";
       Load.description := "Indoor lighting system";
       Load.locked := false;
       Load.voltage := prop current "light_voltage";
       Load.current := prop current "light_current";
       Load.power := prop current "light_power" |};
    {| Load.id := "fan";
       Load.name := "Fan";
       Load.isOn := or (prop current "fan_on") (JBool false);
       Load.tier := "semi-essential";
       Load.tierLabel := "Semi-Essential";
       Load.description := "Ventilation system";
       Load.locked := false;
       Load.voltage := prop current "fan_voltage";
       Load.current := prop current "fan_current";
       Load.power := prop current "fan_power" |};
    {| Load.id := "pump";
       Load.name := "Pump";
       Load.isOn := or (prop current "pump_on") (JBool false);
       Load.tier := "non-essential";
       Load.tierLabel := "Non-Essential";
       Load.description := "Water pumping system";
       Load.locked := lt batterySoc (Fin 20);
       Load.voltage := prop current "pump_voltage";
       Load.current := prop current "pump_current";
       Load.power := prop current "pump_power" |} ].

(** [const isControlling = controlling[load.id];] *)
Definition isControlling (load : Load.t) : JsVal :=
  match controlling !! Load.id load with
  | Some b => JBool b
  | None => JUndefined
  end.

(** The control of a card:
<<
  {load.locked ? (<div ...><Lock /></div>) : (
    <Switch checked={load.isOn}
            onCheckedChange={() => handleToggle(load.id, load.isOn)}
            disabled={isControlling || !deviceOnline} />)}
>> *)
Definition control (load : Load.t) : Control :=
  if Load.locked load then LockIcon
  else Switch (Load.isOn load) (Load.id load) (Load.isOn load)
              (or (isControlling load) (JBool (not deviceOnline))).

(** [loads.map(load => ...)]: one card per load. *)
Definition cards : list (Load.t * Control) :=
  map (fun load => (load, control load)) loads.

End Render.

(** What the component renders, where rendering returns: the spinner
    while [loading], the page otherwise.  Of the page the offline banner
    ([!deviceOnline && ...]) and the load cards with their controls are
    kept.  The statistics, the metrics of a card and the chart are left
    out, and with them the exceptions they can raise: [toFixed] called
    on a statistic or on a metric that is present but not a number, and
    [chartData] on a history it cannot map.  When one of them throws,
    React shows nothing of the page and no control can be operated. *)
Inductive View :=
| Spinner
| Page (offlineWarning : bool) (cards : list (Load.t * Control)).

Definition render (st : State) : View :=
  if loading st then Spinner
  else Page (not (deviceOnline (loadData st)))
            (cards (loadData st) (controlling st)).

(** The card of a load, if the page shows it. *)
Definition card (st : State) (id : string) : option (Load.t * Control) :=
  match render st with
  | Spinner => None
  | Page _ cards => List.find (fun c => String.eqb (Load.id (fst c)) id) cards
  end.

(** The lock flag of a load as the page shows it. *)
Definition locked (st : State) (id : string) : option bool :=
  Load.locked ∘ fst <$> card st id.

(** What happens to the page: a fetch started by the mount, the timer
    or the refresh button settles; the user operates the control of a
    load; a control request settles. *)
Inductive Event :=
| Fetched (outcome : Completion (JsVal * JsVal))
| Toggled (id : string)
| ControlSettled (device : string) (currentState : JsVal)
    (result : Completion JsVal) (refetched : Completion (JsVal * JsVal)).

Definition step (st : State) (ev : Event) : State * list Effect :=
  match ev with
  | Fetched outcome => fetchData outcome st
  | Toggled id =>
      match card st id ≫= fires ∘ snd with
      | Some (device, currentState) => handleToggle_begin device currentState st
      | None => (st, [])
      end
  | ControlSettled device currentState result refetched =>
      handleToggle_settle device currentState result refetched st
  end.

Fixpoint run (st : State) (evs : list Event) : State :=
  match evs with
  | [] => st
  | ev :: rest => run (fst (step st ev)) rest
  end.

(** The pump's lock flag after each event of a run. *)
Fixpoint lock_trace (st : State) (evs : list Event) : list (option bool) :=
  match evs with
  | [] => []
  | ev :: rest =>
      let st' := fst (step st ev) in
      locked st' "pump" :: lock_trace st' rest
  end.

(** A payload of [/api/load] and of [/api/predictions] carrying the
    given SOC, and the fetch that delivers them. *)
Definition payload (soc : JsVal) : JsVal := JObj {[ "battery_soc" := soc ]}.

Definition reading (soc : Q) : Event :=
  Fetched (Return (payload (JNum (Fin soc)), JObj ∅)).

End LoadPage_battery_soc.

(* ================================================================= *)
(** ** LoadPage, the variant that reads [current.soc] *)
(* ================================================================= *)

Module LoadPage_current_soc.
Import Js Ui.

Module Load.
Record t := mk {
  id : string;
  name : string;
  isOn : JsVal;
  tier : string;
  tierLabel : string;
  description : string;
  locked : bool
}.
End Load.

(** [useState(null)], [useState(true)], [useState({})] *)
Record State := mkState {
  loadData : JsVal;
  loading : bool;
  controlling : gmap string bool
}.

Definition initial : State :=
  {| loadData := JNull; loading := true; controlling := ∅ |}.

Definition setLoadData (v : JsVal) (st : State) : State :=
  {| loadData := v; loading := loading st; controlling := controlling st |}.

Definition setLoading (b : bool) (st : State) : State :=
  {| loadData := loadData st; loading := b; controlling := controlling st |}.

Definition setControlling (device : string) (b : bool) (st : State) : State :=
  {| loadData := loadData st; loading := loading st;
     controlling := <[device := b]> (controlling st) |}.

(** [fetchData], after [api.getLoad()] has settled:
<<
    try { const data = await api.getLoad(); setLoadData(data); }
    catch (error) { console.error('Failed to fetch load data:', error); }
    finally { setLoading(false); }
>> *)
Definition fetchData (outcome : Completion JsVal) (st : State)
    : State * list Effect :=
  match outcome with
  | Return data => (setLoading false (setLoadData data st), [])
  | Throw error => (setLoading false st, [ConsoleError error])
  end.

Definition fetchData_requests : list Effect := [Send Api.GetLoad].

(** [c.toUpperCase()] on an ASCII character. *)
Definition toUpperCase (c : ascii) : ascii :=
  let n := N_of_ascii c in
  if ((97 <=? n) && (n <=? 122))%N then ascii_of_N (n - 32) else c.

(** [device.charAt(0).toUpperCase() + device.slice(1)] *)
Definition capitalized (device : string) : string :=
  match device with
  | String c rest => String (toUpperCase c) rest
  | EmptyString => EmptyString
  end.

Definition handleToggle_begin (device : string) (currentState : JsVal) (st : State)
    : State * list Effect :=
  (setControlling device true st,
   [Send (Api.controlLoad_request device (not currentState))]).

(** The rest of [handleToggle]:
<<
    try {
      await api.controlLoad(device, !currentState);
      toast.success(`${device.charAt(0).toUpperCase() + device.slice(1)} ${
        !currentState ? 'enabled' : 'disabled'}`);
      await fetchData();
    } catch (error) {
      toast.error(error.message || `Failed to control ${device}`);
    } finally {
      setControlling(prev => ({ ...prev, [device]: false }));
    }
>> *)
Definition handleToggle_settle (device : string) (currentState : JsVal)
    (result : Completion JsVal) (refetched : Completion JsVal)
    (st : State) : State * list Effect :=
  match result with
  | Return _ =>
      let '(st', effects) := fetchData refetched st in
      (setControlling device false st',
       ToastSuccess (capitalized device +:+ " " +:+
                     (if not currentState then "enabled" else "disabled"))
         :: fetchData_requests ++ effects)
  | Throw error =>
      (setControlling device false st,
       [ToastErrorOf error ("Failed to control " +:+ device)])
  end.

Section Render.
Variable loadData : JsVal.
Variable controlling : gmap string bool.

(** [const current = loadData?.current || {};] *)
Definition current : JsVal := or (opt loadData "current") (JObj ∅).

(** [const predictions = loadData?.predictions || {};] *)
Definition predictions : JsVal := or (opt loadData "predictions") (JObj ∅).

(** [const deviceOnline = loadData?.device_online ?? false;] *)
Definition deviceOnline : JsVal :=
  nullish (opt loadData "device_online") (JBool false).

(** The condition of the offline warning:
    [{!deviceOnline && (... Device Offline - Controls may not respond ...)}] *)
Definition offlineWarning : bool := not deviceOnline.

Definition loads : list Load.t :=
  [ {| Load.id := "light";
       Load.name := "Light";
       Load.isOn := prop current "light_on";
       Load.tier := "essential";
       Load.tierLabel := "Essential";
       Load.description := "Indoor lighting system";
       Load.locked := false |};
    {| Load.id := "fan";
       Load.name := "Fan";
       Load.isOn := prop current "fan_on";
       Load.tier := "semi-essential";
       Load.tierLabel := "Semi-Essential";
       Load.description := "Ventilation system";
       Load.locked := false |};
    {| Load.id := "pump";
       Load.name := "Pump";
       Load.isOn := prop current "pump_on";
       Load.tier := "non-essential";
       Load.tierLabel := "Non-Essential";
       Load.description := "Water pumping system";
       Load.locked := lt (or (prop current "soc") (JNum (Fin 100))) (Fin 20) |} ].

(** [controlling[load.id]] *)
Definition isControlling (load : Load.t) : JsVal :=
  match controlling !! Load.id load with
  | Some b => JBool b
  | None => JUndefined
  end.

(** The control of a card:
<<
  {load.locked ? (<div ...><Lock /></div>) : (
    <Switch checked={load.isOn}
            onCheckedChange={() => handleToggle(load.id, load.isOn)}
            disabled={controlling[load.id] || !deviceOnline} />)}
>> *)
Definition control (load : Load.t) : Control :=
  if Load.locked load then LockIcon
  else Switch (Load.isOn load) (Load.id load) (Load.isOn load)
              (or (isControlling load) (JBool (not deviceOnline))).

Definition cards : list (Load.t * Control) :=
  map (fun load => (load, control load)) loads.

End Render.

(** What the component renders, where rendering returns: the spinner
    while [loading], otherwise the offline banner and the load cards
    with their controls.  The statistics and the chart are left out, and
    with them the exceptions they can raise ([toFixed] called on a
    statistic that is not a number, [chartData] on a history it cannot
    map); when one of them throws, React shows nothing of the page. *)
Inductive View :=
| Spinner
| Page (offlineWarning : bool) (cards : list (Load.t * Control)).

Definition render (st : State) : View :=
  if loading st then Spinner
  else Page (not (deviceOnline (loadData st)))
            (cards (loadData st) (controlling st)).

Definition card (st : State) (id : string) : option (Load.t * Control) :=
  match render st with
  | Spinner => None
  | Page _ cards => List.find (fun c => String.eqb (Load.id (fst c)) id) cards
  end.

Definition locked (st : State) (id : string) : option bool :=
  Load.locked ∘ fst <$> card st id.

Inductive Event :=
| Fetched (outcome : Completion JsVal)
| Toggled (id : string)
| ControlSettled (device : string) (currentState : JsVal)
    (result : Completion JsVal) (refetched : Completion JsVal).

Definition step (st : State) (ev : Event) : State * list Effect :=
  match ev with
  | Fetched outcome => fetchData outcome st
  | Toggled id =>
      match card st id ≫= fires ∘ snd with
      | Some (device, currentState) => handleToggle_begin device currentState st
      | None => (st, [])
      end
  | ControlSettled device currentState result refetched =>
      handleToggle_settle device currentState result refetched st
  end.

Fixpoint run (st : State) (evs : list Event) : State :=
  match evs with
  | [] => st
  | ev :: rest => run (fst (step st ev)) rest
  end.

Fixpoint lock_trace (st : State) (evs : list Event) : list (option bool) :=
  match evs with
  | [] => []
  | ev :: rest =>
      let st' := fst (step st ev) in
      locked st' "pump" :: lock_trace st' rest
  end.

(** A payload of [/api/load] whose current reading carries the given
    SOC, and the fetch that delivers it. *)
Definition payload (soc : JsVal) : JsVal :=
  JObj {[ "current" := JObj {[ "soc" := soc ]} ]}.

Definition reading (soc : Q) : Event :=
  Fetched (Return (payload (JNum (Fin soc)))).

End LoadPage_current_soc.

(* ================================================================= *)
(** ** GridPage *)
(* ================================================================= *)

Module GridPage.
Import Js Ui.

(** [useState(null)], [useState(true)], [useState(false)] *)
Record State := mkState {
  gridData : JsVal;
  loading : bool;
  settingMode : bool
}.

Definition initial : State :=
  {| gridData := JNull; loading := true; settingMode := false |}.

Definition setGridData (v : JsVal) (st : State) : State :=
  {| gridData := v; loading := loading st; settingMode := settingMode st |}.

Definition setLoading (b : bool) (st : State) : State :=
  {| gridData := gridData st; loading := b; settingMode := settingMode st |}.

Definition setSettingMode (b : bool) (st : State) : State :=
  {| gridData := gridData st; loading := loading st; settingMode := b |}.

Definition fetchData (outcome : Completion JsVal) (st : State)
    : State * list Effect :=
  match outcome with
  | Return data => (setLoading false (setGridData data st), [])
  | Throw error => (setLoading false st, [ConsoleError error])
  end.

Definition fetchData_requests : list Effect := [Send Api.GetGrid].

(** [handleModeChange(mode)] up to its first [await]. *)
Definition handleModeChange_begin (mode : string) (st : State)
    : State * list Effect :=
  (setSettingMode true st, [Send (Api.setGridMode_request mode)]).

(** The rest of [handleModeChange]:
<<
    try {
      await api.setGridMode(mode);
      toast.success(`Grid mode set to ${mode}`);
      await fetchData();
    } catch (error) {
      toast.error('Failed to change grid mode');
    } finally {
      setSettingMode(false);
    }
>> *)
Definition handleModeChange_settle (mode : string)
    (result : Completion JsVal) (refetched : Completion JsVal)
    (st : State) : State * list Effect :=
  match result with
  | Return _ =>
      let '(st', effects) := fetchData refetched st in
      (setSettingMode false st',
       ToastSuccess ("Grid mode set to " +:+ mode) :: fetchData_requests ++ effects)
  | Throw _ =>
      (setSettingMode false st, [ToastError "Failed to change grid mode"])
  end.

Section Render.
Variable gridData : JsVal.
Variable settingMode : bool.

(** [const current = gridData?.current || {};] *)
Definition current : JsVal := or (opt gridData "current") (JObj ∅).

(** [const deviceOnline = gridData?.device_online ?? false;] *)
Definition deviceOnline : JsVal :=
  nullish (opt gridData "device_online") (JBool false).

(** The condition of the offline warning:
    [{!deviceOnline && (... Device Offline ...)}] *)
Definition offlineWarning : bool := not deviceOnline.

(** The ids of [modes]. *)
Definition modes : list string := ["solar"; "battery"; "hybrid"].

(** [<button onClick={() => handleModeChange(mode.id)}
             disabled={settingMode || !deviceOnline} ...>] *)
Definition buttons : list Button :=
  map (fun id => {| mode := id;
                    disabled := or (JBool settingMode) (JBool (not deviceOnline)) |})
      modes.


(** [const isOnline = current.online ?? true;] *)
Definition isOnline : JsVal := nullish (prop current "online") (JBool true).

(** [const currentMode = current.mode || 'hybrid';] *)
Definition currentMode : JsVal := or (prop current "mode") (JStr "hybrid").

(** The buttons drawn as the active mode: those with
    [currentMode === mode.id]. *)
Definition active : list string :=
  List.filter (fun id => is_string currentMode id) modes.

End Render.

(** What the component renders, where rendering returns: the spinner
    while [loading], otherwise the offline banner and the mode buttons.
    The grid status and the description of the current mode are left
    out, and with them the exceptions they can raise
    ([(current.power || 0).toFixed(1)] on a power that is not a number,
    [currentMode.charAt(0)] on a mode that is not a string); when one of
    them throws, React shows nothing of the page. *)
Inductive View :=
| Spinner
| Page (offlineWarning : bool) (buttons : list Button).

Definition render (st : State) : View :=
  if loading st then Spinner
  else Page (not (deviceOnline (gridData st)))
            (buttons (gridData st) (settingMode st)).

Definition button (st : State) (id : string) : option Button :=
  match render st with
  | Spinner => None
  | Page _ bs => List.find (fun b => String.eqb (mode b) id) bs
  end.

Inductive Event :=
| Fetched (outcome : Completion JsVal)
| Clicked (id : string)
| ModeSettled (mode : string) (result : Completion JsVal) (refetched : Completion JsVal).

Definition step (st : State) (ev : Event) : State * list Effect :=
  match ev with
  | Fetched outcome => fetchData outcome st
  | Clicked id =>
      match button st id ≫= clicks with
      | Some mode => handleModeChange_begin mode st
      | None => (st, [])
      end
  | ModeSettled mode result refetched =>
      handleModeChange_settle mode result refetched st
  end.

End GridPage.

(* ================================================================= *)
(** ** The online flag of the other pages *)
(* ================================================================= *)

(** The metric card of the dashboard. *)
Module MetricCard.
Import Js.

(** [({ type, title, metrics, status, deviceOnline = true }) => ...]:
    the default takes the place of a [deviceOnline] that is not passed
    or is [undefined]. *)
Definition deviceOnline (passed : JsVal) : JsVal :=
  match passed with
  | JUndefined => JBool true
  | v => v
  end.

(** The condition of the card's offline warning:
    [{!deviceOnline && (... Device Offline ...)}] *)
Definition offlineWarning (passed : JsVal) : bool := not (deviceOnline passed).

End MetricCard.

Module DashboardPage.
Import Js.

Section Render.
(** The state set by [fetchData] and by the WebSocket effect. *)
Variable dashboardData : JsVal.

(** [const data = dashboardData || {};] *)
Definition data : JsVal := or dashboardData (JObj ∅).

(** [const deviceOnline =
       data.device_online !== undefined ? data.device_online : false;] *)
Definition deviceOnline : JsVal :=
  match prop data "device_online" with
  | JUndefined => JBool false
  | v => v
  end.

(** The four metric cards, by [type], with the [deviceOnline] each is
    given: [<MetricCard type="solar" ... deviceOnline={deviceOnline} />]
    and likewise for the battery, load and grid cards. *)
Definition metricCards : list (string * JsVal) :=
  [ ("solar", deviceOnline); ("battery", deviceOnline);
    ("load", deviceOnline); ("grid", deviceOnline) ].

(** The status badge of a metric card. *)
Record Status := mkStatus {
  type : string;
  label : string
}.

(** The badge of the Solar card:
    [deviceOnline ? { type: 'success', label: 'Active' }
                  : { type: 'error', label: 'Offline' }] *)
Definition solarStatus : Status :=
  if ToBoolean deviceOnline then mkStatus "success" "Active"
  else mkStatus "error" "Offline".

(** The badge of the Battery card:
<<
  (data.battery?.soc || 0) < 20
    ? { type: 'warning', label: 'Low' }
    : data.battery?.charging
      ? { type: 'success', label: 'Charging' }
      : { type: 'info', label: 'Standby' }
>> *)
Definition batteryStatus : Status :=
  if lt (or (opt (prop data "battery") "soc") (JNum (Fin 0))) (Fin 20)
  then mkStatus "warning" "Low"
  else if ToBoolean (opt (prop data "battery") "charging")
       then mkStatus "success" "Charging"
       else mkStatus "info" "Standby".

(** The badge of the Grid card:
    [data.grid?.online ? { type: 'success', label: 'Online' }
                       : { type: 'error', label: 'Offline' }] *)
Definition gridStatus : Status :=
  if ToBoolean (opt (prop data "grid") "online") then mkStatus "success" "Online"
  else mkStatus "error" "Offline".

(** The label of the Loads card:
<<
  [(data.load?.light_on && 'L'), (data.load?.fan_on && 'F'),
   (data.load?.pump_on && 'P')].filter(Boolean).join('+') || 'All Off'
>>
    Whatever passes [filter(Boolean)] is one of the three letters
    ([x && 'L'] is ['L'] or the falsy [x]), so [join] sees strings. *)
Definition flags : list JsVal :=
  [ and (opt (prop data "load") "light_on") (JStr "L");
    and (opt (prop data "load") "fan_on") (JStr "F");
    and (opt (prop data "load") "pump_on") (JStr "P") ].

Definition letters : list string :=
  omap (fun v => match v with JStr s => Some s | _ => None end)
       (List.filter ToBoolean flags).

Definition loadsLabel : string :=
  let joined := join "+" letters in
  if ToBoolean (JStr joined) then joined else "All Off".

End Render.

End DashboardPage.

Module SolarPage.
Import Js.

Section Render.
Variable solarData : JsVal.

(** [const deviceOnline = solarData?.device_online ?? false;] *)
Definition deviceOnline : JsVal :=
  nullish (opt solarData "device_online") (JBool false).

(** The condition of the offline warning:
    [{!deviceOnline && (... Device Offline - Showing last known values ...)}] *)
Definition offlineWarning : bool := not deviceOnline.

End Render.

End SolarPage.

Module BatteryPage.
Import Js.

Section Render.
Variable batteryData : JsVal.

(** [const current = batteryData?.current || {};] *)
Definition current : JsVal := or (opt batteryData "current") (JObj ∅).

(** [const deviceOnline = batteryData?.device_online ?? false;] *)
Definition deviceOnline : JsVal :=
  nullish (opt batteryData "device_online") (JBool false).

(** [const socLevel = current.soc || 0;] *)
Definition socLevel : JsVal := or (prop current "soc") (JNum (Fin 0)).

(** [const isLowBattery = socLevel < 20;] *)
Definition isLowBattery : bool := lt socLevel (Fin 20).

(** [const isCritical = socLevel < 10;] *)
Definition isCritical : bool := lt socLevel (Fin 10).

(** The warnings above the gauge:
<<
  {!deviceOnline && (... Device Offline - Showing last known values ...)}
  {isCritical && deviceOnline && (... CRITICAL: Battery below 10% ...)}
  {isLowBattery && !isCritical && deviceOnline && (... Warning: Battery below 20% ...)}
>> *)
Inductive Warning := DeviceOffline | Critical | LowBattery.

Definition warnings : list Warning :=
  (if not deviceOnline then [DeviceOffline] else []) ++
  (if isCritical && ToBoolean deviceOnline then [Critical] else []) ++
  (if isLowBattery && negb isCritical && ToBoolean deviceOnline
   then [LowBattery] else []).

(** The colour class of the gauge and of the figure inside it:
    [isCritical ? 'text-load' : isLowBattery ? 'text-solar' : 'text-battery'] *)
Definition gaugeClass : string :=
  if isCritical then "text-load"
  else if isLowBattery then "text-solar" else "text-battery".

End Render.

End BatteryPage.

Module ChartsPage.
Import Js.

(** [useState([])], [useState(true)], [useState(true)] *)
Record State := mkState {
  historyData : JsVal;
  loading : bool;
  deviceOnline : JsVal
}.

Definition initial : State :=
  {| historyData := JArr []; loading := true; deviceOnline := JBool true |}.

(** The condition of the offline warning:
    [{!deviceOnline && (... Device Offline - Showing cached data ...)}] *)
Definition offlineWarning (st : State) : bool := not (deviceOnline st).

(** [fetchData], after [api.getHistory(200)] has settled:
<<
    try {
      const data = await api.getHistory(200);
      setHistoryData(data.data || []);
      setDeviceOnline(data.device_online ?? true);
    } catch (error) {
      console.error('Failed to fetch history:', error);
    } finally {
      setLoading(false);
    }
>>
    Reading [data.data] throws when the response is [null], before
    either setter has run. *)
Definition fetchData (outcome : Completion JsVal) (st : State) : State :=
  match bind outcome (fun data =>
        bind (member data "data") (fun history =>
        Return (or history (JArr []),
                nullish (prop data "device_online") (JBool true)))) with
  | Return (history, online) =>
      {| historyData := history; loading := false; deviceOnline := online |}
  | Throw _ =>
      {| historyData := historyData st; loading := false;
         deviceOnline := deviceOnline st |}
  end.

(** [arr.filter(f)] for a predicate that may throw. *)
Fixpoint filterM {A} (f : A -> Completion bool) (arr : list A) : Completion (list A) :=
  match arr with
  | [] => Return []
  | x :: rest =>
      bind (f x) (fun keep =>
      bind (filterM f rest) (fun kept =>
      Return (if keep then x :: kept else kept)))
  end.

Section Filter.

(** Dates are compared through their time values, which are Numbers
    (NaN for an invalid date).  How the text of a date becomes a time
    value depends on the viewer's time zone, so the conversions are
    parameters: [parseISO] of date-fns, [new Date(text)], and
    [setHours(0, 0, 0, 0)] and [setHours(23, 59, 59, 999)].  [parseISO]
    is called on whatever the row holds under [timestamp]; on an
    argument that is not a string it gives an invalid date in date-fns 2
    and throws a TypeError from date-fns 3 on, so it is a function that
    may throw. *)
Variable parseISO : JsVal -> Completion number.
Variable newDate : string -> number.
Variable startOfDay : number -> number.
Variable endOfDay : number -> number.

(** [const start = new Date(startDate);
     if (startDate.length === 10) start.setHours(0, 0, 0, 0);] *)
Definition startBound (startDate : string) : number :=
  if Nat.eqb (String.length startDate) 10 then startOfDay (newDate startDate)
  else newDate startDate.

(** [const end = new Date(endDate);
     if (endDate.length === 10) end.setHours(23, 59, 59, 999);] *)
Definition endBound (endDate : string) : number :=
  if Nat.eqb (String.length endDate) 10 then endOfDay (newDate endDate)
  else newDate endDate.

(** [parseISO(item.timestamp)] *)
Definition itemDate (item : JsVal) : Completion number :=
  bind (member item "timestamp") parseISO.

(** The predicate of the filter for the dates entered, if any:
<<
  if (startDate && endDate)  item => itemDate >= start && itemDate <= end
  else if (startDate)        item => parseISO(item.timestamp) >= start
  else if (endDate)          item => parseISO(item.timestamp) <= end
>> *)
Definition inRange (startDate endDate : string)
    : option (JsVal -> Completion bool) :=
  if ToBoolean (JStr startDate) && ToBoolean (JStr endDate) then
    Some (fun item => bind (itemDate item) (fun t =>
            Return (le_number (startBound startDate) t
                    && le_number t (endBound endDate))))
  else if ToBoolean (JStr startDate) then
    Some (fun item => bind (itemDate item) (fun t =>
            Return (le_number (startBound startDate) t)))
  else if ToBoolean (JStr endDate) then
    Some (fun item => bind (itemDate item) (fun t =>
            Return (le_number t (endBound endDate))))
  else None.

(** The effect that applies the date filter to the rows held:
<<
  if (!historyData.length) { setFilteredData([]); return; }
  let filtered = historyData;
  if (...) filtered = historyData.filter(...);
  setFilteredData(filtered);
>>
    An array is filtered; a value without a truthy [length] gives the
    empty list; any other value has no [filter] to call, and is passed
    on as it is when no date is entered. *)
Definition filteredData (historyData : JsVal) (startDate endDate : string)
    : Completion JsVal :=
  match historyData with
  | JUndefined | JNull => Throw TypeError
  | JArr [] => Return (JArr [])
  | JArr rows =>
      match inRange startDate endDate with
      | Some keep => bind (filterM keep rows) (fun kept => Return (JArr kept))
      | None => Return historyData
      end
  | JStr _ | JObj _ =>
      let length := match historyData with
                    | JStr s => JBool (negb (String.eqb s ""))
                    | _ => prop historyData "length"
                    end in
      if not length then Return (JArr [])
      else match inRange startDate endDate with
           | Some _ => Throw TypeError
           | None => Return historyData
           end
  | JBool _ | JNum _ => Return (JArr [])
  end.

End Filter.

End ChartsPage.

(* ================================================================= *)
(** ** The linear forecast *)
(* ================================================================= *)

Module Forecast.
Local Open Scope Q_scope.

(** The forecast engine runs in the backend, which is not among the
    sources; this module follows the design document: "Linear
    regression: ordinary least squares over (elapsed_seconds, power)
    pairs; project power at now+1h and now+2h; negative projections
    clamp to 0."  Samples are pairs (time in seconds, power in watts),
    taken over the rationals. *)

(** Modelled from the spec: the sums of ordinary least squares. *)
Definition sum (f : Q * Q -> Q) (history : list (Q * Q)) : Q :=
  foldr (fun s acc => f s + acc) 0 history.

(** Modelled from the spec: the sample count. *)
Definition count (history : list (Q * Q)) : Q :=
  inject_Z (Z.of_nat (length history)).

(** Modelled from the spec: the slope of the least-squares line in
    closed form, (n Sxy - Sx Sy) / (n Sxx - Sx Sx). *)
Definition slope (history : list (Q * Q)) : Q :=
  let n := count history in
  let sx := sum fst history in
  let sy := sum snd history in
  let sxx := sum (fun s => fst s * fst s) history in
  let sxy := sum (fun s => fst s * snd s) history in
  (n * sxy - sx * sy) / (n * sxx - sx * sx).

(** Modelled from the spec: its intercept, (Sy - slope Sx) / n. *)
Definition intercept (history : list (Q * Q)) : Q :=
  (sum snd history - slope history * sum fst history) / count history.

(** Modelled from the spec: the projection, the value of the fitted
    line at time [t]. *)
Definition projection (history : list (Q * Q)) (t : Q) : Q :=
  intercept history + slope history * t.

(** Modelled from the spec: the forecast, "negative projections clamp
    to 0". *)
Definition linear_forecast (history : list (Q * Q)) (t : Q) : Q :=
  Qmax 0 (projection history t).

(** Modelled from the spec: the history of the design document's
    example, 100 W, 120 W and 140 W at [t0], one hour and two hours
    later, in seconds. *)
Definition hourly (t0 : Q) : list (Q * Q) :=
  [(t0, 100); (t0 + 3600, 120); (t0 + 7200, 140)].

End Forecast.

(* ================================================================= *)
(** ** PowerOverviewChart *)
(* ================================================================= *)

Module PowerOverviewChart.
Import Js Chart.

Section ChartData.

(** [format(parseISO(ts), 'HH:mm')], as in [Chart]. *)
Variable formatHHmm : JsVal -> Completion JsVal.

(** The callback of the map:
<<
  item => ({
    ...item,
    time: item.timestamp ? format(parseISO(item.timestamp), 'HH:mm') : '',
    solar: item.solar_power || 0,
    load: item.load_power || 0,
    battery: item.battery_soc || 0,
  })
>>
    Later keys of the literal replace earlier ones of the same name. *)
Definition point (item : JsVal) : Completion JsVal :=
  bind (member item "timestamp") (fun timestamp =>
  bind (if ToBoolean timestamp then formatHHmm timestamp
        else Return (JStr "")) (fun time =>
  Return (JObj (<["battery" := or (prop item "battery_soc") (JNum (Fin 0))]>
               (<["load" := or (prop item "load_power") (JNum (Fin 0))]>
               (<["solar" := or (prop item "solar_power") (JNum (Fin 0))]>
               (<["time" := time]> (spread item)))))))).

(** [data.length === 0] for a truthy [data]: the length of an array or
    of a string, the [length] property of an object. *)
Definition has_length_zero (data : JsVal) : bool :=
  match data with
  | JArr items => Nat.eqb (length items) 0
  | JObj o =>
      match o !! "length" with
      | Some (JNum (Fin q)) => Qeq_bool q 0
      | _ => false
      end
  | _ => false
  end.

(** The series of the chart, for the [data] prop as passed (the
    default [data = []] replaces [undefined]):
<<
  if (!data || data.length === 0) return [];
  return data.map(item => ...).slice(-50);
>>
    Only an array has a [map] to call. *)
Definition chartData (data : JsVal) : Completion (list JsVal) :=
  let data := match data with JUndefined => JArr [] | _ => data end in
  if not data || has_length_zero data then Return []
  else match data with
       | JArr items =>
           bind (mapM point items) (fun mapped =>
           Return (slice_last 50 mapped))
       | _ => Throw TypeError
       end.

End ChartData.

End PowerOverviewChart.

(* ================================================================= *)
(** ** The live channel: useWebSocket and the dashboard it feeds *)
(* ================================================================= *)

Module Live.
Import Js Ui.

(** What the hook does besides updating its state. *)
Inductive HookEffect :=
| Log (message : string)
| LogError (message : string)
| Reconnect (delay : nat).

(** [useState(null)] for [data], [useState(false)] for [connected]. *)
Record Hook := mkHook {
  data : JsVal;
  connected : bool
}.

Definition initial : Hook := {| data := JNull; connected := false |}.

(** What the socket reports: it opened, a message arrived, it closed,
    it signalled an error, or constructing it threw. *)
Inductive SocketEvent :=
| Opened
| Message (raw : string)
| Closed
| Errored
| ConstructionFailed.

Section Hook.

(** [JSON.parse]: the text of a message to a value, or a SyntaxError. *)
Variable JSON_parse : string -> Completion JsVal.

(** The handlers [connect] installs, and its [catch]:
<<
  onopen    = () => { setConnected(true); console.log(...) };
  onmessage = (event) => {
    try { const parsedData = JSON.parse(event.data); setData(parsedData); }
    catch (e) { console.error('Failed to parse WebSocket data:', e); }
  };
  onclose   = () => { setConnected(false); console.log(...);
                      reconnectTimeoutRef.current = setTimeout(connect, 3000); };
  onerror   = (error) => { console.error('WebSocket error:', error); };
  ... catch (error) { console.error('WebSocket connection error:', error);
                      reconnectTimeoutRef.current = setTimeout(connect, 3000); }
>> *)
Definition handle (h : Hook) (ev : SocketEvent) : Hook * list HookEffect :=
  match ev with
  | Opened =>
      ({| data := data h; connected := true |}, [Log "WebSocket connected"])
  | Message raw =>
      match JSON_parse raw with
      | Return parsedData => ({| data := parsedData; connected := connected h |}, [])
      | Throw _ => (h, [LogError "Failed to parse WebSocket data:"])
      end
  | Closed =>
      ({| data := data h; connected := false |},
       [Log "WebSocket disconnected, reconnecting..."; Reconnect 3000])
  | Errored => (h, [LogError "WebSocket error:"])
  | ConstructionFailed =>
      (h, [LogError "WebSocket connection error:"; Reconnect 3000])
  end.

(** The state of DashboardPage: [useState(null)], [useState([])],
    [useState(null)], [useState(true)]. *)
Record Dashboard := mkDashboard {
  dashboardData : JsVal;
  historyData : JsVal;
  predictions : JsVal;
  loading : bool
}.

Definition dashboard0 : Dashboard :=
  {| dashboardData := JNull; historyData := JArr [];
     predictions := JNull; loading := true |}.

(** [fetchData] of DashboardPage, after the three requests have
    settled:
<<
  try {
    const [dashboard, history, preds] = await Promise.all([...]);
    setDashboardData(dashboard);
    setHistoryData(history.data || []);
    setPredictions(preds);
  } catch (error) { console.error('Failed to fetch data:', error); }
  finally { setLoading(false); }
>>
    Reading [history.data] throws for a history response that is [null],
    after the dashboard data has been set. *)
Definition fetchData (outcome : Completion (JsVal * JsVal * JsVal)) (d : Dashboard)
    : Dashboard :=
  match outcome with
  | Return (dashboard, history, preds) =>
      match member history "data" with
      | Return rows =>
          {| dashboardData := dashboard; historyData := or rows (JArr []);
             predictions := preds; loading := false |}
      | Throw _ =>
          {| dashboardData := dashboard; historyData := historyData d;
             predictions := predictions d; loading := false |}
      end
  | Throw _ =>
      {| dashboardData := dashboardData d; historyData := historyData d;
         predictions := predictions d; loading := false |}
  end.

(** [useEffect(() => { if (wsData) setDashboardData(wsData); }, [wsData])] *)
Definition onWsData (wsData : JsVal) (d : Dashboard) : Dashboard :=
  if ToBoolean wsData then
    {| dashboardData := wsData; historyData := historyData d;
       predictions := predictions d; loading := loading d |}
  else d.

(** [Object.is(a, b)] as React uses it to decide whether an effect's
    dependency changed.  A parsed object or array is a fresh value each
    time, so it never is the value held before; the two zeros, which
    [Object.is] tells apart, are both falsy and make no difference to
    the effect below. *)
Definition same_number (a b : number) : bool :=
  match a, b with
  | NaN, NaN | NegInf, NegInf | PosInf, PosInf => true
  | Fin p, Fin q => Qeq_bool p q
  | _, _ => false
  end.

Definition same_value (a b : JsVal) : bool :=
  match a, b with
  | JUndefined, JUndefined | JNull, JNull => true
  | JBool x, JBool y => Bool.eqb x y
  | JNum x, JNum y => same_number x y
  | JStr x, JStr y => String.eqb x y
  | _, _ => false
  end.

(** The page with its hook.  A socket event goes through the hook, and
    when it changed [data] the effect on [wsData] runs; a poll settles
    with the three responses. *)
Inductive Event :=
| Socket (ev : SocketEvent)
| Polled (outcome : Completion (JsVal * JsVal * JsVal)).

Definition step (st : Hook * Dashboard) (ev : Event) : Hook * Dashboard :=
  let '(h, d) := st in
  match ev with
  | Socket sev =>
      let h' := fst (handle h sev) in
      match sev with
      | Message raw =>
          match JSON_parse raw with
          | Return parsedData =>
              if same_value (data h) parsedData then (h', d)
              else (h', onWsData parsedData d)
          | Throw _ => (h', d)
          end
      | _ => (h', d)
      end
  | Polled outcome => (h, fetchData outcome d)
  end.

Definition run (st : Hook * Dashboard) (evs : list Event) : Hook * Dashboard :=
  foldl step st evs.

(** The reconnections the hook schedules over a run of socket events:
    the delay of each [setTimeout(connect, delay)], in the order of the
    calls. *)
Fixpoint reconnect_delays (h : Hook) (evs : list SocketEvent) : list nat :=
  match evs with
  | [] => []
  | ev :: rest =>
      let '(h', effects) := handle h ev in
      flat_map (fun e => match e with Reconnect delay => [delay] | _ => [] end)
               effects
      ++ reconnect_delays h' rest
  end.

End Hook.

End Live.

(* ================================================================= *)
(** ** App: theme, session and protected routes *)
(* ================================================================= *)

Module App.
Import Js Ui.

(** *** ThemeProvider *)

(** [useState(() => { const saved = localStorage.getItem('isems-theme');
                       return saved || 'dark'; })] *)
Definition initialTheme (saved : option string) : string :=
  match saved with
  | Some s => if ToBoolean (JStr s) then s else "dark"
  | None => "dark"
  end.

(** [setTheme(prev => prev === 'dark' ? 'light' : 'dark')] *)
Definition toggleTheme (prev : string) : string :=
  if is_string (JStr prev) "dark" then "light" else "dark".

(** The first statement of the effect on [theme]:
    [localStorage.setItem('isems-theme', theme)]; what the storage then
    holds under that key. *)
Definition persistTheme (theme : string) : option string := Some theme.

(** *** AuthProvider *)

(** [user], [token], [loading], and what [localStorage] holds under
    ['isems-token']: the value last handed to [setItem] (the storage
    keeps its string form), or nothing. *)
Record Auth := mkAuth {
  user : JsVal;
  token : JsVal;
  loading : bool;
  stored : option JsVal
}.

(** [useState(null)], [useState(() => localStorage.getItem('isems-token'))],
    [useState(true)] *)
Definition initialAuth (saved : option string) : Auth :=
  {| user := JNull;
     token := match saved with Some s => JStr s | None => JNull end;
     loading := true;
     stored := JStr <$> saved |}.

(** [login(accessToken, userData)] *)
Definition login (accessToken userData : JsVal) (a : Auth) : Auth :=
  {| user := userData; token := accessToken; loading := loading a;
     stored := Some accessToken |}.

(** [logout()] *)
Definition logout (a : Auth) : Auth :=
  {| user := JNull; token := JNull; loading := loading a; stored := None |}.

Definition setLoading (b : bool) (a : Auth) : Auth :=
  {| user := user a; token := token a; loading := b; stored := stored a |}.

Definition setUser (u : JsVal) (a : Auth) : Auth :=
  {| user := u; token := token a; loading := loading a; stored := stored a |}.

(** [validateToken], the effect on [token], once the request to
    [/api/auth/me] has settled with [fetched]:
<<
  if (token) {
    try {
      const response = await fetch(..., { headers: { Authorization: `Bearer ${token}` } });
      if (response.ok) { const userData = await response.json(); setUser(userData); }
      else { logout(); }
    } catch (error) { console.error('Token validation error:', error); logout(); }
  }
  setLoading(false);
>> *)
Definition validateToken (fetched : Completion Api.Response) (a : Auth) : Auth :=
  if ToBoolean (token a) then
    match bind fetched (fun response =>
            if Api.ok response
            then bind (Api.json response) (fun userData => Return (Some userData))
            else Return None) with
    | Return (Some userData) => setLoading false (setUser userData a)
    | Return None => setLoading false (logout a)
    | Throw _ => setLoading false (logout a)
    end
  else setLoading false a.

(** *** ProtectedRoute *)

Inductive Routed := LoadingScreen | NavigateTo (path : string) | Children.

(** [if (loading) return <Loading/>; if (!token) return <Navigate to="/login"/>;
     return children;] *)
Definition ProtectedRoute (a : Auth) : Routed :=
  if loading a then LoadingScreen
  else if not (token a) then NavigateTo "/login"
  else Children.

(** *** LoginPage *)

(** [api.login] and [api.register] of the service with [handleResponse]. *)
Definition api_login (fetched : Completion Api.Response) : Completion JsVal :=
  bind fetched Api.handleResponse.

(** [api.login] of the service that inlines the check:
    [if (!response.ok) throw new Error('Invalid credentials'); return response.json();] *)
Definition api_login_inline (fetched : Completion Api.Response) : Completion JsVal :=
  bind fetched (fun response =>
    if negb (Api.ok response) then Throw (Error (JStr "Invalid credentials"))
    else Api.json response).

(** [api.register] of the service that inlines the check:
<<
  if (!response.ok) {
    const error = await response.json();
    throw new Error(error.detail || 'Registration failed');
  }
  return response.json();
>> *)
Definition api_register_inline (fetched : Completion Api.Response) : Completion JsVal :=
  bind fetched (fun response =>
    if negb (Api.ok response) then
      bind (Api.json response) (fun error =>
      bind (member error "detail") (fun detail =>
      Throw (Error (or detail (JStr "Registration failed")))))
    else Api.json response).

(** What [handleSubmit] does besides updating the session. *)
Inductive SubmitEffect :=
| Toast (message : string)
| ToastFailure (error : Exn) (fallback : string)
| Navigate (path : string).

(** [handleSubmit], once [api.login] (or [api.register]) has settled
    with [result]; [isLogin] tells which form was shown:
<<
  try {
    if (isLogin) {
      const data = await api.login(email, password);
      login(data.access_token, data.user);
      toast.success('Welcome back!');
      navigate('/');
    } else { ... 'Account created successfully!' ... }
  } catch (error) {
    toast.error(error.message || 'Authentication failed');
  } finally { setLoading(false); }
>>
    Reading [data.access_token] throws for a response body that is
    [null]. *)
Definition handleSubmit (isLogin : bool) (result : Completion JsVal) (a : Auth)
    : Auth * list SubmitEffect :=
  match bind result (fun data =>
        bind (member data "access_token") (fun access_token =>
        bind (member data "user") (fun user =>
        Return (access_token, user)))) with
  | Return (access_token, user) =>
      (login access_token user a,
       [Toast (if isLogin then "Welcome back!" else "Account created successfully!");
        Navigate "/"])
  | Throw error => (a, [ToastFailure error "Authentication failed"])
  end.

End App.

(* ================================================================= *)
(** ** Properties *)
(* ================================================================= *)

(** *** Facts about the JavaScript fragment *)

Module JsFacts.
Import Js.

Lemma lt_Fin (p q : Q) :
  lt (JNum (Fin p)) (Fin q) = if Qlt_le_dec p q then true else false.
Proof.
  unfold lt, ToNumber, lt_number.
  destruct (Qlt_le_dec p q) as [Hlt | Hle].
  - destruct (Qle_bool q p) eqn:E; [|reflexivity].
    apply Qle_bool_iff in E. exfalso. exact (Qlt_not_le _ _ Hlt E).
  - apply (proj2 (Qle_bool_iff q p)) in Hle. rewrite Hle. reflexivity.
Qed.

Lemma lt_Fin_true (p q : Q) : (p < q)%Q -> lt (JNum (Fin p)) (Fin q) = true.
Proof.
  intros H. rewrite lt_Fin. destruct (Qlt_le_dec p q) as [_ | Hle]; [reflexivity|].
  exfalso. exact (Qlt_not_le _ _ H Hle).
Qed.

Lemma lt_Fin_false (p q : Q) : (q <= p)%Q -> lt (JNum (Fin p)) (Fin q) = false.
Proof.
  intros H. rewrite lt_Fin. destruct (Qlt_le_dec p q) as [Hlt | _]; [|reflexivity].
  exfalso. exact (Qlt_not_le _ _ Hlt H).
Qed.

Lemma ToBoolean_Fin (q : Q) : ~ (q == 0)%Q -> ToBoolean (JNum (Fin q)) = true.
Proof.
  intros H. simpl. destruct (Qeq_bool q 0) eqn:E; [|reflexivity].
  apply Qeq_bool_eq in E. contradiction.
Qed.

Lemma or_truthy (a b : JsVal) : ToBoolean a = true -> or a b = a.
Proof. unfold or. intros ->. reflexivity. Qed.

Lemma or_falsy (a b : JsVal) : ToBoolean a = false -> or a b = b.
Proof. unfold or. intros ->. reflexivity. Qed.

Lemma ToBoolean_or (a b : JsVal) :
  ToBoolean (or a b) = ToBoolean a || ToBoolean b.
Proof. unfold or. destruct (ToBoolean a) eqn:E; [rewrite E|]; reflexivity. Qed.

Lemma nullish_default (a b : JsVal) : is_nullish a = true -> nullish a b = b.
Proof. destruct a; simpl; congruence. Qed.

Lemma nullish_present (a b : JsVal) : is_nullish a = false -> nullish a b = a.
Proof. destruct a; simpl; congruence. Qed.

(** [x || {}] is never [null] or [undefined], so reading a property of
    it cannot throw. *)
Lemma or_object_not_nullish (v : JsVal) : is_nullish (or v (JObj ∅)) = false.
Proof.
  unfold or. destruct (ToBoolean v) eqn:T; [|reflexivity].
  destruct v; simpl in *; congruence.
Qed.

Lemma member_or_object (v : JsVal) (k : string) :
  member (or v (JObj ∅)) k = Return (prop (or v (JObj ∅)) k).
Proof. unfold member. rewrite or_object_not_nullish. reflexivity. Qed.

(** A field that [?.] finds missing is also missing after [|| {}]. *)
Lemma prop_or_object_absent (v : JsVal) (k : string) :
  opt v k = JUndefined -> prop (or v (JObj ∅)) k = JUndefined.
Proof.
  unfold opt, or. destruct (ToBoolean v) eqn:T.
  - destruct (is_nullish v) eqn:N; [|auto].
    destruct v; simpl in *; congruence.
  - intros _. simpl. rewrite lookup_empty. reflexivity.
Qed.

End JsFacts.

(** *** The pump interlock *)

Module Interlock.
Import Js JsFacts.
Module B := LoadPage_battery_soc.
Module C := LoadPage_current_soc.
Local Open Scope Q_scope.

(** Once the spinner is gone, the pump's lock flag is the comparison
    the page makes on the data it holds. *)
Lemma B_locked_pump (st : B.State) :
  B.loading st = false ->
  B.locked st "pump" = Some (lt (B.batterySoc (B.loadData st)) (Fin 20)).
Proof. intros H. unfold B.locked, B.card, B.render. rewrite H. reflexivity. Qed.

Lemma C_locked_pump (st : C.State) :
  C.loading st = false ->
  C.locked st "pump" =
  Some (lt (or (prop (C.current (C.loadData st)) "soc") (JNum (Fin 100))) (Fin 20)).
Proof. intros H. unfold C.locked, C.card, C.render. rewrite H. reflexivity. Qed.

Lemma B_batterySoc_payload (soc : JsVal) :
  B.batterySoc (B.payload soc) = nullish soc (JNum (Fin 100)).
Proof.
  unfold B.batterySoc, B.payload, opt, prop. simpl.
  rewrite lookup_singleton_eq. reflexivity.
Qed.

Lemma C_soc_payload (soc : JsVal) :
  prop (C.current (C.payload soc)) "soc" = soc.
Proof.
  unfold C.current, C.payload, opt, prop at 2. simpl.
  rewrite lookup_singleton_eq. simpl. rewrite lookup_singleton_eq. reflexivity.
Qed.

(** A fetch that succeeds replaces the data and removes the spinner,
    whatever the page held before. *)
Lemma B_after_reading (st : B.State) (soc : Q) :
  let st' := fst (B.step st (B.reading soc)) in
  B.loading st' = false /\ B.loadData st' = B.payload (JNum (Fin soc)).
Proof. split; reflexivity. Qed.

Lemma C_after_reading (st : C.State) (soc : Q) :
  let st' := fst (C.step st (C.reading soc)) in
  C.loading st' = false /\ C.loadData st' = C.payload (JNum (Fin soc)).
Proof. split; reflexivity. Qed.

Lemma B_locked_after_reading (st : B.State) (soc : Q) :
  B.locked (fst (B.step st (B.reading soc))) "pump" =
  Some (if Qlt_le_dec soc 20 then true else false).
Proof.
  destruct (B_after_reading st soc) as [Hl Hd].
  rewrite B_locked_pump by exact Hl.
  rewrite Hd, B_batterySoc_payload. simpl nullish.
  rewrite lt_Fin. reflexivity.
Qed.

Lemma C_locked_after_reading (st : C.State) (soc : Q) :
  ~ soc == 0 ->
  C.locked (fst (C.step st (C.reading soc))) "pump" =
  Some (if Qlt_le_dec soc 20 then true else false).
Proof.
  intros Hnz. destruct (C_after_reading st soc) as [Hl Hd].
  rewrite C_locked_pump by exact Hl.
  rewrite Hd, C_soc_payload.
  rewrite or_truthy by (apply ToBoolean_Fin; exact Hnz).
  rewrite lt_Fin. reflexivity.
Qed.

(** C1 (as the code has it).  The pump's lock flag has no memory: after
    every reading it is Locked exactly when that reading's SOC is below
    20, whatever the earlier readings were.  This holds for every
    trajectory in the page that reads [battery_soc], and for every
    trajectory of non-zero readings in the page that reads [current.soc].
    There is no separate unlock threshold: a reading of 20 or more
    unlocks the pump. *)
Theorem pump_lock_follows_the_current_reading :
  (forall (st : B.State) (socs : list Q),
      B.lock_trace st (map B.reading socs) =
      map (fun soc => Some (if Qlt_le_dec soc 20 then true else false)) socs)
  /\
  (forall (st : C.State) (socs : list Q),
      Forall (fun soc => ~ soc == 0) socs ->
      C.lock_trace st (map C.reading socs) =
      map (fun soc => Some (if Qlt_le_dec soc 20 then true else false)) socs).
Proof.
  split.
  - intros st socs. revert st.
    induction socs as [|soc socs IH]; intros st; [reflexivity|].
    cbn [map B.lock_trace]. rewrite B_locked_after_reading. f_equal. apply IH.
  - intros st socs Hnz. revert st.
    induction Hnz as [|soc socs Hsoc _ IH]; intros st; [reflexivity|].
    cbn [map C.lock_trace]. rewrite C_locked_after_reading by exact Hsoc.
    f_equal. apply IH.
Qed.

Lemma pump_lock_follows_the_current_reading_witness :
  Forall (fun soc => ~ soc == 0) [19; 21; 19; 25] /\
  C.lock_trace C.initial (map C.reading [19; 21; 19; 25]) =
  map (fun soc => Some (if Qlt_le_dec soc 20 then true else false)) [19; 21; 19; 25].
Proof.
  assert (H : Forall (fun soc => ~ soc == 0) [19; 21; 19; 25]).
  { repeat constructor; intros E; vm_compute in E; discriminate E. }
  split; [exact H|].
  apply (proj2 pump_lock_follows_the_current_reading C.initial _ H).
Defined.

(** C1 (as stated) fails: on the trajectory 19, 21, 19, which never
    reaches 25, the pump is Locked, Unlocked, Locked. *)
Lemma pump_unlocks_between_20_and_25 :
  Forall (fun soc => soc < 25) [19; 21; 19] /\
  B.lock_trace B.initial (map B.reading [19; 21; 19]) =
  [Some true; Some false; Some true] /\
  C.lock_trace C.initial (map C.reading [19; 21; 19]) =
  [Some true; Some false; Some true] /\
  ~ Forall (fun flag => flag = Some true)
           (B.lock_trace B.initial (map B.reading [19; 21; 19])).
Proof.
  split; [repeat constructor|].
  split; [vm_compute; reflexivity|].
  split; [vm_compute; reflexivity|].
  intros H. vm_compute in H.
  inversion H as [|? ? _ Hrest]. inversion Hrest as [|? ? Hsecond _].
  discriminate Hsecond.
Qed.

(** The page as it stands after a fetch has delivered [data]. *)
Definition B_showing (data : JsVal) : B.State :=
  fst (B.step B.initial (B.Fetched (Return (data, JObj ∅)))).

Definition C_showing (data : JsVal) : C.State :=
  fst (C.step C.initial (C.Fetched (Return data))).

(** The pump's entry in [loads], the list the page computes from the
    data it holds and draws the cards from. *)
Definition B_pump (loadData : JsVal) : option B.Load.t :=
  List.find (fun load => String.eqb (B.Load.id load) "pump") (B.loads loadData).

Definition C_pump (loadData : JsVal) : option C.Load.t :=
  List.find (fun load => String.eqb (C.Load.id load) "pump") (C.loads loadData).

(** C2 (as the code has it).  Whenever the SOC field the page reads is
    a number below 20, the lock flag the page computes for the pump is
    true and the control chosen for the pump's card is the lock icon
    instead of the switch: in the page that reads [battery_soc] for
    every such number, 0 included; in the page that reads [current.soc]
    for every such number other than 0.  When the field is absent or
    [null], the page takes the SOC to be 100: the pump's lock flag is
    false and the control chosen for its card is the switch. *)
Theorem pump_locked_when_soc_is_a_number_below_20 :
  (forall (loadData : JsVal) (soc : Q) (controlling : gmap string bool),
      opt loadData "battery_soc" = JNum (Fin soc) ->
      soc < 20 ->
      B.Load.locked <$> B_pump loadData = Some true /\
      B.control loadData controlling <$> B_pump loadData = Some Ui.LockIcon)
  /\
  (forall (loadData : JsVal) (soc : Q) (controlling : gmap string bool),
      prop (C.current loadData) "soc" = JNum (Fin soc) ->
      soc < 20 -> ~ soc == 0 ->
      C.Load.locked <$> C_pump loadData = Some true /\
      C.control loadData controlling <$> C_pump loadData = Some Ui.LockIcon)
  /\
  (forall (loadData : JsVal) (controlling : gmap string bool),
      is_nullish (opt loadData "battery_soc") = true ->
      B.Load.locked <$> B_pump loadData = Some false /\
      exists checked currentState disabled,
        B.control loadData controlling <$> B_pump loadData =
        Some (Ui.Switch checked "pump" currentState disabled))
  /\
  (forall (loadData : JsVal) (controlling : gmap string bool),
      is_nullish (prop (C.current loadData) "soc") = true ->
      C.Load.locked <$> C_pump loadData = Some false /\
      exists checked currentState disabled,
        C.control loadData controlling <$> C_pump loadData =
        Some (Ui.Switch checked "pump" currentState disabled)).
Proof.
  split; [|split; [|split]].
  - intros loadData soc controlling Hsoc Hlt.
    assert (Hlock : lt (B.batterySoc loadData) (Fin 20) = true).
    { unfold B.batterySoc. rewrite Hsoc. simpl nullish.
      apply lt_Fin_true, Hlt. }
    unfold B_pump, B.loads. cbn [List.find B.Load.id String.eqb Ascii.eqb Bool.eqb].
    cbn [fmap option_fmap option_map B.Load.locked].
    unfold B.control. cbn [B.Load.locked]. rewrite Hlock. split; reflexivity.
  - intros loadData soc controlling Hsoc Hlt Hnz.
    assert (Hlock : lt (or (prop (C.current loadData) "soc") (JNum (Fin 100)))
                       (Fin 20) = true).
    { rewrite Hsoc. rewrite or_truthy by (apply ToBoolean_Fin; exact Hnz).
      apply lt_Fin_true, Hlt. }
    unfold C_pump, C.loads. cbn [List.find C.Load.id String.eqb Ascii.eqb Bool.eqb].
    cbn [fmap option_fmap option_map C.Load.locked].
    unfold C.control. cbn [C.Load.locked]. rewrite Hlock. split; reflexivity.
  - intros loadData controlling Hn.
    assert (Hlock : lt (B.batterySoc loadData) (Fin 20) = false).
    { unfold B.batterySoc. rewrite nullish_default by exact Hn. reflexivity. }
    unfold B_pump, B.loads. cbn [List.find B.Load.id String.eqb Ascii.eqb Bool.eqb].
    cbn [fmap option_fmap option_map B.Load.locked].
    unfold B.control. cbn [B.Load.locked B.Load.id B.Load.isOn]. rewrite Hlock.
    split; [reflexivity|]. do 3 eexists. reflexivity.
  - intros loadData controlling Hn.
    assert (Hlock : lt (or (prop (C.current loadData) "soc") (JNum (Fin 100)))
                       (Fin 20) = false).
    { rewrite or_falsy; [reflexivity|].
      destruct (prop (C.current loadData) "soc"); simpl in *; congruence. }
    unfold C_pump, C.loads. cbn [List.find C.Load.id String.eqb Ascii.eqb Bool.eqb].
    cbn [fmap option_fmap option_map C.Load.locked].
    unfold C.control. cbn [C.Load.locked C.Load.id C.Load.isOn]. rewrite Hlock.
    split; [reflexivity|]. do 3 eexists. reflexivity.
Qed.

Lemma pump_locked_when_soc_is_a_number_below_20_witness :
  (B.Load.locked <$> B_pump (B.payload (JNum (Fin 0))) = Some true /\
   B.control (B.payload (JNum (Fin 0))) ∅ <$> B_pump (B.payload (JNum (Fin 0))) =
     Some Ui.LockIcon) /\
  (C.Load.locked <$> C_pump (C.payload (JNum (Fin 19))) = Some true /\
   C.control (C.payload (JNum (Fin 19))) ∅ <$> C_pump (C.payload (JNum (Fin 19))) =
     Some Ui.LockIcon) /\
  B.Load.locked <$> B_pump (JObj ∅) = Some false /\
  C.Load.locked <$> C_pump (C.payload JNull) = Some false.
Proof.
  destruct pump_locked_when_soc_is_a_number_below_20 as (H1 & H2 & H3 & H4).
  split; [|split; [|split]].
  - apply (H1 _ 0); [vm_compute; reflexivity | reflexivity].
  - apply (H2 _ 19); [vm_compute; reflexivity | reflexivity |].
    intros E; vm_compute in E; discriminate E.
  - apply (H3 (JObj ∅) ∅). vm_compute. reflexivity.
  - apply (H4 (C.payload JNull) ∅). vm_compute. reflexivity.
Defined.

(** The reading with a battery at 10 and a pump voltage that is [null]:
    the lock flag is computed from the SOC alone. *)
Example pump_locked_whatever_the_metrics :
  B.Load.locked <$>
    B_pump (JObj (<["battery_soc" := JNum (Fin 10)]>
                  {[ "current" := JObj {[ "pump_voltage" := JNull ]} ]})) =
  Some true.
Proof. vm_compute. reflexivity. Qed.

(** C2 (as stated) fails where the SOC field is absent: on the payload
    [{}] the pump's lock flag is false in both pages, and both show the
    pump not Locked. *)
Lemma pump_not_locked_when_soc_is_absent :
  opt (JObj ∅) "battery_soc" = JUndefined /\
  B.Load.locked <$> B_pump (JObj ∅) = Some false /\
  B.locked (B_showing (JObj ∅)) "pump" = Some false /\
  prop (C.current (JObj ∅)) "soc" = JUndefined /\
  C.Load.locked <$> C_pump (JObj ∅) = Some false /\
  C.locked (C_showing (JObj ∅)) "pump" = Some false.
Proof. repeat split; vm_compute; reflexivity. Qed.

(** The loads other than the pump, with their tier and lock flag. *)
Definition B_other_loads (loadData : JsVal) : list (string * string * bool) :=
  map (fun load => (B.Load.id load, B.Load.tier load, B.Load.locked load))
      (filter (fun load => B.Load.id load <> "pump") (B.loads loadData)).

Definition C_other_loads (loadData : JsVal) : list (string * string * bool) :=
  map (fun load => (C.Load.id load, C.Load.tier load, C.Load.locked load))
      (filter (fun load => C.Load.id load <> "pump") (C.loads loadData)).

(** C3.  For every payload, whatever SOC it carries, the loads other
    than the pump are the light (essential) and the fan (semi-essential),
    and neither is locked. *)
Theorem light_and_fan_are_never_locked (loadData : JsVal) :
  B_other_loads loadData =
    [("light", "essential", false); ("fan", "semi-essential", false)] /\
  C_other_loads loadData =
    [("light", "essential", false); ("fan", "semi-essential", false)].
Proof. split; reflexivity. Qed.

(** The payload on which the two pages part: an SOC of 0 in both the
    field the one reads and the field the other reads. *)
Definition soc_zero : JsVal :=
  JObj (<["battery_soc" := JNum (Fin 0)]>
        {[ "current" := JObj {[ "soc" := JNum (Fin 0) ]} ]}).

(** C9 fails at an SOC of 0: [(0 ?? 100) < 20] locks the pump, while
    [(0 || 100) < 20] does not. *)
Theorem pages_disagree_at_soc_zero :
  B.locked (B_showing soc_zero) "pump" = Some true /\
  C.locked (C_showing soc_zero) "pump" = Some false.
Proof. split; vm_compute; reflexivity. Qed.

End Interlock.

(** *** The control path *)

Module ControlPath.
Import Js JsFacts Ui.
Module B := LoadPage_battery_soc.
Module C := LoadPage_current_soc.
Module G := GridPage.

(** The card found for an id is the card of the load with that id, and
    its control is the one the page computes for that load. *)
Lemma B_card_spec (st : B.State) (id : string) (c : B.Load.t * Control) :
  B.card st id = Some c ->
  B.Load.id (fst c) = id /\
  snd c = B.control (B.loadData st) (B.controlling st) (fst c).
Proof.
  unfold B.card, B.render. destruct (B.loading st); [discriminate|].
  intros H. apply List.find_some in H. destruct H as [Hin Hid].
  apply String.eqb_eq in Hid. split; [exact Hid|].
  unfold B.cards in Hin. apply in_map_iff in Hin.
  destruct Hin as (load & <- & _). reflexivity.
Qed.

Lemma C_card_spec (st : C.State) (id : string) (c : C.Load.t * Control) :
  C.card st id = Some c ->
  C.Load.id (fst c) = id /\
  snd c = C.control (C.loadData st) (C.controlling st) (fst c).
Proof.
  unfold C.card, C.render. destruct (C.loading st); [discriminate|].
  intros H. apply List.find_some in H. destruct H as [Hin Hid].
  apply String.eqb_eq in Hid. split; [exact Hid|].
  unfold C.cards in Hin. apply in_map_iff in Hin.
  destruct Hin as (load & <- & _). reflexivity.
Qed.

(** Operating the control of load [id] calls [handleToggle] with that
    id, and only if the load is not locked and its switch is enabled. *)
Lemma B_fires_spec (st : B.State) (id device : string) (currentState : JsVal) :
  B.card st id ≫= fires ∘ snd = Some (device, currentState) ->
  device = id /\ B.locked st id = Some false /\
  ToBoolean (B.deviceOnline (B.loadData st)) = true.
Proof.
  unfold B.locked. destruct (B.card st id) as [c|] eqn:Hc; [|discriminate].
  destruct (B_card_spec _ _ _ Hc) as [Hid Hctl]. simpl. rewrite Hctl.
  unfold B.control. destruct (B.Load.locked (fst c)); [discriminate|].
  simpl. rewrite ToBoolean_or. unfold not.
  destruct (ToBoolean (B.isControlling _ _)); [discriminate|].
  destruct (ToBoolean (B.deviceOnline _)); [|discriminate].
  simpl. intros [= <- _]. auto.
Qed.

Lemma C_fires_spec (st : C.State) (id device : string) (currentState : JsVal) :
  C.card st id ≫= fires ∘ snd = Some (device, currentState) ->
  device = id /\ C.locked st id = Some false /\
  ToBoolean (C.deviceOnline (C.loadData st)) = true.
Proof.
  unfold C.locked. destruct (C.card st id) as [c|] eqn:Hc; [|discriminate].
  destruct (C_card_spec _ _ _ Hc) as [Hid Hctl]. simpl. rewrite Hctl.
  unfold C.control. destruct (C.Load.locked (fst c)); [discriminate|].
  simpl. rewrite ToBoolean_or. unfold not.
  destruct (ToBoolean (C.isControlling _ _)); [discriminate|].
  destruct (ToBoolean (C.deviceOnline _)); [|discriminate].
  simpl. intros [= <- _]. auto.
Qed.

(** The only requests a settled fetch or a settled control request
    gives rise to are reads. *)
Lemma B_fetchData_reads outcome st :
  requests (snd (B.fetchData outcome st)) = [].
Proof. destruct outcome as [[? ?]|]; reflexivity. Qed.

Lemma B_settle_reads device currentState result refetched st :
  Forall (fun r => is_command r = false)
         (requests (snd (B.handleToggle_settle device currentState result refetched st))).
Proof.
  unfold B.handleToggle_settle. destruct result; [|constructor].
  destruct (B.fetchData refetched st) as [st' effects] eqn:E.
  pose proof (B_fetchData_reads refetched st) as H. rewrite E in H. simpl in H.
  simpl. unfold requests in *. rewrite H. repeat constructor.
Qed.

Lemma C_fetchData_reads outcome st :
  requests (snd (C.fetchData outcome st)) = [].
Proof. destruct outcome; reflexivity. Qed.

Lemma C_settle_reads device currentState result refetched st :
  Forall (fun r => is_command r = false)
         (requests (snd (C.handleToggle_settle device currentState result refetched st))).
Proof.
  unfold C.handleToggle_settle. destruct result; [|constructor].
  destruct (C.fetchData refetched st) as [st' effects] eqn:E.
  pose proof (C_fetchData_reads refetched st) as H. rewrite E in H. simpl in H.
  simpl. unfold requests in *. rewrite H. repeat constructor.
Qed.

Lemma reads_do_not_target (device : string) (rs : list Api.Request) :
  Forall (fun r => is_command r = false) rs ->
  Forall (fun r => targets device r = false) rs.
Proof.
  intros H. eapply Forall_impl; [exact H|].
  intros r. destruct r; simpl; congruence.
Qed.

(** C4.  While the pump's lock flag is set, its card carries the lock
    icon instead of a switch, and nothing that happens to the page sends
    a control request for the pump, whatever state the request would ask
    for. *)
Theorem locked_pump_cannot_be_commanded :
  (forall (st : B.State) (ev : B.Event),
      B.locked st "pump" = Some true ->
      snd <$> B.card st "pump" = Some LockIcon /\
      Forall (fun r => targets "pump" r = false) (requests (snd (B.step st ev))))
  /\
  (forall (st : C.State) (ev : C.Event),
      C.locked st "pump" = Some true ->
      snd <$> C.card st "pump" = Some LockIcon /\
      Forall (fun r => targets "pump" r = false) (requests (snd (C.step st ev)))).
Proof.
  split.
  - intros st ev Hlocked. split.
    + unfold B.locked in Hlocked.
      destruct (B.card st "pump") as [c|] eqn:Hc; [|discriminate].
      destruct (B_card_spec _ _ _ Hc) as [_ Hctl].
      simpl in Hlocked. injection Hlocked as Hl.
      simpl. rewrite Hctl. unfold B.control. rewrite Hl. reflexivity.
    + destruct ev as [outcome | id | device currentState result refetched].
      * simpl. rewrite B_fetchData_reads. constructor.
      * simpl. destruct (B.card st id ≫= fires ∘ snd) as [[device cs]|] eqn:E;
          [|constructor].
        destruct (B_fires_spec _ _ _ _ E) as (-> & Hfree & _).
        repeat constructor. simpl.
        destruct (String.eqb id "pump") eqn:Hid; [|reflexivity].
        apply String.eqb_eq in Hid. subst id. congruence.
      * simpl. apply reads_do_not_target, B_settle_reads.
  - intros st ev Hlocked. split.
    + unfold C.locked in Hlocked.
      destruct (C.card st "pump") as [c|] eqn:Hc; [|discriminate].
      destruct (C_card_spec _ _ _ Hc) as [_ Hctl].
      simpl in Hlocked. injection Hlocked as Hl.
      simpl. rewrite Hctl. unfold C.control. rewrite Hl. reflexivity.
    + destruct ev as [outcome | id | device currentState result refetched].
      * simpl. rewrite C_fetchData_reads. constructor.
      * simpl. destruct (C.card st id ≫= fires ∘ snd) as [[device cs]|] eqn:E;
          [|constructor].
        destruct (C_fires_spec _ _ _ _ E) as (-> & Hfree & _).
        repeat constructor. simpl.
        destruct (String.eqb id "pump") eqn:Hid; [|reflexivity].
        apply String.eqb_eq in Hid. subst id. congruence.
      * simpl. apply reads_do_not_target, C_settle_reads.
Qed.

(** The pages showing an online device whose battery is at the given
    SOC. *)
Definition B_online (soc : Q) : B.State :=
  Interlock.B_showing
    (JObj (<["device_online" := JBool true]> {[ "battery_soc" := JNum (Fin soc) ]})).

Definition C_online (soc : Q) : C.State :=
  Interlock.C_showing
    (JObj (<["device_online" := JBool true]>
           {[ "current" := JObj {[ "soc" := JNum (Fin soc) ]} ]})).

Lemma locked_pump_cannot_be_commanded_witness :
  (B.locked (B_online 10) "pump" = Some true /\
   snd <$> B.card (B_online 10) "pump" = Some LockIcon /\
   Forall (fun r => targets "pump" r = false)
          (requests (snd (B.step (B_online 10) (B.Toggled "pump")))))
  /\
  (C.locked (C_online 10) "pump" = Some true /\
   snd <$> C.card (C_online 10) "pump" = Some LockIcon /\
   Forall (fun r => targets "pump" r = false)
          (requests (snd (C.step (C_online 10) (C.Toggled "pump"))))).
Proof.
  destruct locked_pump_cannot_be_commanded as [HB HC].
  assert (Hb : B.locked (B_online 10) "pump" = Some true) by (vm_compute; reflexivity).
  assert (Hc : C.locked (C_online 10) "pump" = Some true) by (vm_compute; reflexivity).
  split.
  - split; [exact Hb|]. exact (HB (B_online 10) (B.Toggled "pump") Hb).
  - split; [exact Hc|]. exact (HC (C_online 10) (C.Toggled "pump") Hc).
Defined.

(** With the battery at 50 and the device online the same click does
    send the request. *)
Example unlocked_pump_can_be_commanded :
  requests (snd (B.step (B_online 50) (B.Toggled "pump"))) =
    [Api.PostLoadControl "pump" true] /\
  requests (snd (C.step (C_online 50) (C.Toggled "pump"))) =
    [Api.PostLoadControl "pump" true].
Proof. split; vm_compute; reflexivity. Qed.

(** While the device is taken to be offline, [disabled] is set on
    every switch and on every mode button. *)
Lemma offline_disables (x online : JsVal) :
  ToBoolean online = false ->
  ToBoolean (or x (JBool (not online))) = true.
Proof.
  intros H. rewrite ToBoolean_or. unfold not. rewrite H. simpl.
  apply orb_true_r.
Qed.

Lemma B_offline_controls (loadData : JsVal) (controlling : gmap string bool) :
  ToBoolean (B.deviceOnline loadData) = false ->
  Forall (fun c => snd c = LockIcon \/ is_disabled (snd c) = true)
         (B.cards loadData controlling).
Proof.
  intros H. unfold B.cards. apply Forall_map, Forall_forall. intros load _.
  simpl. unfold B.control. destruct (B.Load.locked load); [left; reflexivity|].
  right. simpl. apply offline_disables, H.
Qed.

Lemma C_offline_controls (loadData : JsVal) (controlling : gmap string bool) :
  ToBoolean (C.deviceOnline loadData) = false ->
  Forall (fun c => snd c = LockIcon \/ is_disabled (snd c) = true)
         (C.cards loadData controlling).
Proof.
  intros H. unfold C.cards. apply Forall_map, Forall_forall. intros load _.
  simpl. unfold C.control. destruct (C.Load.locked load); [left; reflexivity|].
  right. simpl. apply offline_disables, H.
Qed.

Lemma G_offline_buttons (gridData : JsVal) (settingMode : bool) :
  ToBoolean (G.deviceOnline gridData) = false ->
  Forall (fun b => ToBoolean (disabled b) = true) (G.buttons gridData settingMode).
Proof.
  intros H. unfold G.buttons. apply Forall_map, Forall_forall. intros id _.
  simpl. apply offline_disables, H.
Qed.

Lemma G_clicks_spec (st : G.State) (id mode : string) :
  G.button st id ≫= clicks = Some mode ->
  ToBoolean (G.deviceOnline (G.gridData st)) = true.
Proof.
  unfold G.button, G.render. destruct (G.loading st); [discriminate|].
  destruct (List.find _ _) as [b|] eqn:Hb; [|discriminate].
  apply List.find_some in Hb. destruct Hb as [Hin _].
  destruct (ToBoolean (G.deviceOnline (G.gridData st))) eqn:Hon; [reflexivity|].
  pose proof (G_offline_buttons (G.gridData st) (G.settingMode st) Hon) as Hall.
  rewrite Forall_forall in Hall. apply list_elem_of_In, Hall in Hin.
  simpl. unfold clicks. rewrite Hin. discriminate.
Qed.

Lemma G_fetchData_reads outcome st :
  requests (snd (G.fetchData outcome st)) = [].
Proof. destruct outcome; reflexivity. Qed.

Lemma G_settle_reads mode result refetched st :
  Forall (fun r => is_command r = false)
         (requests (snd (G.handleModeChange_settle mode result refetched st))).
Proof.
  unfold G.handleModeChange_settle. destruct result; [|constructor].
  destruct (G.fetchData refetched st) as [st' effects] eqn:E.
  pose proof (G_fetchData_reads refetched st) as H. rewrite E in H. simpl in H.
  simpl. unfold requests in *. rewrite H. repeat constructor.
Qed.

(** C10.  While the derived [deviceOnline] flag is false (or any other
    falsy value), every load switch and every grid mode button is
    disabled, and nothing that happens to the page sends a load-control
    or grid-mode request. *)
Theorem no_command_while_offline :
  (forall (st : B.State) (ev : B.Event),
      ToBoolean (B.deviceOnline (B.loadData st)) = false ->
      Forall (fun c => snd c = LockIcon \/ is_disabled (snd c) = true)
             (B.cards (B.loadData st) (B.controlling st)) /\
      Forall (fun r => is_command r = false) (requests (snd (B.step st ev))))
  /\
  (forall (st : C.State) (ev : C.Event),
      ToBoolean (C.deviceOnline (C.loadData st)) = false ->
      Forall (fun c => snd c = LockIcon \/ is_disabled (snd c) = true)
             (C.cards (C.loadData st) (C.controlling st)) /\
      Forall (fun r => is_command r = false) (requests (snd (C.step st ev))))
  /\
  (forall (st : G.State) (ev : G.Event),
      ToBoolean (G.deviceOnline (G.gridData st)) = false ->
      Forall (fun b => ToBoolean (disabled b) = true)
             (G.buttons (G.gridData st) (G.settingMode st)) /\
      Forall (fun r => is_command r = false) (requests (snd (G.step st ev)))).
Proof.
  split; [|split].
  - intros st ev Hoff. split; [apply B_offline_controls, Hoff|].
    destruct ev as [outcome | id | device currentState result refetched]; simpl.
    + rewrite B_fetchData_reads. constructor.
    + destruct (B.card st id ≫= fires ∘ snd) as [[device cs]|] eqn:E; [|constructor].
      destruct (B_fires_spec _ _ _ _ E) as (_ & _ & Hon). congruence.
    + apply B_settle_reads.
  - intros st ev Hoff. split; [apply C_offline_controls, Hoff|].
    destruct ev as [outcome | id | device currentState result refetched]; simpl.
    + rewrite C_fetchData_reads. constructor.
    + destruct (C.card st id ≫= fires ∘ snd) as [[device cs]|] eqn:E; [|constructor].
      destruct (C_fires_spec _ _ _ _ E) as (_ & _ & Hon). congruence.
    + apply C_settle_reads.
  - intros st ev Hoff. split; [apply G_offline_buttons, Hoff|].
    destruct ev as [outcome | id | mode result refetched]; simpl.
    + rewrite G_fetchData_reads. constructor.
    + destruct (G.button st id ≫= clicks) as [mode|] eqn:E; [|constructor].
      apply G_clicks_spec in E. congruence.
    + apply G_settle_reads.
Qed.

(** The pages showing a payload that reports the device offline, with
    a full battery. *)
Definition B_offline : B.State :=
  Interlock.B_showing
    (JObj (<["device_online" := JBool false]> {[ "battery_soc" := JNum (Fin 90) ]})).

Definition C_offline : C.State :=
  Interlock.C_showing (JObj {[ "device_online" := JBool false ]}).

Definition G_offline : G.State :=
  fst (G.step G.initial (G.Fetched (Return (JObj {[ "device_online" := JBool false ]})))).

Definition G_online : G.State :=
  fst (G.step G.initial (G.Fetched (Return (JObj {[ "device_online" := JBool true ]})))).

Lemma no_command_while_offline_witness :
  Forall (fun r => is_command r = false)
         (requests (snd (B.step B_offline (B.Toggled "pump")))) /\
  Forall (fun r => is_command r = false)
         (requests (snd (C.step C_offline (C.Toggled "light")))) /\
  Forall (fun r => is_command r = false)
         (requests (snd (G.step G_offline (G.Clicked "solar")))).
Proof.
  destruct no_command_while_offline as (HB & HC & HG).
  split; [|split].
  - apply (HB B_offline (B.Toggled "pump")). vm_compute. reflexivity.
  - apply (HC C_offline (C.Toggled "light")). vm_compute. reflexivity.
  - apply (HG G_offline (G.Clicked "solar")). vm_compute. reflexivity.
Defined.

(** Online, the same click on a mode button does send the request. *)
Example mode_can_be_set_online :
  requests (snd (G.step G_online (G.Clicked "solar"))) = [Api.PostGridMode "solar"].
Proof. vm_compute. reflexivity. Qed.

End ControlPath.

(** *** Rejected control requests *)

Module Rejection.
Import Js JsFacts Ui.
Module B := LoadPage_battery_soc.
Module C := LoadPage_current_soc.

(** The detail the service extracts from a response that is not ok is
    never empty: the last alternative is a non-empty literal. *)
Lemma handleResponse_not_ok (response : Api.Response) :
  Api.ok response = false ->
  exists message : JsVal,
    ToBoolean message = true /\
    Api.handleResponse response = Throw (Error message).
Proof.
  intros Hok. unfold Api.handleResponse. rewrite Hok. simpl negb. cbv iota.
  destruct (Api.json response) as [errorData | e]; simpl.
  - unfold member. destruct (is_nullish errorData); simpl.
    + eexists. split; [|reflexivity].
      rewrite ToBoolean_or. apply orb_true_r.
    + destruct (ToBoolean (prop errorData "detail")) eqn:D; simpl.
      * eexists. split; [exact D | reflexivity].
      * eexists. split; [|reflexivity].
        rewrite ToBoolean_or. apply orb_true_r.
  - eexists. split; [|reflexivity].
    rewrite ToBoolean_or. apply orb_true_r.
Qed.

(** What [new Error(...)] is given by [handleResponse] for a response
    that is not ok: [detail || message || 'Request failed'] of a body
    that is JSON other than [null], and [statusText || 'Request failed']
    when reading the body throws, which it does for a body that is not
    JSON and, at [errorData.detail], for a body that is [null]. *)
Definition errorDetail (response : Api.Response) : JsVal :=
  match Api.json response with
  | Return errorData =>
      if is_nullish errorData
      then or (JStr (Api.statusText response)) (JStr "Request failed")
      else or (prop errorData "detail")
              (or (prop errorData "message") (JStr "Request failed"))
  | Throw _ => or (JStr (Api.statusText response)) (JStr "Request failed")
  end.

Lemma handleResponse_errorDetail (response : Api.Response) :
  Api.ok response = false ->
  Api.handleResponse response = Throw (Error (errorDetail response)).
Proof.
  intros Hok. unfold Api.handleResponse, errorDetail. rewrite Hok. simpl negb. cbv iota.
  destruct (Api.json response) as [errorData | e]; simpl; [|reflexivity].
  unfold member. destruct (is_nullish errorData); simpl; [reflexivity|].
  unfold or. destruct (ToBoolean (prop errorData "detail")); reflexivity.
Qed.

(** What the service that inlines the check throws for a response that
    is not ok: [new Error(error.detail || 'Failed to control load')] for
    a body that is JSON other than [null], the TypeError of
    [error.detail] for a body that is [null], and whatever reading a
    body that is not JSON throws. *)
Definition thrown_inline (response : Api.Response) : Exn :=
  match Api.json response with
  | Return error =>
      if is_nullish error then TypeError
      else Error (or (prop error "detail") (JStr "Failed to control load"))
  | Throw e => e
  end.

Lemma controlLoad_inline_thrown (device : string) (state : bool)
    (response : Api.Response) :
  Api.ok response = false ->
  Api.controlLoad_inline device state (Return response) =
  Throw (thrown_inline response).
Proof.
  intros Hok. unfold Api.controlLoad_inline, thrown_inline. simpl bind.
  rewrite Hok. simpl negb. cbv iota.
  destruct (Api.json response) as [error | e]; simpl; [|reflexivity].
  unfold member. destruct (is_nullish error); reflexivity.
Qed.

(** C5 (as the code has it).  A response that is not ok never reaches
    the caller of [controlLoad] as a value: the call throws.  The
    service with [handleResponse] throws [new Error(errorDetail)], where
    [errorDetail] is [detail || message || 'Request failed'] of a body
    that is JSON other than [null] and [statusText || 'Request failed']
    otherwise; the service that inlines the check throws
    [new Error(detail || 'Failed to control load')] for such a body, a
    TypeError for a [null] body and the parse error for a body that is
    not JSON.  In each LoadPage [handleToggle] catches what either
    service throws, shows [toast.error(error.message || `Failed to
    control ${device}`)] and nothing else, and takes the in-flight mark
    of the device back. *)
Theorem rejection_is_thrown
    (device : string) (state : bool) (response : Api.Response) :
  Api.ok response = false ->
  let thrown := Error (errorDetail response) in
  (Api.controlLoad device state (Return response) = Throw thrown /\
   Api.controlLoad_inline device state (Return response) =
     Throw (thrown_inline response))
  /\
  (forall errorData : JsVal,
      Api.json response = Return errorData -> is_nullish errorData = false ->
      errorDetail response =
        or (prop errorData "detail")
           (or (prop errorData "message") (JStr "Request failed")) /\
      thrown_inline response =
        Error (or (prop errorData "detail") (JStr "Failed to control load")))
  /\
  (forall errorData : JsVal,
      Api.json response = Return errorData -> is_nullish errorData = true ->
      errorDetail response =
        or (JStr (Api.statusText response)) (JStr "Request failed") /\
      thrown_inline response = TypeError)
  /\
  (forall e : Exn,
      Api.json response = Throw e ->
      errorDetail response =
        or (JStr (Api.statusText response)) (JStr "Request failed") /\
      thrown_inline response = e)
  /\
  (forall (result : Completion JsVal) (error : Exn),
      result = Api.controlLoad device state (Return response) /\ error = thrown \/
      result = Api.controlLoad_inline device state (Return response) /\
      error = thrown_inline response ->
      (forall currentState refetched st,
          B.handleToggle_settle device currentState result refetched st =
          (B.setControlling device false st,
           [ToastErrorOf error ("Failed to control " +:+ device)])) /\
      (forall currentState refetched st,
          C.handleToggle_settle device currentState result refetched st =
          (C.setControlling device false st,
           [ToastErrorOf error ("Failed to control " +:+ device)]))).
Proof.
  intros Hok thrown.
  assert (H1 : Api.controlLoad device state (Return response) = Throw thrown).
  { unfold Api.controlLoad. simpl bind. apply handleResponse_errorDetail, Hok. }
  pose proof (controlLoad_inline_thrown device state response Hok) as H2.
  split; [split; assumption|].
  split; [|split; [|split]].
  - intros errorData Hjson Hnn. unfold errorDetail, thrown_inline.
    rewrite Hjson, Hnn. split; reflexivity.
  - intros errorData Hjson Hn. unfold errorDetail, thrown_inline.
    rewrite Hjson, Hn. split; reflexivity.
  - intros e Hjson. unfold errorDetail, thrown_inline.
    rewrite Hjson. split; reflexivity.
  - intros result error [[-> ->] | [-> ->]].
    + rewrite H1. split; intros; reflexivity.
    + rewrite H2. split; intros; reflexivity.
Qed.

(** The response of the backend to a control request it refuses. *)
Definition refused_body : JsVal :=
  JObj {[ "detail" := JStr "Pump locked: battery SOC below 20%" ]}.

Definition refused : Api.Response :=
  {| Api.ok := false;
     Api.statusText := "Forbidden";
     Api.json := Return refused_body |}.

(** Refusals without a detail: an empty object, and a body that is not
    JSON. *)
Definition refused_bare : Api.Response :=
  {| Api.ok := false; Api.statusText := "Forbidden"; Api.json := Return (JObj ∅) |}.

Definition refused_text : Api.Response :=
  {| Api.ok := false; Api.statusText := "Forbidden"; Api.json := Throw SyntaxError |}.

Lemma rejection_is_thrown_witness :
  Api.ok refused = false /\
  (Api.controlLoad "pump" true (Return refused) = Throw (Error (errorDetail refused)) /\
   Api.controlLoad_inline "pump" true (Return refused) = Throw (thrown_inline refused))
  /\
  (errorDetail refused =
     or (prop refused_body "detail")
        (or (prop refused_body "message") (JStr "Request failed")) /\
   thrown_inline refused =
     Error (or (prop refused_body "detail") (JStr "Failed to control load")))
  /\
  (forall currentState refetched st,
      B.handleToggle_settle "pump" currentState
        (Api.controlLoad "pump" true (Return refused)) refetched st =
      (B.setControlling "pump" false st,
       [ToastErrorOf (Error (errorDetail refused)) ("Failed to control " +:+ "pump")])).
Proof.
  pose proof (rejection_is_thrown "pump" true refused eq_refl)
    as (H1 & H2 & _ & _ & H5).
  split; [reflexivity|]. split; [exact H1|].
  split; [apply (H2 refused_body); reflexivity|].
  apply (H5 (Api.controlLoad "pump" true (Return refused))
            (Error (errorDetail refused))).
  left. split; reflexivity.
Defined.

Example refusals_thrown :
  Api.controlLoad "pump" true (Return refused) =
    Throw (Error (JStr "Pump locked: battery SOC below 20%")) /\
  Api.controlLoad "pump" true (Return refused_bare) =
    Throw (Error (JStr "Request failed")) /\
  Api.controlLoad "pump" true (Return refused_text) =
    Throw (Error (JStr "Forbidden")) /\
  Api.controlLoad_inline "pump" true (Return refused_bare) =
    Throw (Error (JStr "Failed to control load")) /\
  Api.controlLoad_inline "pump" true (Return refused_text) = Throw SyntaxError.
Proof. repeat split; vm_compute; reflexivity. Qed.

(** C5 (as stated) fails: the refusal is not returned to the caller,
    it is thrown. *)
Lemma refusal_is_not_a_returned_value :
  Api.controlLoad "pump" true (Return refused) =
    Throw (Error (JStr "Pump locked: battery SOC below 20%")) /\
  Api.controlLoad_inline "pump" true (Return refused) =
    Throw (Error (JStr "Pump locked: battery SOC below 20%")) /\
  ~ exists value : JsVal,
      Api.controlLoad "pump" true (Return refused) = Return value.
Proof.
  split; [vm_compute; reflexivity|].
  split; [vm_compute; reflexivity|].
  intros [value H]. vm_compute in H. discriminate H.
Qed.

End Rejection.

(** *** The chart series *)

Module ChartFacts.
Import Js JsFacts Chart.

Section WithFormat.
Variable formatHHmm : JsVal -> Completion JsVal.

(** A traversal whose callback returns on every element returns the
    images of the elements, in order. *)
Lemma mapM_returns {A B} (f : A -> Completion B) (arr : list A) :
  Forall (fun x => returns (f x) = true) arr ->
  exists ys, mapM f arr = Return ys /\
             Forall2 (fun x y => f x = Return y) arr ys.
Proof.
  induction 1 as [|x arr Hx _ (ys & Hys & Hall)].
  - exists []. split; [reflexivity | constructor].
  - destruct (f x) as [y|e] eqn:Hfx; [|discriminate].
    exists (y :: ys). split.
    + simpl. rewrite Hfx. simpl. rewrite Hys. reflexivity.
    + constructor; assumption.
Qed.

Lemma slice_last_length {A} (k : nat) (arr : list A) :
  length (slice_last k arr) = Nat.min (length arr) k.
Proof. unfold slice_last. rewrite length_drop. lia. Qed.

Lemma slice_last_suffix {A} (k : nat) (arr : list A) :
  slice_last k arr `suffix_of` arr.
Proof. apply suffix_drop. Qed.

(** The callback returns on an object whose timestamp is missing or
    empty, and on one whose timestamp the formatter accepts. *)
Lemma withTime_returns (o : gmap string JsVal) :
  (ToBoolean (prop (JObj o) "timestamp") = true ->
   returns (formatHHmm (prop (JObj o) "timestamp")) = true) ->
  returns (withTime formatHHmm (JObj o)) = true.
Proof.
  intros H. unfold withTime, member. cbn [is_nullish bind].
  remember (prop (JObj o) "timestamp") as timestamp eqn:E. clear E.
  destruct (ToBoolean timestamp); [|reflexivity].
  destruct (formatHHmm timestamp); [reflexivity|].
  specialize (H eq_refl). discriminate H.
Qed.

End WithFormat.

(** An entry of the history the chart can label: an object whose
    timestamp is missing or falsy, or one the formatter accepts. *)
Definition labelled (formatHHmm : JsVal -> Completion JsVal) (item : JsVal) : bool :=
  match item with
  | JObj _ =>
      negb (ToBoolean (prop item "timestamp"))
      || returns (formatHHmm (prop item "timestamp"))
  | _ => false
  end.

(** What the series shows of such an entry: every field of the entry,
    and under [time] the label of its timestamp, the empty string when
    the timestamp is missing or falsy. *)
Definition shown_as (formatHHmm : JsVal -> Completion JsVal)
    (item shown : JsVal) : Prop :=
  exists (fields : gmap string JsVal) (time : JsVal),
    item = JObj fields /\
    shown = JObj (<["time" := time]> fields) /\
    (if ToBoolean (prop item "timestamp")
     then formatHHmm (prop item "timestamp") = Return time
     else time = JStr "").

Lemma labelled_withTime (formatHHmm : JsVal -> Completion JsVal) (item : JsVal) :
  labelled formatHHmm item = true ->
  exists shown, withTime formatHHmm item = Return shown /\
                shown_as formatHHmm item shown.
Proof.
  destruct item as [ | | | | | |fields]; try discriminate.
  unfold labelled, withTime, shown_as, member. cbn [is_nullish bind spread].
  remember (prop (JObj fields) "timestamp") as timestamp eqn:E. clear E.
  destruct (ToBoolean timestamp).
  - simpl. destruct (formatHHmm timestamp) as [time|e]; [|discriminate].
    intros _. eexists. split; [reflexivity|]. exists fields, time. auto.
  - intros _. eexists. split; [reflexivity|]. exists fields, (JStr ""). auto.
Qed.

Lemma mapM_withTime (formatHHmm : JsVal -> Completion JsVal) (history : list JsVal) :
  forallb (labelled formatHHmm) history = true ->
  exists mapped, mapM (withTime formatHHmm) history = Return mapped /\
                 Forall2 (shown_as formatHHmm) history mapped.
Proof.
  induction history as [|item history IH]; intros Hall.
  - exists []. split; [reflexivity | constructor].
  - simpl in Hall. apply andb_true_iff in Hall. destruct Hall as [Hitem Hrest].
    destruct (labelled_withTime formatHHmm item Hitem) as (shown & Hshown & Has).
    destruct (IH Hrest) as (mapped & Hmapped & Hall).
    exists (shown :: mapped). split; [|constructor; assumption].
    simpl. rewrite Hshown. simpl. rewrite Hmapped. reflexivity.
Qed.

(** C6 (as the code has it).  For every history list whose entries are
    objects with a timestamp that is missing, falsy or accepted by the
    formatter, the series is made of the last 50 entries of the history,
    all of them when there are fewer, in the same order: entry by entry
    it shows every field of the entry with the label of its timestamp
    added under [time]; it has min(length, 50) entries and is empty for
    an empty history.  A payload without a history yields the empty
    series. *)
Theorem chart_series_is_the_recent_window
    (formatHHmm : JsVal -> Completion JsVal) :
  (forall (data : JsVal) (history : list JsVal),
      opt data "history" = JArr history ->
      forallb (labelled formatHHmm) history = true ->
      exists series : list JsVal,
        chartData formatHHmm data = Return series /\
        Forall2 (shown_as formatHHmm)
                (drop (length history - 50) history) series /\
        length series = Nat.min (length history) 50 /\
        (history = [] -> series = []))
  /\
  (forall data : JsVal,
      is_nullish (opt data "history") = true ->
      chartData formatHHmm data = Return []).
Proof.
  split.
  - intros data history Hhist Hok.
    destruct (mapM_withTime formatHHmm history Hok) as (mapped & Hmap & Hall).
    pose proof (Forall2_length _ _ _ Hall) as Hlen.
    exists (slice_last 50 mapped).
    unfold chartData. rewrite Hhist, Hmap. simpl bind.
    split; [reflexivity|]. split; [|split].
    + unfold slice_last. rewrite <- Hlen. apply Forall2_drop, Hall.
    + rewrite slice_last_length. lia.
    + intros ->. apply Forall2_nil_inv_l in Hall. subst mapped. reflexivity.
  - intros data Hn. unfold chartData.
    destruct (opt data "history"); simpl in Hn; congruence.
Qed.

(** A formatter and a history to run the series on. *)
Definition noon : JsVal -> Completion JsVal := fun _ => Return (JStr "12:00").

Definition sample (power : Q) : JsVal :=
  JObj (<["timestamp" := JStr "2024-05-01T12:00:00"]> {[ "power" := JNum (Fin power) ]}).

(** Sixty samples, of 0 W to 59 W. *)
Definition sixty : list JsVal :=
  map (fun i => sample (inject_Z (Z.of_nat i))) (seq 0 60).

Definition sixty_samples : JsVal := JObj {[ "history" := JArr sixty ]}.

Lemma chart_series_is_the_recent_window_witness :
  (exists series : list JsVal,
    chartData noon sixty_samples = Return series /\
    Forall2 (shown_as noon) (drop (length sixty - 50) sixty) series /\
    length series = Nat.min (length sixty) 50 /\
    (sixty = [] -> series = []))
  /\ chartData noon (JObj ∅) = Return [].
Proof.
  split.
  - apply (proj1 (chart_series_is_the_recent_window noon) sixty_samples sixty).
    + vm_compute. reflexivity.
    + vm_compute. reflexivity.
  - apply (proj2 (chart_series_is_the_recent_window noon) (JObj ∅)).
    vm_compute. reflexivity.
Defined.

(** Sixty entries leave the last fifty, of 10 W to 59 W, in order. *)
Example sixty_samples_leave_fifty :
  chartData noon sixty_samples =
  Return (map (fun i =>
                 JObj (<["time" := JStr "12:00"]>
                       (<["timestamp" := JStr "2024-05-01T12:00:00"]>
                        {[ "power" := JNum (Fin (inject_Z (Z.of_nat i))) ]})))
              (seq 10 50)).
Proof. vm_compute. reflexivity. Qed.

(** A history with an entry that is [null] between two samples. *)
Definition with_null_entry : JsVal :=
  JObj {[ "history" := JArr [sample 10; JNull; sample 30] ]}.

(** C6 (as stated) fails on a history list with an entry that is
    [null]: reading its timestamp throws, and there is no series, of
    length 3 or of any other. *)
Lemma null_entry_leaves_no_series :
  opt with_null_entry "history" = JArr [sample 10; JNull; sample 30] /\
  chartData noon with_null_entry = Throw TypeError /\
  ~ exists series : list JsVal,
      chartData noon with_null_entry = Return series /\
      length series = Nat.min (length [sample 10; JNull; sample 30]) 50.
Proof.
  split; [vm_compute; reflexivity|].
  split; [vm_compute; reflexivity|].
  intros (series & H & _). vm_compute in H. discriminate H.
Qed.

End ChartFacts.

(** *** The linear forecast *)

Module ForecastFacts.
Import Forecast.
Local Open Scope Q_scope.

(** Closes a side condition of [field] whose denominator is the
    constant [c] in disguise. *)
Ltac constant_denominator c :=
  match goal with
  | |- ~ ?e == 0 =>
      let H := fresh "H" in
      let E := fresh "E" in
      intros H; assert (E : e == c) by ring;
      rewrite E in H; vm_compute in H; discriminate H
  end.

(** On the example history the fitted line rises by 20 W per hour and
    reaches 160 W three hours after the first sample, wherever the
    first sample lies in time. *)
Lemma hourly_slope (t0 : Q) : slope (hourly t0) == 20 / 3600.
Proof.
  unfold slope, hourly, sum, count. simpl. field.
  constant_denominator 77760000.
Qed.

Lemma hourly_projection (t0 : Q) : projection (hourly t0) (t0 + 10800) == 160.
Proof.
  unfold projection, intercept, slope, hourly, sum, count. simpl. field.
  constant_denominator 77760000.
Qed.

(** C7.  On the history [(t0, 100 W), (t0 + 1 h, 120 W), (t0 + 2 h,
    140 W)] the linear forecast for t0 + 3 h is exactly 160 W, and a
    projection below zero is forecast as 0; no forecast is negative. *)
Theorem linear_forecast_example_and_clamp :
  (forall t0 : Q, linear_forecast (hourly t0) (t0 + 10800) == 160)
  /\
  (forall (history : list (Q * Q)) (t : Q),
      projection history t < 0 -> linear_forecast history t == 0)
  /\
  (forall (history : list (Q * Q)) (t : Q), 0 <= linear_forecast history t).
Proof.
  split; [|split].
  - intros t0. unfold linear_forecast.
    rewrite Q.max_r; [apply hourly_projection|].
    rewrite hourly_projection. discriminate.
  - intros history t Hneg. unfold linear_forecast.
    apply Q.max_l, Qlt_le_weak, Hneg.
  - intros history t. unfold linear_forecast. apply Q.le_max_l.
Qed.

(** A falling series: 100 W, then 50 W an hour later, projected two
    hours further. *)
Definition falling : list (Q * Q) := [(0, 100); (3600, 50)].

Lemma linear_forecast_example_and_clamp_witness :
  projection falling 10800 < 0 /\ linear_forecast falling 10800 == 0.
Proof.
  assert (H : projection falling 10800 < 0) by (vm_compute; reflexivity).
  split; [exact H|].
  apply (proj1 (proj2 linear_forecast_example_and_clamp) falling 10800 H).
Defined.

End ForecastFacts.

(** *** The online flag at the query surface *)

Module QuerySurface.
Import Js JsFacts.
Module B := LoadPage_battery_soc.
Module C := LoadPage_current_soc.

(** C8 (as the code has it).  For every payload in which
    [device_online] is absent or undefined, the flag derived by the
    Dashboard, Load (both variants), Solar, Grid and Battery pages is
    [false], and the condition under which each of these pages draws its
    offline warning, [!deviceOnline], is true: on the Load, Solar and
    Grid pages the condition of the banner, on the Battery page the
    offline warning is the one warning drawn, and on the Dashboard each
    of the four metric cards is given the flag and has the condition of
    its "Device Offline" notice true, the Solar card carrying the
    Offline badge.  ChartsPage differs: its flag is [true] before any
    fetch, it takes such a payload to mean online, and the condition of
    its offline warning is false.  On the six pages the warning belongs
    to the offline flag: for a payload whose [device_online] is [true]
    none of these conditions holds. *)
Theorem offline_by_default_except_charts (data : JsVal) :
  opt data "device_online" = JUndefined ->
  (DashboardPage.deviceOnline data = JBool false /\
   B.deviceOnline data = JBool false /\
   C.deviceOnline data = JBool false /\
   SolarPage.deviceOnline data = JBool false /\
   GridPage.deviceOnline data = JBool false /\
   BatteryPage.deviceOnline data = JBool false)
  /\
  (Forall (fun card => snd card = JBool false /\
                       MetricCard.offlineWarning (snd card) = true)
          (DashboardPage.metricCards data) /\
   map fst (DashboardPage.metricCards data) = ["solar"; "battery"; "load"; "grid"] /\
   DashboardPage.solarStatus data = DashboardPage.mkStatus "error" "Offline" /\
   B.offlineWarning data = true /\
   C.offlineWarning data = true /\
   SolarPage.offlineWarning data = true /\
   GridPage.offlineWarning data = true /\
   BatteryPage.warnings data = [BatteryPage.DeviceOffline])
  /\
  (ChartsPage.deviceOnline ChartsPage.initial = JBool true /\
   forall st,
      is_nullish data = false ->
      let st' := ChartsPage.fetchData (Return data) st in
      ChartsPage.deviceOnline st' = JBool true /\
      ChartsPage.offlineWarning st' = false)
  /\
  (forall online : JsVal,
      opt online "device_online" = JBool true ->
      Forall (fun card => MetricCard.offlineWarning (snd card) = false)
             (DashboardPage.metricCards online) /\
      B.offlineWarning online = false /\
      C.offlineWarning online = false /\
      SolarPage.offlineWarning online = false /\
      GridPage.offlineWarning online = false /\
      ~ In BatteryPage.DeviceOffline (BatteryPage.warnings online)).
Proof.
  intros Habsent.
  assert (HD : DashboardPage.deviceOnline data = JBool false).
  { unfold DashboardPage.deviceOnline, DashboardPage.data.
    rewrite (prop_or_object_absent _ _ Habsent). reflexivity. }
  assert (HB : B.deviceOnline data = JBool false)
    by (unfold B.deviceOnline; rewrite Habsent; reflexivity).
  assert (HC : C.deviceOnline data = JBool false)
    by (unfold C.deviceOnline; rewrite Habsent; reflexivity).
  assert (HS : SolarPage.deviceOnline data = JBool false)
    by (unfold SolarPage.deviceOnline; rewrite Habsent; reflexivity).
  assert (HG : GridPage.deviceOnline data = JBool false)
    by (unfold GridPage.deviceOnline; rewrite Habsent; reflexivity).
  assert (HT : BatteryPage.deviceOnline data = JBool false)
    by (unfold BatteryPage.deviceOnline; rewrite Habsent; reflexivity).
  split; [|split; [|split]].
  - split; [exact HD|]. split; [exact HB|]. split; [exact HC|].
    split; [exact HS|]. split; [exact HG | exact HT].
  - split; [|split; [|split; [|split; [|split; [|split; [|split]]]]]].
    + unfold DashboardPage.metricCards. rewrite HD.
      repeat constructor.
    + reflexivity.
    + unfold DashboardPage.solarStatus. rewrite HD. reflexivity.
    + unfold B.offlineWarning. rewrite HB. reflexivity.
    + unfold C.offlineWarning. rewrite HC. reflexivity.
    + unfold SolarPage.offlineWarning. rewrite HS. reflexivity.
    + unfold GridPage.offlineWarning. rewrite HG. reflexivity.
    + unfold BatteryPage.warnings. rewrite HT. simpl.
      rewrite !andb_false_r. reflexivity.
  - split; [reflexivity|]. intros st Hdata st'. subst st'.
    unfold ChartsPage.offlineWarning, ChartsPage.fetchData, member. simpl bind.
    rewrite Hdata. simpl.
    unfold opt in Habsent. rewrite Hdata in Habsent. rewrite Habsent.
    split; reflexivity.
  - intros online Honline.
    assert (Hprop : prop (DashboardPage.data online) "device_online" = JBool true).
    { unfold DashboardPage.data, opt in *.
      destruct online; simpl in Honline; try discriminate; exact Honline. }
    split; [|split; [|split; [|split; [|split]]]].
    + unfold DashboardPage.metricCards, DashboardPage.deviceOnline.
      rewrite Hprop. repeat constructor.
    + unfold B.offlineWarning, B.deviceOnline. rewrite Honline. reflexivity.
    + unfold C.offlineWarning, C.deviceOnline. rewrite Honline. reflexivity.
    + unfold SolarPage.offlineWarning, SolarPage.deviceOnline.
      rewrite Honline. reflexivity.
    + unfold GridPage.offlineWarning, GridPage.deviceOnline.
      rewrite Honline. reflexivity.
    + unfold BatteryPage.warnings, BatteryPage.deviceOnline.
      rewrite Honline. simpl.
      destruct (BatteryPage.isCritical online), (BatteryPage.isLowBattery online);
        simpl; intros H; repeat (destruct H as [H|H]; [discriminate H|]);
        destruct H.
Qed.

(** A history payload without the [device_online] field, and a payload
    that reports the device online. *)
Definition history_only : JsVal := JObj {[ "data" := JArr [] ]}.

Definition device_is_online : JsVal := JObj {[ "device_online" := JBool true ]}.

Lemma offline_by_default_except_charts_witness :
  opt history_only "device_online" = JUndefined /\
  (DashboardPage.deviceOnline history_only = JBool false /\
   B.deviceOnline history_only = JBool false /\
   C.deviceOnline history_only = JBool false /\
   SolarPage.deviceOnline history_only = JBool false /\
   GridPage.deviceOnline history_only = JBool false /\
   BatteryPage.deviceOnline history_only = JBool false) /\
  (Forall (fun card => snd card = JBool false /\
                       MetricCard.offlineWarning (snd card) = true)
          (DashboardPage.metricCards history_only) /\
   map fst (DashboardPage.metricCards history_only) =
     ["solar"; "battery"; "load"; "grid"] /\
   DashboardPage.solarStatus history_only = DashboardPage.mkStatus "error" "Offline" /\
   B.offlineWarning history_only = true /\
   C.offlineWarning history_only = true /\
   SolarPage.offlineWarning history_only = true /\
   GridPage.offlineWarning history_only = true /\
   BatteryPage.warnings history_only = [BatteryPage.DeviceOffline]) /\
  (Forall (fun card => MetricCard.offlineWarning (snd card) = false)
          (DashboardPage.metricCards device_is_online) /\
   B.offlineWarning device_is_online = false /\
   C.offlineWarning device_is_online = false /\
   SolarPage.offlineWarning device_is_online = false /\
   GridPage.offlineWarning device_is_online = false /\
   ~ In BatteryPage.DeviceOffline (BatteryPage.warnings device_is_online)).
Proof.
  assert (H : opt history_only "device_online" = JUndefined)
    by (vm_compute; reflexivity).
  split; [exact H|].
  pose proof (offline_by_default_except_charts history_only H) as (H1 & H2 & _ & H4).
  split; [exact H1|]. split; [exact H2|].
  apply (H4 device_is_online). vm_compute. reflexivity.
Defined.

(** C8 (as stated) fails on ChartsPage: a payload without
    [device_online] leaves its flag [true], as it is before any fetch,
    and the condition of its offline warning false. *)
Lemma charts_page_is_online_by_default :
  opt history_only "device_online" = JUndefined /\
  ChartsPage.deviceOnline ChartsPage.initial = JBool true /\
  ChartsPage.deviceOnline
    (ChartsPage.fetchData (Return history_only) ChartsPage.initial) = JBool true /\
  ChartsPage.offlineWarning
    (ChartsPage.fetchData (Return history_only) ChartsPage.initial) = false.
Proof. repeat split; vm_compute; reflexivity. Qed.

End QuerySurface.

(** *** One control request at a time *)

Module InFlight.
Import Js JsFacts Ui.
Module B := LoadPage_battery_soc.
Module C := LoadPage_current_soc.
Module G := GridPage.

(** The events that end the in-flight mark of a device. *)
Definition B_settles (device : string) (ev : B.Event) : bool :=
  match ev with
  | B.ControlSettled d _ _ _ => String.eqb d device
  | _ => false
  end.

Definition C_settles (device : string) (ev : C.Event) : bool :=
  match ev with
  | C.ControlSettled d _ _ _ => String.eqb d device
  | _ => false
  end.

Lemma B_fetchData_controlling outcome st :
  B.controlling (fst (B.fetchData outcome st)) = B.controlling st.
Proof. destruct outcome as [[? ?]|]; reflexivity. Qed.

Lemma C_fetchData_controlling outcome st :
  C.controlling (fst (C.fetchData outcome st)) = C.controlling st.
Proof. destruct outcome; reflexivity. Qed.

(** The mark of a device survives every event but the settlement of its
    own request. *)
Lemma B_mark_kept (st : B.State) (ev : B.Event) (device : string) :
  B.controlling st !! device = Some true ->
  B_settles device ev = false ->
  B.controlling (fst (B.step st ev)) !! device = Some true.
Proof.
  intros Hmark Hev.
  destruct ev as [outcome | id | d currentState result refetched]; simpl.
  - rewrite B_fetchData_controlling. exact Hmark.
  - destruct (B.card st id ≫= fires ∘ snd) as [[d cs]|]; [|exact Hmark].
    simpl. destruct (decide (d = device)) as [->|Hne].
    + apply lookup_insert_eq.
    + rewrite lookup_insert_ne by exact Hne. exact Hmark.
  - simpl in Hev. apply String.eqb_neq in Hev.
    unfold B.handleToggle_settle. destruct result.
    + destruct (B.fetchData refetched st) as [st' effects] eqn:E. simpl.
      rewrite lookup_insert_ne by exact Hev.
      change st' with (fst (st', effects)). rewrite <- E.
      rewrite B_fetchData_controlling. exact Hmark.
    + simpl. rewrite lookup_insert_ne by exact Hev. exact Hmark.
Qed.

Lemma C_mark_kept (st : C.State) (ev : C.Event) (device : string) :
  C.controlling st !! device = Some true ->
  C_settles device ev = false ->
  C.controlling (fst (C.step st ev)) !! device = Some true.
Proof.
  intros Hmark Hev.
  destruct ev as [outcome | id | d currentState result refetched]; simpl.
  - rewrite C_fetchData_controlling. exact Hmark.
  - destruct (C.card st id ≫= fires ∘ snd) as [[d cs]|]; [|exact Hmark].
    simpl. destruct (decide (d = device)) as [->|Hne].
    + apply lookup_insert_eq.
    + rewrite lookup_insert_ne by exact Hne. exact Hmark.
  - simpl in Hev. apply String.eqb_neq in Hev.
    unfold C.handleToggle_settle. destruct result.
    + destruct (C.fetchData refetched st) as [st' effects] eqn:E. simpl.
      rewrite lookup_insert_ne by exact Hev.
      change st' with (fst (st', effects)). rewrite <- E.
      rewrite C_fetchData_controlling. exact Hmark.
    + simpl. rewrite lookup_insert_ne by exact Hev. exact Hmark.
Qed.

Lemma B_mark_kept_run (st : B.State) (evs : list B.Event) (device : string) :
  B.controlling st !! device = Some true ->
  Forall (fun ev => B_settles device ev = false) evs ->
  B.controlling (B.run st evs) !! device = Some true.
Proof.
  intros Hmark Hevs. revert st Hmark.
  induction Hevs as [|ev evs Hev _ IH]; intros st Hmark; [exact Hmark|].
  simpl. apply IH, B_mark_kept; assumption.
Qed.

Lemma C_mark_kept_run (st : C.State) (evs : list C.Event) (device : string) :
  C.controlling st !! device = Some true ->
  Forall (fun ev => C_settles device ev = false) evs ->
  C.controlling (C.run st evs) !! device = Some true.
Proof.
  intros Hmark Hevs. revert st Hmark.
  induction Hevs as [|ev evs Hev _ IH]; intros st Hmark; [exact Hmark|].
  simpl. apply IH, C_mark_kept; assumption.
Qed.

(** A marked device has no control that fires. *)
Lemma B_marked_is_silent (st : B.State) (device : string) :
  B.controlling st !! device = Some true ->
  B.step st (B.Toggled device) = (st, []).
Proof.
  intros Hmark. simpl.
  destruct (B.card st device ≫= fires ∘ snd) as [[d cs]|] eqn:E; [|reflexivity].
  exfalso. destruct (B.card st device) as [c|] eqn:Hc; [|discriminate].
  destruct (ControlPath.B_card_spec _ _ _ Hc) as [Hid Hctl].
  simpl in E. rewrite Hctl in E. unfold B.control in E.
  destruct (B.Load.locked (fst c)); [discriminate|].
  simpl in E. unfold B.isControlling in E. rewrite Hid, Hmark in E.
  simpl in E. discriminate.
Qed.

Lemma C_marked_is_silent (st : C.State) (device : string) :
  C.controlling st !! device = Some true ->
  C.step st (C.Toggled device) = (st, []).
Proof.
  intros Hmark. simpl.
  destruct (C.card st device ≫= fires ∘ snd) as [[d cs]|] eqn:E; [|reflexivity].
  exfalso. destruct (C.card st device) as [c|] eqn:Hc; [|discriminate].
  destruct (ControlPath.C_card_spec _ _ _ Hc) as [Hid Hctl].
  simpl in E. rewrite Hctl in E. unfold C.control in E.
  destruct (C.Load.locked (fst c)); [discriminate|].
  simpl in E. unfold C.isControlling in E. rewrite Hid, Hmark in E.
  simpl in E. discriminate.
Qed.

(** X1.  In both LoadPages, once operating the switch of a load has
    sent its control request, operating that switch again sends nothing
    and changes nothing, whatever else happens to the page in between
    (fetches, the switches of other loads, the settlement of their
    requests), until the request of that load itself has settled. *)
Theorem one_control_request_in_flight_per_load :
  (forall (st : B.State) (id device : string) (currentState : JsVal)
          (evs : list B.Event),
      B.card st id ≫= fires ∘ snd = Some (device, currentState) ->
      Forall (fun ev => B_settles id ev = false) evs ->
      let busy := B.run (fst (B.step st (B.Toggled id))) evs in
      B.step busy (B.Toggled id) = (busy, []))
  /\
  (forall (st : C.State) (id device : string) (currentState : JsVal)
          (evs : list C.Event),
      C.card st id ≫= fires ∘ snd = Some (device, currentState) ->
      Forall (fun ev => C_settles id ev = false) evs ->
      let busy := C.run (fst (C.step st (C.Toggled id))) evs in
      C.step busy (C.Toggled id) = (busy, [])).
Proof.
  split.
  - intros st id device cs evs Hfires Hevs busy.
    apply B_marked_is_silent. subst busy. apply B_mark_kept_run; [|exact Hevs].
    destruct (ControlPath.B_fires_spec _ _ _ _ Hfires) as (-> & _ & _).
    simpl. rewrite Hfires. simpl. apply lookup_insert_eq.
  - intros st id device cs evs Hfires Hevs busy.
    apply C_marked_is_silent. subst busy. apply C_mark_kept_run; [|exact Hevs].
    destruct (ControlPath.C_fires_spec _ _ _ _ Hfires) as (-> & _ & _).
    simpl. rewrite Hfires. simpl. apply lookup_insert_eq.
Qed.

(** A click on the pump with the battery at 50, followed by a click on
    the light and a failed fetch, before the pump's request settles. *)
Definition B_meanwhile : list B.Event :=
  [B.Toggled "light"; B.Fetched (Throw TypeError)].

Definition C_meanwhile : list C.Event :=
  [C.Toggled "light"; C.Fetched (Throw TypeError)].

Lemma one_control_request_in_flight_per_load_witness :
  (let busy := B.run (fst (B.step (ControlPath.B_online 50) (B.Toggled "pump")))
                     B_meanwhile in
   B.step busy (B.Toggled "pump") = (busy, []))
  /\
  (let busy := C.run (fst (C.step (ControlPath.C_online 50) (C.Toggled "pump")))
                     C_meanwhile in
   C.step busy (C.Toggled "pump") = (busy, [])).
Proof.
  destruct one_control_request_in_flight_per_load as [HB HC].
  split.
  - apply (HB (ControlPath.B_online 50) "pump" "pump" (JBool false) B_meanwhile).
    + vm_compute. reflexivity.
    + repeat constructor.
  - apply (HC (ControlPath.C_online 50) "pump" "pump" JUndefined C_meanwhile).
    + vm_compute. reflexivity.
    + repeat constructor.
Defined.

(** What a state shows does not depend on whether a device is absent
    from [controlling] or carried as [false]. *)
Lemma B_control_unmarked (loadData : JsVal) (controlling : gmap string bool)
    (device : string) (load : B.Load.t) :
  controlling !! device = None \/ controlling !! device = Some false ->
  B.control loadData (<[device := false]> controlling) load =
  B.control loadData controlling load.
Proof.
  intros Hfree. unfold B.control, B.isControlling.
  destruct (decide (device = B.Load.id load)) as [<-|Hne].
  - rewrite lookup_insert_eq. destruct Hfree as [-> | ->]; reflexivity.
  - rewrite lookup_insert_ne by exact Hne. reflexivity.
Qed.

Lemma C_control_unmarked (loadData : JsVal) (controlling : gmap string bool)
    (device : string) (load : C.Load.t) :
  controlling !! device = None \/ controlling !! device = Some false ->
  C.control loadData (<[device := false]> controlling) load =
  C.control loadData controlling load.
Proof.
  intros Hfree. unfold C.control, C.isControlling.
  destruct (decide (device = C.Load.id load)) as [<-|Hne].
  - rewrite lookup_insert_eq. destruct Hfree as [-> | ->]; reflexivity.
  - rewrite lookup_insert_ne by exact Hne. reflexivity.
Qed.

(** A switch that fires belongs to a device that is not marked. *)
Lemma B_fires_unmarked (st : B.State) (id device : string) (currentState : JsVal) :
  B.card st id ≫= fires ∘ snd = Some (device, currentState) ->
  B.controlling st !! id = None \/ B.controlling st !! id = Some false.
Proof.
  destruct (B.card st id) as [c|] eqn:Hc; [|discriminate].
  destruct (ControlPath.B_card_spec _ _ _ Hc) as [Hid Hctl].
  simpl. rewrite Hctl. unfold B.control.
  destruct (B.Load.locked (fst c)); [discriminate|].
  simpl. unfold B.isControlling. rewrite Hid.
  destruct (B.controlling st !! id) as [[|]|]; simpl; [discriminate|auto|auto].
Qed.

Lemma C_fires_unmarked (st : C.State) (id device : string) (currentState : JsVal) :
  C.card st id ≫= fires ∘ snd = Some (device, currentState) ->
  C.controlling st !! id = None \/ C.controlling st !! id = Some false.
Proof.
  destruct (C.card st id) as [c|] eqn:Hc; [|discriminate].
  destruct (ControlPath.C_card_spec _ _ _ Hc) as [Hid Hctl].
  simpl. rewrite Hctl. unfold C.control.
  destruct (C.Load.locked (fst c)); [discriminate|].
  simpl. unfold C.isControlling. rewrite Hid.
  destruct (C.controlling st !! id) as [[|]|]; simpl; [discriminate|auto|auto].
Qed.

(** The load whose switch fires, and the state the switch shows. *)
Lemma B_fires_load (st : B.State) (id device : string) (currentState : JsVal) :
  B.card st id ≫= fires ∘ snd = Some (device, currentState) ->
  exists load, In load (B.loads (B.loadData st)) /\ B.Load.id load = id /\
               device = id /\ currentState = B.Load.isOn load.
Proof.
  intros H. destruct (B.card st id) as [c|] eqn:Hc; [|discriminate].
  destruct (ControlPath.B_card_spec _ _ _ Hc) as [Hid Hctl].
  unfold B.card, B.render in Hc. destruct (B.loading st); [discriminate|].
  apply List.find_some in Hc. destruct Hc as [Hin _].
  unfold B.cards in Hin. apply in_map_iff in Hin. destruct Hin as (load & <- & Hin).
  exists load. simpl in *. unfold B.control in H.
  destruct (B.Load.locked load); [discriminate|]. simpl in H.
  destruct (ToBoolean _); [discriminate|]. injection H as <- <-. auto.
Qed.

Lemma C_fires_load (st : C.State) (id device : string) (currentState : JsVal) :
  C.card st id ≫= fires ∘ snd = Some (device, currentState) ->
  exists load, In load (C.loads (C.loadData st)) /\ C.Load.id load = id /\
               device = id /\ currentState = C.Load.isOn load.
Proof.
  intros H. destruct (C.card st id) as [c|] eqn:Hc; [|discriminate].
  destruct (ControlPath.C_card_spec _ _ _ Hc) as [Hid Hctl].
  unfold C.card, C.render in Hc. destruct (C.loading st); [discriminate|].
  apply List.find_some in Hc. destruct Hc as [Hin _].
  unfold C.cards in Hin. apply in_map_iff in Hin. destruct Hin as (load & <- & Hin).
  exists load. simpl in *. unfold C.control in H.
  destruct (C.Load.locked load); [discriminate|]. simpl in H.
  destruct (ToBoolean _); [discriminate|]. injection H as <- <-. auto.
Qed.

(** The pages showing an online device, battery at 50, pump running. *)
Definition B_pump_running : B.State :=
  Interlock.B_showing
    (JObj (<["device_online" := JBool true]>
          (<["battery_soc" := JNum (Fin 50)]>
           {[ "current" := JObj {[ "pump_on" := JBool true ]} ]}))).

Definition C_pump_running : C.State :=
  Interlock.C_showing
    (JObj (<["device_online" := JBool true]>
           {[ "current" := JObj (<["soc" := JNum (Fin 50)]>
                                  {[ "pump_on" := JBool true ]}) ]})).

(** X2.  A control request that fails leaves no trace but the error
    toast: after the switch of a load was operated and its request was
    rejected (or could not be sent), the page shows exactly what it
    showed before the click, holds the same data, and has sent no
    further request.  This holds in the battery_soc LoadPage for every
    switch that fires, since [isOn] is [current.<id>_on || false] there
    and never [undefined]; in the current.soc LoadPage, where [isOn] is
    [current.<id>_on] itself, it holds for a switch whose [checked] value
    is not [undefined] (a switch without a [checked] value keeps a state
    of its own, which the page does not determine). *)
Theorem rejected_toggle_restores_the_page :
  (forall (st : B.State) (id device : string) (currentState : JsVal)
          (error : Exn) (refetched : Completion (JsVal * JsVal)),
      B.card st id ≫= fires ∘ snd = Some (device, currentState) ->
      let clicked := fst (B.step st (B.Toggled id)) in
      let settled := B.step clicked
                       (B.ControlSettled device currentState (Throw error) refetched) in
      currentState <> JUndefined /\
      B.render (fst settled) = B.render st /\
      B.loadData (fst settled) = B.loadData st /\
      snd settled = [ToastErrorOf error ("Failed to control " +:+ device)])
  /\
  (forall (st : C.State) (id device : string) (currentState : JsVal)
          (error : Exn) (refetched : Completion JsVal),
      C.card st id ≫= fires ∘ snd = Some (device, currentState) ->
      currentState <> JUndefined ->
      let clicked := fst (C.step st (C.Toggled id)) in
      let settled := C.step clicked
                       (C.ControlSettled device currentState (Throw error) refetched) in
      C.render (fst settled) = C.render st /\
      C.loadData (fst settled) = C.loadData st /\
      snd settled = [ToastErrorOf error ("Failed to control " +:+ device)]).
Proof.
  split.
  - intros st id device cs error refetched Hfires clicked settled.
    pose proof (B_fires_unmarked _ _ _ _ Hfires) as Hfree.
    split.
    { destruct (B_fires_load _ _ _ _ Hfires) as (load & Hin & _ & _ & ->).
      simpl in Hin. destruct Hin as [<- | [<- | [<- | []]]]; simpl;
        unfold or; destruct (ToBoolean _) eqn:Hb; try discriminate;
        intros Hu; rewrite Hu in Hb; discriminate. }
    destruct (ControlPath.B_fires_spec _ _ _ _ Hfires) as (-> & _ & _).
    subst settled clicked. simpl. rewrite Hfires. simpl.
    split; [|split; reflexivity].
    unfold B.render. simpl. destruct (B.loading st); [reflexivity|].
    f_equal. unfold B.cards. apply map_ext. intros load. f_equal.
    rewrite insert_insert_eq. apply B_control_unmarked, Hfree.
  - intros st id device cs error refetched Hfires _ clicked settled.
    pose proof (C_fires_unmarked _ _ _ _ Hfires) as Hfree.
    destruct (ControlPath.C_fires_spec _ _ _ _ Hfires) as (-> & _ & _).
    subst settled clicked. simpl. rewrite Hfires. simpl.
    split; [|split; reflexivity].
    unfold C.render. simpl. destruct (C.loading st); [reflexivity|].
    f_equal. unfold C.cards. apply map_ext. intros load. f_equal.
    rewrite insert_insert_eq. apply C_control_unmarked, Hfree.
Qed.

Lemma rejected_toggle_restores_the_page_witness :
  (let clicked := fst (B.step (ControlPath.B_online 50) (B.Toggled "pump")) in
   let settled := B.step clicked
                    (B.ControlSettled "pump" (JBool false)
                       (Throw (Error (JStr "Pump locked"))) (Throw TypeError)) in
   JBool false <> JUndefined /\
   B.render (fst settled) = B.render (ControlPath.B_online 50) /\
   B.loadData (fst settled) = B.loadData (ControlPath.B_online 50) /\
   snd settled = [ToastErrorOf (Error (JStr "Pump locked")) "Failed to control pump"])
  /\
  (let clicked := fst (C.step C_pump_running (C.Toggled "pump")) in
   let settled := C.step clicked
                    (C.ControlSettled "pump" (JBool true)
                       (Throw (Error (JStr "Pump locked"))) (Throw TypeError)) in
   C.render (fst settled) = C.render C_pump_running /\
   C.loadData (fst settled) = C.loadData C_pump_running /\
   snd settled = [ToastErrorOf (Error (JStr "Pump locked")) "Failed to control pump"]).
Proof.
  destruct rejected_toggle_restores_the_page as [HB HC].
  split.
  - apply (HB (ControlPath.B_online 50) "pump" "pump" (JBool false)).
    vm_compute. reflexivity.
  - apply (HC C_pump_running "pump" "pump" (JBool true)).
    + vm_compute. reflexivity.
    + discriminate.
Defined.

(** The events that deliver a payload to the page. *)
Definition B_delivers (ev : B.Event) : bool :=
  match ev with
  | B.Fetched (Return _) => true
  | B.ControlSettled _ _ (Return _) (Return _) => true
  | _ => false
  end.

Definition C_delivers (ev : C.Event) : bool :=
  match ev with
  | C.Fetched (Return _) => true
  | C.ControlSettled _ _ (Return _) (Return _) => true
  | _ => false
  end.

(** The lock flags shown are those of [loads], whatever the switches
    look like. *)
Lemma B_locked_loads (st : B.State) (id : string) :
  B.loading st = false ->
  B.locked st id =
  B.Load.locked <$>
    List.find (fun load => String.eqb (B.Load.id load) id) (B.loads (B.loadData st)).
Proof.
  intros Hl. unfold B.locked, B.card, B.render. rewrite Hl. unfold B.cards.
  induction (B.loads (B.loadData st)) as [|load rest IH]; [reflexivity|].
  simpl. destruct (String.eqb (B.Load.id load) id); [reflexivity | exact IH].
Qed.

Lemma C_locked_loads (st : C.State) (id : string) :
  C.loading st = false ->
  C.locked st id =
  C.Load.locked <$>
    List.find (fun load => String.eqb (C.Load.id load) id) (C.loads (C.loadData st)).
Proof.
  intros Hl. unfold C.locked, C.card, C.render. rewrite Hl. unfold C.cards.
  induction (C.loads (C.loadData st)) as [|load rest IH]; [reflexivity|].
  simpl. destruct (String.eqb (C.Load.id load) id); [reflexivity | exact IH].
Qed.

Lemma B_quiet_step (st : B.State) (ev : B.Event) :
  B_delivers ev = false ->
  B.loading st = false ->
  B.loadData (fst (B.step st ev)) = B.loadData st /\
  B.loading (fst (B.step st ev)) = false.
Proof.
  intros Hev Hl.
  destruct ev as [[[? ?]|e] | id | d cs [v|e] [[? ?]|e']]; simpl in *;
    try discriminate; try (split; [reflexivity | assumption || reflexivity]).
  destruct (B.card st id ≫= fires ∘ snd) as [[d cs]|]; simpl;
    split; reflexivity || assumption.
Qed.

Lemma C_quiet_step (st : C.State) (ev : C.Event) :
  C_delivers ev = false ->
  C.loading st = false ->
  C.loadData (fst (C.step st ev)) = C.loadData st /\
  C.loading (fst (C.step st ev)) = false.
Proof.
  intros Hev Hl.
  destruct ev as [[?|e] | id | d cs [v|e] [?|e']]; simpl in *;
    try discriminate; try (split; [reflexivity | assumption || reflexivity]).
  destruct (C.card st id ≫= fires ∘ snd) as [[d cs]|]; simpl;
    split; reflexivity || assumption.
Qed.

(** X3.  In both LoadPages the interlock shown changes only when a
    payload is delivered: once the page is up, no click, no failed
    fetch and no failed control request locks or unlocks any load, over
    any run of such events. *)
Theorem lock_flags_change_only_with_new_data :
  (forall (st : B.State) (evs : list B.Event) (id : string),
      B.loading st = false ->
      Forall (fun ev => B_delivers ev = false) evs ->
      B.locked (B.run st evs) id = B.locked st id)
  /\
  (forall (st : C.State) (evs : list C.Event) (id : string),
      C.loading st = false ->
      Forall (fun ev => C_delivers ev = false) evs ->
      C.locked (C.run st evs) id = C.locked st id).
Proof.
  split.
  - intros st evs id Hl Hevs. revert st Hl.
    induction Hevs as [|ev evs Hev _ IH]; intros st Hl; [reflexivity|].
    destruct (B_quiet_step st ev Hev Hl) as [Hdata Hl'].
    simpl. rewrite IH by exact Hl'.
    rewrite !B_locked_loads by assumption. rewrite Hdata. reflexivity.
  - intros st evs id Hl Hevs. revert st Hl.
    induction Hevs as [|ev evs Hev _ IH]; intros st Hl; [reflexivity|].
    destruct (C_quiet_step st ev Hev Hl) as [Hdata Hl'].
    simpl. rewrite IH by exact Hl'.
    rewrite !C_locked_loads by assumption. rewrite Hdata. reflexivity.
Qed.

Lemma lock_flags_change_only_with_new_data_witness :
  B.locked (B.run (ControlPath.B_online 10) (B.Toggled "pump" :: B_meanwhile)) "pump" =
  B.locked (ControlPath.B_online 10) "pump" /\
  C.locked (C.run (ControlPath.C_online 10) (C.Toggled "pump" :: C_meanwhile)) "pump" =
  C.locked (ControlPath.C_online 10) "pump".
Proof.
  destruct lock_flags_change_only_with_new_data as [HB HC].
  split.
  - apply HB; [reflexivity | repeat constructor].
  - apply HC; [reflexivity | repeat constructor].
Defined.

(** X4.  In both LoadPages, operating the switch of load [id] asks for
    the opposite of what the reading says of it: the request carries the
    load's id and the negation of the truthiness of the reading's
    [<id>_on] flag (a missing flag counts as off, so the request is to
    switch on).  Hence the two pages send the same request on the same
    reading. *)
Theorem toggle_requests_the_opposite_state :
  (forall (st : B.State) (id device : string) (currentState : JsVal),
      B.card st id ≫= fires ∘ snd = Some (device, currentState) ->
      snd (B.step st (B.Toggled id)) =
      [Send (Api.PostLoadControl id
               (negb (ToBoolean (prop (B.current (B.loadData st)) (id +:+ "_on")))))])
  /\
  (forall (st : C.State) (id device : string) (currentState : JsVal),
      C.card st id ≫= fires ∘ snd = Some (device, currentState) ->
      snd (C.step st (C.Toggled id)) =
      [Send (Api.PostLoadControl id
               (negb (ToBoolean (prop (C.current (C.loadData st)) (id +:+ "_on")))))]).
Proof.
  split.
  - intros st id device cs Hfires.
    destruct (B_fires_load _ _ _ _ Hfires) as (load & Hin & Hid & -> & ->).
    simpl. rewrite Hfires. simpl. unfold Api.controlLoad_request, not.
    do 3 f_equal. simpl in Hin.
    destruct Hin as [<- | [<- | [<- | []]]]; subst id; simpl;
      rewrite ToBoolean_or, orb_false_r; reflexivity.
  - intros st id device cs Hfires.
    destruct (C_fires_load _ _ _ _ Hfires) as (load & Hin & Hid & -> & ->).
    simpl. rewrite Hfires. simpl. unfold Api.controlLoad_request, not.
    do 3 f_equal. simpl in Hin.
    destruct Hin as [<- | [<- | [<- | []]]]; subst id; reflexivity.
Qed.

Lemma toggle_requests_the_opposite_state_witness :
  snd (B.step B_pump_running (B.Toggled "pump")) =
    [Send (Api.PostLoadControl "pump"
             (negb (ToBoolean (prop (B.current (B.loadData B_pump_running))
                                    ("pump" +:+ "_on")))))]
  /\
  snd (C.step C_pump_running (C.Toggled "pump")) =
    [Send (Api.PostLoadControl "pump"
             (negb (ToBoolean (prop (C.current (C.loadData C_pump_running))
                                    ("pump" +:+ "_on")))))].
Proof.
  destruct toggle_requests_the_opposite_state as [HB HC].
  split.
  - apply (HB B_pump_running "pump" "pump" (JBool true)). vm_compute. reflexivity.
  - apply (HC C_pump_running "pump" "pump" (JBool true)). vm_compute. reflexivity.
Defined.

Example running_pump_is_switched_off :
  snd (B.step B_pump_running (B.Toggled "pump")) =
    [Send (Api.PostLoadControl "pump" false)] /\
  snd (C.step C_pump_running (C.Toggled "pump")) =
    [Send (Api.PostLoadControl "pump" false)].
Proof. split; vm_compute; reflexivity. Qed.

End InFlight.

(** *** The grid page *)

Module GridFacts.
Import Js JsFacts Ui.
Module G := GridPage.

Definition run (st : G.State) (evs : list G.Event) : G.State :=
  foldl (fun st ev => fst (G.step st ev)) st evs.

Definition settles (ev : G.Event) : bool :=
  match ev with
  | G.ModeSettled _ _ _ => true
  | _ => false
  end.

Lemma fetchData_settingMode outcome st :
  G.settingMode (fst (G.fetchData outcome st)) = G.settingMode st.
Proof. destruct outcome; reflexivity. Qed.

Lemma busy_is_silent (st : G.State) (id : string) :
  G.settingMode st = true -> G.step st (G.Clicked id) = (st, []).
Proof.
  intros Hbusy. simpl.
  destruct (G.button st id ≫= clicks) as [mode|] eqn:E; [|reflexivity].
  exfalso. unfold G.button, G.render in E. destruct (G.loading st); [discriminate|].
  destruct (List.find _ _) as [b|] eqn:Hb; [|discriminate].
  apply List.find_some in Hb. destruct Hb as [Hin _].
  unfold G.buttons in Hin. apply in_map_iff in Hin. destruct Hin as (m & <- & _).
  rewrite Hbusy in E. discriminate.
Qed.

Lemma busy_kept (st : G.State) (ev : G.Event) :
  G.settingMode st = true -> settles ev = false ->
  G.settingMode (fst (G.step st ev)) = true.
Proof.
  intros Hbusy Hev. destruct ev as [outcome | id | mode result refetched].
  - simpl. rewrite fetchData_settingMode. exact Hbusy.
  - rewrite busy_is_silent by exact Hbusy. exact Hbusy.
  - discriminate.
Qed.

Lemma busy_kept_run (st : G.State) (evs : list G.Event) :
  G.settingMode st = true ->
  Forall (fun ev => settles ev = false) evs ->
  G.settingMode (run st evs) = true.
Proof.
  intros Hbusy Hevs. revert st Hbusy.
  induction Hevs as [|ev evs Hev _ IH]; intros st Hbusy; [exact Hbusy|].
  apply IH, busy_kept; assumption.
Qed.

(** X5.  On the grid page, once a click on a mode button has sent its
    request, no mode button sends another one, whatever fetches and
    clicks follow, until that request has settled. *)
Theorem one_mode_request_in_flight
    (st : G.State) (id mode : string) (evs : list G.Event) (id' : string) :
  G.button st id ≫= clicks = Some mode ->
  Forall (fun ev => settles ev = false) evs ->
  let busy := run (fst (G.step st (G.Clicked id))) evs in
  G.step busy (G.Clicked id') = (busy, []).
Proof.
  intros Hclick Hevs busy. apply busy_is_silent. subst busy.
  apply busy_kept_run; [|exact Hevs].
  simpl. rewrite Hclick. reflexivity.
Qed.

Lemma one_mode_request_in_flight_witness :
  let busy := run (fst (G.step ControlPath.G_online (G.Clicked "solar")))
                  [G.Fetched (Throw TypeError); G.Clicked "battery"] in
  G.step busy (G.Clicked "hybrid") = (busy, []).
Proof.
  apply (one_mode_request_in_flight ControlPath.G_online "solar" "solar").
  - vm_compute. reflexivity.
  - repeat constructor.
Defined.

(** X6.  The grid page draws at most one mode button as active; when
    the reading names one of the three modes it is that one, and when
    the reading carries no mode (or an empty one) it is the hybrid
    button. *)
Theorem at_most_one_active_mode (gridData : JsVal) :
  length (G.active gridData) <= 1 /\
  (ToBoolean (prop (G.current gridData) "mode") = false ->
   G.active gridData = ["hybrid"]) /\
  (forall m, In m G.modes ->
             prop (G.current gridData) "mode" = JStr m ->
             G.active gridData = [m]).
Proof.
  unfold G.active, G.currentMode. split; [|split].
  - destruct (or (prop (G.current gridData) "mode") (JStr "hybrid")) as
      [ | | | |s| | ]; try (simpl; lia).
    simpl.
    destruct (String.eqb_spec s "solar") as [->|_]; [simpl; lia|].
    destruct (String.eqb_spec s "battery") as [->|_]; [simpl; lia|].
    destruct (String.eqb s "hybrid"); simpl; lia.
  - intros Hfalsy. rewrite or_falsy by exact Hfalsy. reflexivity.
  - intros m Hin Hmode. rewrite Hmode.
    destruct Hin as [<- | [<- | [<- | []]]]; reflexivity.
Qed.

Definition battery_mode : JsVal :=
  JObj {[ "current" := JObj {[ "mode" := JStr "battery" ]} ]}.

Lemma at_most_one_active_mode_witness :
  G.active (JObj ∅) = ["hybrid"] /\ G.active battery_mode = ["battery"].
Proof.
  split.
  - apply (proj1 (proj2 (at_most_one_active_mode (JObj ∅)))).
    vm_compute. reflexivity.
  - apply (proj2 (proj2 (at_most_one_active_mode battery_mode)) "battery").
    + right. left. reflexivity.
    + vm_compute. reflexivity.
Defined.

End GridFacts.

(** *** Battery warnings and dashboard badges *)

Module StatusFacts.
Import Js JsFacts.
Module B := LoadPage_battery_soc.
Module D := DashboardPage.
Local Open Scope Q_scope.

(** [(q || 0) < n] is [q < n]: the only number [||] replaces is 0. *)
Lemma lt_or_zero (q n : Q) :
  lt (or (JNum (Fin q)) (JNum (Fin 0))) (Fin n) =
  if Qlt_le_dec q n then true else false.
Proof.
  unfold or. simpl ToBoolean. destruct (Qeq_bool q 0) eqn:E; simpl negb; cbv iota.
  - apply Qeq_bool_eq in E. rewrite lt_Fin.
    destruct (Qlt_le_dec 0 n) as [H0|H0], (Qlt_le_dec q n) as [Hq|Hq];
      try reflexivity; exfalso.
    + rewrite E in Hq. exact (Qlt_not_le _ _ H0 Hq).
    + rewrite E in Hq. exact (Qlt_not_le _ _ Hq H0).
  - apply lt_Fin.
Qed.

Lemma lt_or_zero_absent (v : JsVal) (n : Q) :
  is_nullish v = true -> 0 < n ->
  lt (or v (JNum (Fin 0))) (Fin n) = true.
Proof.
  intros Hv Hn. rewrite or_falsy by (destruct v; simpl in *; congruence).
  apply lt_Fin_true, Hn.
Qed.

(** X7.  BatteryPage never shows more than one warning.  For an online
    device whose reading carries a numeric SOC it is the critical
    warning below 10, the low-battery warning from 10 to below 20, and
    none from 20 on; a reading without SOC counts as 0 and shows the
    critical warning. *)
Theorem battery_warnings (batteryData : JsVal) :
  (length (BatteryPage.warnings batteryData) <= 1)%nat /\
  (forall soc : Q,
      ToBoolean (BatteryPage.deviceOnline batteryData) = true ->
      prop (BatteryPage.current batteryData) "soc" = JNum (Fin soc) ->
      BatteryPage.warnings batteryData =
      if Qlt_le_dec soc 10 then [BatteryPage.Critical]
      else if Qlt_le_dec soc 20 then [BatteryPage.LowBattery] else []) /\
  (ToBoolean (BatteryPage.deviceOnline batteryData) = true ->
   is_nullish (prop (BatteryPage.current batteryData) "soc") = true ->
   BatteryPage.warnings batteryData = [BatteryPage.Critical]).
Proof.
  unfold BatteryPage.warnings, BatteryPage.isCritical, BatteryPage.isLowBattery,
    BatteryPage.socLevel, not.
  split; [|split].
  - destruct (ToBoolean (BatteryPage.deviceOnline batteryData)),
      (lt _ (Fin 10)), (lt _ (Fin 20)); simpl; lia.
  - intros soc -> ->. rewrite !lt_or_zero. simpl.
    destruct (Qlt_le_dec soc 10) as [H10|H10], (Qlt_le_dec soc 20) as [H20|H20];
      reflexivity.
  - intros -> Hn. rewrite !lt_or_zero_absent by (exact Hn || reflexivity).
    reflexivity.
Qed.

Definition battery_at (soc : Q) : JsVal :=
  JObj (<["device_online" := JBool true]>
        {[ "current" := JObj {[ "soc" := JNum (Fin soc) ]} ]}).

Lemma battery_warnings_witness :
  BatteryPage.warnings (battery_at 15) =
    (if Qlt_le_dec 15 10 then [BatteryPage.Critical]
     else if Qlt_le_dec 15 20 then [BatteryPage.LowBattery] else []) /\
  BatteryPage.warnings (JObj {[ "device_online" := JBool true ]}) =
    [BatteryPage.Critical].
Proof.
  split.
  - apply (proj1 (proj2 (battery_warnings (battery_at 15))) 15);
      vm_compute; reflexivity.
  - apply (proj2 (proj2 (battery_warnings (JObj {[ "device_online" := JBool true ]}))));
      vm_compute; reflexivity.
Defined.

(** X8.  The battery badge of the dashboard reads Low exactly when the
    SOC it is given is a number below 20, 0 included, and also when the
    SOC is missing; in that last case it differs from the LoadPage that
    reads [battery_soc], which leaves the pump unlocked. *)
Theorem dashboard_battery_badge (dashboardData : JsVal) :
  (forall soc : Q,
      opt (prop (D.data dashboardData) "battery") "soc" = JNum (Fin soc) ->
      (D.batteryStatus dashboardData = D.mkStatus "warning" "Low" <-> soc < 20) /\
      (D.batteryStatus dashboardData = D.mkStatus "warning" "Low" <->
       B.locked (Interlock.B_showing (B.payload (JNum (Fin soc)))) "pump" = Some true)) /\
  (is_nullish (opt (prop (D.data dashboardData) "battery") "soc") = true ->
   D.batteryStatus dashboardData = D.mkStatus "warning" "Low" /\
   B.locked (Interlock.B_showing (B.payload JUndefined)) "pump" = Some false).
Proof.
  split.
  - intros soc Hsoc.
    assert (Hlock : B.locked (Interlock.B_showing (B.payload (JNum (Fin soc)))) "pump"
                    = Some (if Qlt_le_dec soc 20 then true else false)).
    { rewrite Interlock.B_locked_pump by reflexivity.
      unfold Interlock.B_showing. simpl B.loadData.
      rewrite Interlock.B_batterySoc_payload. simpl nullish.
      rewrite lt_Fin. reflexivity. }
    rewrite Hlock. unfold D.batteryStatus. rewrite Hsoc, lt_or_zero.
    destruct (Qlt_le_dec soc 20) as [Hlt|Hle].
    + repeat split; auto.
    + assert (Hnot : ~ (if ToBoolean (opt (prop (D.data dashboardData) "battery")
                                          "charging")
                        then D.mkStatus "success" "Charging"
                        else D.mkStatus "info" "Standby") = D.mkStatus "warning" "Low")
        by (destruct (ToBoolean _); discriminate).
      split; split; intros H.
      * contradiction.
      * exfalso. exact (Qlt_not_le _ _ H Hle).
      * contradiction.
      * discriminate H.
  - intros Hn. split; [|vm_compute; reflexivity].
    unfold D.batteryStatus. rewrite lt_or_zero_absent by (exact Hn || reflexivity).
    reflexivity.
Qed.

Definition dashboard_at (soc : Q) : JsVal :=
  JObj {[ "battery" := JObj {[ "soc" := JNum (Fin soc) ]} ]}.

Lemma dashboard_battery_badge_witness :
  (D.batteryStatus (dashboard_at 0) = D.mkStatus "warning" "Low" <-> 0 < 20) /\
  D.batteryStatus (JObj ∅) = D.mkStatus "warning" "Low".
Proof.
  split.
  - apply (proj1 (dashboard_battery_badge (dashboard_at 0)) 0).
    vm_compute. reflexivity.
  - apply (proj2 (dashboard_battery_badge (JObj ∅))). vm_compute. reflexivity.
Defined.

(** X9.  The label of the dashboard's Loads card lists the loads whose
    flag is truthy, as L, F and P in that order joined by [+], and reads
    All Off exactly when no flag is truthy. *)
Theorem dashboard_loads_label (dashboardData : JsVal) :
  let on flag := ToBoolean (opt (prop (D.data dashboardData) "load") flag) in
  D.loadsLabel dashboardData =
  match on "light_on", on "fan_on", on "pump_on" with
  | true, true, true => "L+F+P"
  | true, true, false => "L+F"
  | true, false, true => "L+P"
  | true, false, false => "L"
  | false, true, true => "F+P"
  | false, true, false => "F"
  | false, false, true => "P"
  | false, false, false => "All Off"
  end.
Proof.
  intros on. subst on. unfold D.loadsLabel, D.letters, D.flags, and.
  destruct (ToBoolean (opt (prop (D.data dashboardData) "load") "light_on")) eqn:L,
           (ToBoolean (opt (prop (D.data dashboardData) "load") "fan_on")) eqn:F,
           (ToBoolean (opt (prop (D.data dashboardData) "load") "pump_on")) eqn:P;
    cbn [List.filter ToBoolean String.eqb Ascii.eqb Bool.eqb negb];
    rewrite ?L, ?F, ?P; reflexivity.
Qed.

(** X10.  The dashboard and the grid page agree on an explicit
    [online] flag of the grid and part on a missing one: the dashboard's
    Grid badge reads Offline, the grid page takes the grid to be
    online. *)
Theorem grid_online_defaults :
  (forall b : bool,
      D.gridStatus (JObj {[ "grid" := JObj {[ "online" := JBool b ]} ]}) =
        (if b then D.mkStatus "success" "Online" else D.mkStatus "error" "Offline") /\
      GridPage.isOnline (JObj {[ "current" := JObj {[ "online" := JBool b ]} ]}) =
        JBool b)
  /\
  (forall dashboardData : JsVal,
      is_nullish (opt (prop (D.data dashboardData) "grid") "online") = true ->
      D.gridStatus dashboardData = D.mkStatus "error" "Offline")
  /\
  (forall gridData : JsVal,
      is_nullish (prop (GridPage.current gridData) "online") = true ->
      GridPage.isOnline gridData = JBool true).
Proof.
  split; [|split].
  - intros b. split; [destruct b; vm_compute; reflexivity|].
    destruct b; vm_compute; reflexivity.
  - intros dashboardData Hn. unfold D.gridStatus.
    destruct (opt (prop (D.data dashboardData) "grid") "online");
      simpl in *; congruence.
  - intros gridData Hn. unfold GridPage.isOnline.
    apply nullish_default, Hn.
Qed.

Lemma grid_online_defaults_witness :
  D.gridStatus (JObj ∅) = D.mkStatus "error" "Offline" /\
  GridPage.isOnline (JObj ∅) = JBool true.
Proof.
  destruct grid_online_defaults as (_ & HD & HG).
  split; [apply HD | apply HG]; vm_compute; reflexivity.
Defined.

End StatusFacts.

(** *** Chart series: failures and the overview chart *)

Module SeriesFacts.
Import Js JsFacts Chart.
Module P := PowerOverviewChart.

(** A traversal throws what its callback throws on the first element
    it fails on. *)
Lemma mapM_throws {A B} (f : A -> Completion B) (before after : list A)
    (bad : A) (e : Exn) :
  Forall (fun x => returns (f x) = true) before ->
  f bad = Throw e ->
  mapM f (before ++ bad :: after) = Throw e.
Proof.
  intros Hbefore Hbad. induction Hbefore as [|x before Hx _ IH]; simpl.
  - rewrite Hbad. reflexivity.
  - destruct (f x); [|discriminate]. simpl. rewrite IH. reflexivity.
Qed.

(** X11.  The history series of the pages is all or nothing: if the
    callback throws on an entry (a [null] entry, a timestamp that cannot
    be formatted) and returned on the entries before it, the whole series
    is that exception; a history that is not an array is a TypeError. *)
Theorem chart_series_fails_as_a_whole (formatHHmm : JsVal -> Completion JsVal) :
  (forall (data : JsVal) (before after : list JsVal) (bad : JsVal) (e : Exn),
      opt data "history" = JArr (before ++ bad :: after) ->
      Forall (fun item => returns (withTime formatHHmm item) = true) before ->
      withTime formatHHmm bad = Throw e ->
      chartData formatHHmm data = Throw e)
  /\
  withTime formatHHmm JNull = Throw TypeError
  /\
  (forall data : JsVal,
      match opt data "history" with
      | JBool _ | JNum _ | JStr _ | JObj _ => chartData formatHHmm data = Throw TypeError
      | _ => True
      end).
Proof.
  split; [|split].
  - intros data before after bad e Hhist Hbefore Hbad.
    unfold chartData. rewrite Hhist.
    rewrite (mapM_throws _ _ _ _ _ Hbefore Hbad). reflexivity.
  - reflexivity.
  - intros data. unfold chartData. destruct (opt data "history"); exact I || reflexivity.
Qed.

Definition with_a_null_entry : JsVal :=
  JObj {[ "history" := JArr [ChartFacts.sample 10; JNull; ChartFacts.sample 30] ]}.

Lemma chart_series_fails_as_a_whole_witness :
  chartData ChartFacts.noon with_a_null_entry = Throw TypeError.
Proof.
  apply (proj1 (chart_series_fails_as_a_whole ChartFacts.noon)
           with_a_null_entry [ChartFacts.sample 10] [ChartFacts.sample 30] JNull).
  - vm_compute. reflexivity.
  - repeat constructor.
  - reflexivity.
Defined.

(** X12.  A point of the overview chart keeps every field of the
    reading it is made from except [time], [solar], [load] and
    [battery]; these carry the label of the timestamp (empty without a
    timestamp) and the reading's [solar_power], [load_power] and
    [battery_soc], with 0 in place of a missing or falsy one, so none of
    the three is ever [undefined] or [null]. *)
Theorem overview_point_fields
    (formatHHmm : JsVal -> Completion JsVal) (reading : gmap string JsVal)
    (shown : JsVal) :
  P.point formatHHmm (JObj reading) = Return shown ->
  prop shown "solar" = or (prop (JObj reading) "solar_power") (JNum (Fin 0)) /\
  prop shown "load" = or (prop (JObj reading) "load_power") (JNum (Fin 0)) /\
  prop shown "battery" = or (prop (JObj reading) "battery_soc") (JNum (Fin 0)) /\
  is_nullish (prop shown "solar") = false /\
  is_nullish (prop shown "load") = false /\
  is_nullish (prop shown "battery") = false /\
  (ToBoolean (prop (JObj reading) "timestamp") = false ->
   prop shown "time" = JStr "") /\
  (forall k : string,
      k <> "time" -> k <> "solar" -> k <> "load" -> k <> "battery" ->
      prop shown k = prop (JObj reading) k).
Proof.
  unfold P.point, member. cbn [is_nullish bind].
  remember (prop (JObj reading) "timestamp") as timestamp eqn:Hts.
  assert (Hnn : forall v, is_nullish (or v (JNum (Fin 0))) = false).
  { intros v. unfold or. destruct (ToBoolean v) eqn:T; [|reflexivity].
    destruct v; simpl in *; congruence. }
  destruct (if ToBoolean timestamp then formatHHmm timestamp else Return (JStr ""))
    as [time|e] eqn:Htime; [|discriminate].
  cbn [bind spread]. intros [= <-]. unfold prop at 1 3 5 7 8 9 10 11.
  rewrite lookup_insert_ne by discriminate.
  rewrite lookup_insert_ne by discriminate.
  rewrite lookup_insert_eq.
  rewrite lookup_insert_ne by discriminate.
  rewrite lookup_insert_eq.
  rewrite lookup_insert_eq.
  cbn [default].
  repeat (split; [solve [reflexivity | apply Hnn]|]).
  split.
  - intros Hfalsy. rewrite Hfalsy in Htime. injection Htime as <-.
    rewrite !lookup_insert_ne by discriminate. rewrite lookup_insert_eq. reflexivity.
  - intros k Ht Hs Hl Hb.
    rewrite !lookup_insert_ne by congruence. reflexivity.
Qed.

(** A reading without power fields, and the point made of it. *)
Definition bare_reading : gmap string JsVal :=
  {[ "timestamp" := JStr "2024-05-01T12:00:00" ]}.

Definition bare_point : JsVal :=
  JObj (<["battery" := JNum (Fin 0)]> (<["load" := JNum (Fin 0)]>
       (<["solar" := JNum (Fin 0)]> (<["time" := JStr "12:00"]> bare_reading)))).

Lemma overview_point_fields_witness :
  P.point ChartFacts.noon (JObj bare_reading) = Return bare_point /\
  prop bare_point "solar" = or (prop (JObj bare_reading) "solar_power") (JNum (Fin 0)).
Proof.
  assert (H : P.point ChartFacts.noon (JObj bare_reading) = Return bare_point)
    by (vm_compute; reflexivity).
  split; [exact H|].
  exact (proj1 (overview_point_fields ChartFacts.noon bare_reading bare_point H)).
Defined.

(** X13.  The series of the overview chart is the image, in order, of
    the last 50 readings it is given (all of them when there are fewer),
    for readings on which the callback returns; it is empty when the
    data is missing, falsy or empty; and data that is truthy, not an
    array and not of length 0 is a TypeError. *)
Theorem overview_series (formatHHmm : JsVal -> Completion JsVal) :
  (forall items : list JsVal,
      Forall (fun item => returns (P.point formatHHmm item) = true) items ->
      exists series : list JsVal,
        P.chartData formatHHmm (JArr items) = Return series /\
        Forall2 (fun item shown => P.point formatHHmm item = Return shown)
                (drop (length items - 50) items) series /\
        length series = Nat.min (length items) 50)
  /\
  P.chartData formatHHmm JUndefined = Return []
  /\
  (forall data : JsVal,
      ToBoolean data = false -> P.chartData formatHHmm data = Return [])
  /\
  (forall data : JsVal,
      ToBoolean data = true -> P.has_length_zero data = false ->
      (forall items, data <> JArr items) ->
      P.chartData formatHHmm data = Throw TypeError).
Proof.
  split; [|split; [|split]].
  - intros items Hok. destruct items as [|item items].
    + exists []. repeat split. constructor.
    + destruct (ChartFacts.mapM_returns (P.point formatHHmm) _ Hok)
        as (mapped & Hmap & Hall).
      pose proof (Forall2_length _ _ _ Hall) as Hlen.
      exists (slice_last 50 mapped). unfold P.chartData.
      cbn [not ToBoolean negb P.has_length_zero length Nat.eqb orb].
      rewrite Hmap. cbn [bind].
      split; [reflexivity|]. split.
      * unfold slice_last. rewrite <- Hlen. apply Forall2_drop, Hall.
      * rewrite ChartFacts.slice_last_length, <- Hlen. reflexivity.
  - reflexivity.
  - intros data Hfalsy. unfold P.chartData, not.
    destruct data; simpl in Hfalsy; try discriminate; try reflexivity;
      simpl ToBoolean; rewrite ?Hfalsy; reflexivity.
  - intros data Htruthy Hlen Hnot. unfold P.chartData, not.
    destruct data as [ | |b|n|s|items|o]; simpl in Htruthy; try discriminate.
    + rewrite Htruthy. reflexivity.
    + simpl ToBoolean. rewrite Htruthy. reflexivity.
    + simpl ToBoolean. rewrite Htruthy. reflexivity.
    + exfalso. exact (Hnot items eq_refl).
    + rewrite Hlen. reflexivity.
Qed.

Lemma overview_series_witness :
  (exists series : list JsVal,
      P.chartData ChartFacts.noon (JArr [JObj bare_reading; JObj bare_reading]) =
        Return series /\
      Forall2 (fun item shown => P.point ChartFacts.noon item = Return shown)
              [JObj bare_reading; JObj bare_reading] series /\
      length series = 2)
  /\
  P.chartData ChartFacts.noon (JStr "oops") = Throw TypeError.
Proof.
  destruct (overview_series ChartFacts.noon) as (Hseries & _ & _ & Hbad).
  split.
  - apply (Hseries [JObj bare_reading; JObj bare_reading]). repeat constructor.
  - apply Hbad; [reflexivity | reflexivity | discriminate].
Defined.

End SeriesFacts.

(** *** The live channel *)

Module LiveFacts.
Import Js JsFacts Live.

Section WithParser.
Variable JSON_parse : string -> Completion JsVal.

(** The events that can change what the page holds: a message that
    parses, and a poll. *)
Definition significant (ev : Event) : bool :=
  match ev with
  | Socket (Message raw) => returns (JSON_parse raw)
  | Socket _ => false
  | Polled _ => true
  end.

(** Two states that hold the same data, whatever [connected] says. *)
Definition same_content (st st' : Hook * Dashboard) : Prop :=
  data (fst st) = data (fst st') /\ snd st = snd st'.

Lemma step_same_content (st st' : Hook * Dashboard) (ev : Event) :
  same_content st st' ->
  same_content (step JSON_parse st ev) (step JSON_parse st' ev).
Proof.
  destruct st as [h d], st' as [h' d']. intros [Hdata Hd]. simpl in Hdata, Hd.
  subst d'. unfold same_content.
  destruct ev as [[ | raw | | | ] | outcome]; simpl; try (split; [exact Hdata | reflexivity]).
  - destruct (JSON_parse raw) as [parsed|e]; simpl.
    + rewrite Hdata. destruct (same_value (data h') parsed); split; reflexivity.
    + split; [exact Hdata | reflexivity].
Qed.

Lemma insignificant_step (st : Hook * Dashboard) (ev : Event) :
  significant ev = false ->
  same_content (step JSON_parse st ev) st.
Proof.
  destruct st as [h d]. unfold same_content.
  destruct ev as [[ | raw | | | ] | outcome]; simpl; try discriminate;
    try (intros _; split; reflexivity).
  destruct (JSON_parse raw); [discriminate|]. intros _. split; reflexivity.
Qed.

Lemma run_same_content (evs : list Event) (st st' : Hook * Dashboard) :
  same_content st st' ->
  same_content (run JSON_parse st evs) (run JSON_parse st' evs).
Proof.
  revert st st'. induction evs as [|ev evs IH]; intros st st' H; [exact H|].
  apply IH, step_same_content, H.
Qed.

End WithParser.

(** X14.  What the dashboard holds after any run of socket events and
    polls is what it holds after the same run without the messages that
    do not parse and without the socket's opening, closing and error
    events: those never change the live data or the dashboard data. *)
Theorem only_parsed_messages_and_polls_matter
    (JSON_parse : string -> Completion JsVal)
    (st : Hook * Dashboard) (evs : list Event) :
  let after := run JSON_parse st evs in
  let after' := run JSON_parse st (List.filter (significant JSON_parse) evs) in
  data (fst after) = data (fst after') /\ snd after = snd after'.
Proof.
  cbv zeta. fold (same_content (run JSON_parse st evs)
                    (run JSON_parse st (List.filter (significant JSON_parse) evs))).
  revert st. induction evs as [|ev evs IH]; intros st; [split; reflexivity|].
  simpl List.filter. destruct (significant JSON_parse ev) eqn:Hev.
  - apply IH.
  - destruct (IH st) as [H1 H2].
    destruct (run_same_content JSON_parse evs _ _ (insignificant_step JSON_parse st ev Hev))
      as [H3 H4].
    split; [rewrite <- H1 | rewrite <- H2]; assumption.
Qed.

(** The events after which the hook reconnects. *)
Definition closing (ev : SocketEvent) : bool :=
  match ev with
  | Closed | ConstructionFailed => true
  | _ => false
  end.

(** X15.  The hook schedules exactly one reconnection, 3000 ms later,
    for each closing of the socket and each failed construction, and
    none for anything else: an error event alone, a message or an
    opening never schedules one.  The delays scheduled over a run are
    one 3000 for each closing or failed construction, and nothing
    else. *)
Theorem one_reconnect_per_close
    (JSON_parse : string -> Completion JsVal) (h : Hook) (evs : list SocketEvent) :
  reconnect_delays JSON_parse h evs =
  List.map (fun _ => 3000) (List.filter closing evs).
Proof.
  revert h. induction evs as [|ev evs IH]; intros h; [reflexivity|].
  destruct ev as [ | raw | | | ]; simpl; try (rewrite IH; reflexivity).
  destruct (JSON_parse raw); simpl; rewrite IH; reflexivity.
Qed.

(** A run with two closings, an error and a failed construction. *)
Example three_reconnects_after_3000 :
  reconnect_delays (fun _ => Throw SyntaxError) initial
    [Opened; Closed; Errored; ConstructionFailed; Opened; Message "x"; Closed] =
  [3000; 3000; 3000].
Proof. reflexivity. Qed.

End LiveFacts.

(** *** The date filter of the charts page *)

Module FilterFacts.
Import Js JsFacts.
Module H := ChartsPage.

Section WithDates.
Variable parseISO : JsVal -> Completion number.
Variable newDate : string -> number.
Variable startOfDay : number -> number.
Variable endOfDay : number -> number.

Abbreviation startBound := (H.startBound newDate startOfDay).
Abbreviation endBound := (H.endBound newDate endOfDay).
Abbreviation filteredData := (H.filteredData parseISO newDate startOfDay endOfDay).
Abbreviation inRange := (H.inRange parseISO newDate startOfDay endOfDay).
Abbreviation itemDate := (H.itemDate parseISO).

(** A row is dated when its date can be read: the row is neither [null]
    nor [undefined] and [parseISO] returns on its timestamp. *)
Definition dated (row : JsVal) : bool := returns (itemDate row).

(** A predicate on dates, as a predicate on rows. *)
Definition on_date (p : number -> bool) (row : JsVal) : bool :=
  match itemDate row with
  | Return t => p t
  | Throw _ => false
  end.

(** A dated row is within the dates entered when it is not before the
    start, if one is entered, and not after the end, if one is entered. *)
Definition within (startDate endDate : string) (row : JsVal) : bool :=
  on_date (fun t =>
    (String.eqb startDate "" || le_number (startBound startDate) t) &&
    (String.eqb endDate "" || le_number t (endBound endDate))) row.

(** What reading the dates of the rows in order throws first, if
    anything. *)
Fixpoint first_failure (rows : list JsVal) : option Exn :=
  match rows with
  | [] => None
  | row :: rest =>
      match itemDate row with
      | Return _ => first_failure rest
      | Throw e => Some e
      end
  end.

Lemma all_dated (rows : list JsVal) :
  Forall (fun row => dated row = true) rows -> first_failure rows = None.
Proof.
  induction 1 as [|row rows Hrow _ IH]; [reflexivity|].
  simpl. unfold dated in Hrow. destruct (itemDate row); [exact IH | discriminate].
Qed.

Lemma first_failure_filter (p : JsVal -> bool) (rows : list JsVal) :
  first_failure rows = None -> first_failure (List.filter p rows) = None.
Proof.
  induction rows as [|row rows IH]; [reflexivity|].
  simpl. destruct (itemDate row) eqn:Hrow; [|discriminate].
  intros Hrest. destruct (p row); [simpl; rewrite Hrow|]; apply IH, Hrest.
Qed.

(** The filter with a predicate on the row's date: it throws what the
    first unreadable row throws, and otherwise keeps the rows whose date
    satisfies the predicate. *)
Lemma filterM_on_dates (p : number -> bool) (rows : list JsVal) :
  H.filterM (fun item => bind (itemDate item) (fun t => Return (p t))) rows =
  match first_failure rows with
  | Some e => Throw e
  | None => Return (List.filter (on_date p) rows)
  end.
Proof.
  induction rows as [|row rows IH]; [reflexivity|].
  simpl. unfold on_date at 1. destruct (itemDate row) as [t|e]; [|reflexivity].
  cbn [bind]. rewrite IH. destruct (first_failure rows); [reflexivity|].
  cbn [bind]. destruct (p t); reflexivity.
Qed.

(** The three predicates of the page are [within], and without dates
    nothing is filtered. *)
Lemma inRange_within (startDate endDate : string) :
  match inRange startDate endDate with
  | Some keep =>
      exists p : number -> bool,
        keep = (fun item => bind (itemDate item) (fun t => Return (p t))) /\
        forall row, on_date p row = within startDate endDate row
  | None => startDate = "" /\ endDate = ""
  end.
Proof.
  unfold H.inRange, within, on_date. simpl ToBoolean.
  destruct (String.eqb_spec startDate "") as [Hs|Hs],
           (String.eqb_spec endDate "") as [He|He]; simpl.
  - split; assumption.
  - eexists (fun t => le_number t (endBound endDate)). split; reflexivity.
  - eexists (fun t => le_number (startBound startDate) t). split; [reflexivity|].
    intros row. destruct (itemDate row); [|reflexivity].
    rewrite andb_true_r. reflexivity.
  - eexists (fun t => le_number (startBound startDate) t
                      && le_number t (endBound endDate)). split; reflexivity.
Qed.

Lemma filter_all_in {A} (p : A -> bool) (l : list A) :
  (forall x, In x l -> p x = true) -> List.filter p l = l.
Proof.
  induction l as [|x l IH]; [reflexivity|].
  intros Hp. simpl. rewrite (Hp x) by (left; reflexivity).
  rewrite IH; [reflexivity|]. intros y Hy. apply Hp. right. exact Hy.
Qed.

(** Without dates the rows are passed on as they are. *)
Lemma filteredData_no_dates (rows : list JsVal) :
  filteredData (JArr rows) "" "" = Return (JArr rows).
Proof. destruct rows; reflexivity. Qed.

(** What the effect computes for an array of rows once a date is
    entered. *)
Lemma filteredData_array (rows : list JsVal) (startDate endDate : string) :
  startDate <> "" \/ endDate <> "" ->
  filteredData (JArr rows) startDate endDate =
  match first_failure rows with
  | Some e => Throw e
  | None => Return (JArr (List.filter (within startDate endDate) rows))
  end.
Proof.
  intros Hdate. pose proof (inRange_within startDate endDate) as Hrange.
  destruct rows as [|row rows]; [reflexivity|].
  unfold H.filteredData.
  destruct (inRange startDate endDate) as [keep|].
  - destruct Hrange as (p & -> & Hp). rewrite filterM_on_dates.
    destruct (first_failure (row :: rows)); [reflexivity|].
    cbn [bind]. do 2 f_equal. apply filter_ext_in. intros r _. apply Hp.
  - destruct Hrange as [Hs He]. destruct Hdate; contradiction.
Qed.

(** The effect on rows that are all dated. *)
Lemma filteredData_rows (rows : list JsVal) (startDate endDate : string) :
  Forall (fun row => dated row = true) rows ->
  filteredData (JArr rows) startDate endDate =
  Return (JArr (List.filter (within startDate endDate) rows)).
Proof.
  intros Hall.
  destruct (String.eqb_spec startDate "") as [->|Hs];
    [destruct (String.eqb_spec endDate "") as [->|He]|].
  - rewrite filteredData_no_dates, filter_all_in; [reflexivity|].
    intros row Hin. rewrite Forall_forall in Hall.
    specialize (Hall row (proj2 (list_elem_of_In _ _) Hin)).
    unfold within, on_date. unfold dated in Hall.
    destruct (itemDate row); [reflexivity | discriminate].
  - rewrite filteredData_array by (right; exact He).
    rewrite all_dated by exact Hall. reflexivity.
  - rewrite filteredData_array by (left; exact Hs).
    rewrite all_dated by exact Hall. reflexivity.
Qed.



Lemma within_both (startDate endDate : string) (row : JsVal) :
  within startDate endDate row =
  within startDate "" row && within "" endDate row.
Proof.
  unfold within, on_date. destruct (itemDate row); [|reflexivity].
  simpl String.eqb. rewrite orb_true_l, andb_true_r. reflexivity.
Qed.

Lemma filter_twice {A} (p q : A -> bool) (l : list A) :
  List.filter q (List.filter p l) = List.filter (fun x => p x && q x) l.
Proof.
  induction l as [|x l IH]; [reflexivity|].
  simpl. destruct (p x); simpl; [destruct (q x)|]; rewrite IH; reflexivity.
Qed.

Lemma filter_within_twice (rows : list JsVal) (startDate endDate : string) :
  List.filter (within "" endDate) (List.filter (within startDate "") rows) =
  List.filter (within startDate endDate) rows.
Proof.
  rewrite filter_twice. apply filter_ext_in. intros row _.
  symmetry. apply within_both.
Qed.

(** The second of two filters on rows the first one has read. *)
Lemma filteredData_again (rows : list JsVal) (startDate endDate : string) :
  first_failure rows = None ->
  filteredData (JArr (List.filter (within startDate "") rows)) "" endDate =
  Return (JArr (List.filter (within startDate endDate) rows)).
Proof.
  intros Hnone. destruct (String.eqb_spec endDate "") as [->|He].
  - rewrite filteredData_no_dates. reflexivity.
  - rewrite filteredData_array by (right; exact He).
    rewrite first_failure_filter by exact Hnone.
    rewrite filter_within_twice. reflexivity.
Qed.

(** X17.  Filtering by both dates is filtering by the start date and
    then filtering the result by the end date, for every array of rows,
    exceptions included. *)
Theorem date_filter_composes (rows : list JsVal) (startDate endDate : string) :
  filteredData (JArr rows) startDate endDate =
  bind (filteredData (JArr rows) startDate "")
       (fun kept => filteredData kept "" endDate).
Proof.
  destruct (String.eqb_spec startDate "") as [->|Hstart].
  - rewrite (filteredData_no_dates rows). reflexivity.
  - rewrite !filteredData_array by (left; exact Hstart).
    destruct (first_failure rows) eqn:Hfail; [reflexivity|].
    cbn [bind]. rewrite filteredData_again by exact Hfail. reflexivity.
Qed.

Lemma le_number_NaN_r (a : number) : le_number a NaN = false.
Proof. destruct a; reflexivity. Qed.

Lemma le_number_NaN_l (a : number) : le_number NaN a = false.
Proof. reflexivity. Qed.

(** X18.  As soon as a start or an end date is entered, the rows whose
    timestamp is not a valid date are dropped, for rows whose dates can
    all be read: every row kept has a date, and it is not NaN. *)
Theorem date_filter_drops_invalid_dates
    (rows : list JsVal) (startDate endDate : string) :
  startDate <> "" \/ endDate <> "" ->
  Forall (fun row => dated row = true) rows ->
  exists kept : list JsVal,
    filteredData (JArr rows) startDate endDate = Return (JArr kept) /\
    Forall (fun row => exists t, itemDate row = Return t /\ t <> NaN) kept.
Proof.
  intros Hdate Hall.
  exists (List.filter (within startDate endDate) rows).
  split; [apply filteredData_rows, Hall|].
  apply Forall_forall. intros row Hin.
  apply list_elem_of_In, filter_In in Hin. destruct Hin as [_ Hwithin].
  unfold within, on_date in Hwithin.
  destruct (itemDate row) as [t|]; [|discriminate].
  exists t. split; [reflexivity|]. intros ->.
  rewrite le_number_NaN_r, le_number_NaN_l, !orb_false_r in Hwithin.
  destruct Hdate as [Hs | He].
  - apply String.eqb_neq in Hs. rewrite Hs in Hwithin. discriminate.
  - apply String.eqb_neq in He. rewrite He in Hwithin.
    rewrite andb_false_r in Hwithin. discriminate.
Qed.

End WithDates.

(** A calendar to run the filter on: dates are numbers written out, a
    day has no extent, and a timestamp that is not a string is a
    TypeError. *)
Definition toy_parseISO (v : JsVal) : Completion number :=
  match v with
  | JStr s => Return (StringToNumber s)
  | _ => Throw TypeError
  end.

Definition row_at (timestamp : string) : JsVal :=
  JObj {[ "timestamp" := JStr timestamp ]}.

Definition toy_rows : list JsVal :=
  [row_at "1"; row_at "5"; row_at "soon"; row_at "9"].

(** A row without a timestamp between two rows that have one. *)
Definition undated_rows : list JsVal :=
  [row_at "5"; JObj {[ "power" := JNum (Fin 1) ]}; row_at "9"].

Definition toy_filter (rows : list JsVal) (startDate endDate : string)
    : Completion JsVal :=
  H.filteredData toy_parseISO StringToNumber id id (JArr rows) startDate endDate.


Lemma date_filter_drops_invalid_dates_witness :
  exists kept : list JsVal,
    toy_filter toy_rows "2" "" = Return (JArr kept) /\
    Forall (fun row => exists t, H.itemDate toy_parseISO row = Return t /\ t <> NaN)
           kept.
Proof.
  apply (date_filter_drops_invalid_dates
           toy_parseISO StringToNumber id id toy_rows "2" "").
  - left. discriminate.
  - repeat constructor.
Defined.

Example toy_filter_runs :
  toy_filter toy_rows "2" "9" = Return (JArr [row_at "5"; row_at "9"]) /\
  toy_filter toy_rows "" "" = Return (JArr toy_rows) /\
  toy_filter undated_rows "" "9" = Throw TypeError /\
  toy_filter undated_rows "" "" = Return (JArr undated_rows).
Proof. repeat split; vm_compute; reflexivity. Qed.

End FilterFacts.

(** *** The service's error messages *)

Module ApiFacts.
Import Js JsFacts.

(** X19.  For a response that is not ok, the message of the thrown
    error is chosen from the body when the body is JSON other than
    [null]: its [detail] if truthy, else its [message] if truthy, else
    "Request failed"; the status text is then not looked at.  The status
    text, or "Request failed" when it is empty, is used only when the
    body is not JSON or is [null]. *)
Theorem handleResponse_message (response : Api.Response) :
  Api.ok response = false ->
  (forall errorData : JsVal,
      Api.json response = Return errorData ->
      is_nullish errorData = false ->
      Api.handleResponse response =
      Throw (Error (or (prop errorData "detail")
                       (or (prop errorData "message") (JStr "Request failed")))))
  /\
  (Api.json response = Return JNull \/ returns (Api.json response) = false ->
   Api.handleResponse response =
   Throw (Error (or (JStr (Api.statusText response)) (JStr "Request failed")))).
Proof.
  intros Hok. unfold Api.handleResponse. rewrite Hok. simpl negb. cbv iota.
  split.
  - intros errorData Hjson Hnn. rewrite Hjson. cbn [bind].
    unfold member. rewrite Hnn. cbn [bind try_catch].
    destruct (ToBoolean (prop errorData "detail")) eqn:D; cbn [bind try_catch].
    + rewrite (or_truthy (prop errorData "detail")) by exact D. reflexivity.
    + rewrite (or_falsy (prop errorData "detail")) by exact D. reflexivity.
  - intros [Hjson | Hjson].
    + rewrite Hjson. reflexivity.
    + destruct (Api.json response); [discriminate | reflexivity].
Qed.

Definition not_found : Api.Response :=
  {| Api.ok := false; Api.statusText := "Not Found";
     Api.json := Return (JObj {[ "message" := JStr "No such device" ]}) |}.

Definition bad_gateway : Api.Response :=
  {| Api.ok := false; Api.statusText := "Bad Gateway"; Api.json := Throw SyntaxError |}.

Lemma handleResponse_message_witness :
  Api.handleResponse not_found =
    Throw (Error (or (prop (JObj {[ "message" := JStr "No such device" ]}) "detail")
                     (or (prop (JObj {[ "message" := JStr "No such device" ]}) "message")
                         (JStr "Request failed")))) /\
  Api.handleResponse bad_gateway =
    Throw (Error (or (JStr (Api.statusText bad_gateway)) (JStr "Request failed"))).
Proof.
  split.
  - apply (proj1 (handleResponse_message not_found eq_refl)
             (JObj {[ "message" := JStr "No such device" ]})); reflexivity.
  - apply (proj2 (handleResponse_message bad_gateway eq_refl)).
    right. reflexivity.
Defined.

Example error_messages :
  Api.handleResponse not_found = Throw (Error (JStr "No such device")) /\
  Api.handleResponse bad_gateway = Throw (Error (JStr "Bad Gateway")).
Proof. split; vm_compute; reflexivity. Qed.

(** X20.  The two variants of the service answer a refusal that
    carries a truthy [detail] alike: [controlLoad] throws an [Error]
    made of that detail in both.  They part when the body of the refusal
    is not JSON: the variant with [handleResponse] throws an [Error] made
    of the status text, the other lets the SyntaxError of the parse
    through. *)
Theorem services_agree_on_a_detailed_refusal
    (device : string) (state : bool) (response : Api.Response) :
  Api.ok response = false ->
  (forall errorData : JsVal,
      Api.json response = Return errorData ->
      ToBoolean (prop errorData "detail") = true ->
      is_nullish errorData = false ->
      Api.controlLoad device state (Return response) =
        Throw (Error (prop errorData "detail")) /\
      Api.controlLoad_inline device state (Return response) =
        Throw (Error (prop errorData "detail")))
  /\
  (forall e : Exn,
      Api.json response = Throw e ->
      Api.controlLoad device state (Return response) =
        Throw (Error (or (JStr (Api.statusText response)) (JStr "Request failed"))) /\
      Api.controlLoad_inline device state (Return response) = Throw e).
Proof.
  intros Hok. unfold Api.controlLoad, Api.controlLoad_inline, Api.handleResponse.
  cbn [bind]. rewrite Hok. simpl negb. cbv iota. split.
  - intros errorData Hjson Hdetail Hnn. rewrite Hjson. cbn [bind].
    unfold member. rewrite Hnn. cbn [bind try_catch]. rewrite Hdetail.
    cbn [bind try_catch]. rewrite or_truthy by exact Hdetail. split; reflexivity.
  - intros e Hjson. rewrite Hjson. split; reflexivity.
Qed.

Lemma services_agree_on_a_detailed_refusal_witness :
  Api.controlLoad "pump" true (Return Rejection.refused) =
    Throw (Error (prop (JObj {[ "detail" := JStr "Pump locked: battery SOC below 20%" ]})
                       "detail")) /\
  Api.controlLoad_inline "pump" true (Return Rejection.refused) =
    Throw (Error (prop (JObj {[ "detail" := JStr "Pump locked: battery SOC below 20%" ]})
                       "detail")).
Proof.
  apply (proj1 (services_agree_on_a_detailed_refusal "pump" true Rejection.refused
                  eq_refl)); reflexivity.
Defined.

End ApiFacts.

(** *** Theme and session *)

Module AppFacts.
Import Js JsFacts App.

Lemma toggleTheme_value (prev : string) :
  toggleTheme prev = "light" \/ toggleTheme prev = "dark".
Proof. unfold toggleTheme. destruct (is_string _ _); auto. Qed.

Lemma initialTheme_not_empty (saved : option string) : initialTheme saved <> "".
Proof.
  unfold initialTheme. destruct saved as [s|]; [|discriminate].
  simpl. destruct (String.eqb_spec s "") as [->|H]; simpl; [discriminate | exact H].
Qed.

Lemma initialTheme_persist (theme : string) :
  theme <> "" -> initialTheme (persistTheme theme) = theme.
Proof.
  intros H. unfold initialTheme, persistTheme. simpl.
  apply String.eqb_neq in H. rewrite H. reflexivity.
Qed.

(** X21.  The theme survives a reload: whatever the storage held at
    start and however often the theme was toggled since, starting again
    from what the effect stored gives the theme shown.  From the first
    toggle on the theme is light or dark, and on those two toggles
    cancel. *)
Theorem theme_survives_reload :
  (forall (saved : option string) (toggles : nat),
      let theme := Nat.iter toggles toggleTheme (initialTheme saved) in
      initialTheme (persistTheme theme) = theme)
  /\
  (forall (saved : option string) (toggles : nat),
      let theme := Nat.iter (S toggles) toggleTheme (initialTheme saved) in
      (theme = "light" \/ theme = "dark") /\ toggleTheme (toggleTheme theme) = theme).
Proof.
  split.
  - intros saved toggles theme. apply initialTheme_persist. subst theme.
    destruct toggles as [|n]; [apply initialTheme_not_empty|].
    simpl. destruct (toggleTheme_value (Nat.iter n toggleTheme (initialTheme saved)))
      as [-> | ->]; discriminate.
  - intros saved toggles theme. subst theme. simpl.
    destruct (toggleTheme_value (Nat.iter toggles toggleTheme (initialTheme saved)))
      as [-> | ->]; split; auto.
Qed.

(** Whether the backend accepted the token: the request was answered,
    with an ok response whose body is JSON. *)
Definition accepted (fetched : Completion Api.Response) : bool :=
  match fetched with
  | Return response => Api.ok response && returns (Api.json response)
  | Throw _ => false
  end.

(** X22.  Validating a held token always ends the loading screen.  If
    the backend accepts the token the protected pages are shown, with
    the user the backend returned and the token kept; in every other
    case (a response that is not ok, a body that is not JSON, a request
    that failed) the token is dropped from the state and from the
    storage and the protected pages redirect to /login. *)
Theorem token_validation_decides_the_route
    (fetched : Completion Api.Response) (a : Auth) :
  ToBoolean (token a) = true ->
  let a' := validateToken fetched a in
  loading a' = false /\
  (accepted fetched = true ->
   ProtectedRoute a' = Children /\ token a' = token a /\ stored a' = stored a /\
   exists response, fetched = Return response /\ Api.json response = Return (user a')) /\
  (accepted fetched = false ->
   ProtectedRoute a' = NavigateTo "/login" /\
   token a' = JNull /\ user a' = JNull /\ stored a' = None).
Proof.
  intros Htoken a'. subst a'. unfold validateToken. rewrite Htoken.
  destruct fetched as [response|e]; cbn [bind accepted].
  - destruct (Api.ok response); cbn [andb].
    + destruct (Api.json response) as [userData|e] eqn:Hjson; cbn [bind returns].
      * split; [reflexivity|]. split; [|discriminate]. intros _.
        unfold ProtectedRoute, not. simpl. rewrite Htoken.
        repeat split. exists response. split; [reflexivity | exact Hjson].
      * split; [reflexivity|]. split; [discriminate|]. intros _. repeat split.
    + split; [reflexivity|]. split; [discriminate|]. intros _. repeat split.
  - split; [reflexivity|]. split; [discriminate|]. intros _. repeat split.
Qed.

Definition signed_in : Auth := initialAuth (Some "token-1").

Definition unauthorized : Api.Response :=
  {| Api.ok := false; Api.statusText := "Unauthorized";
     Api.json := Return (JObj {[ "detail" := JStr "Invalid token" ]}) |}.

Lemma token_validation_decides_the_route_witness :
  ProtectedRoute (validateToken (Return unauthorized) signed_in) = NavigateTo "/login" /\
  token (validateToken (Return unauthorized) signed_in) = JNull /\
  user (validateToken (Return unauthorized) signed_in) = JNull /\
  stored (validateToken (Return unauthorized) signed_in) = None.
Proof.
  apply (proj2 (proj2 (token_validation_decides_the_route
                         (Return unauthorized) signed_in eq_refl))).
  reflexivity.
Defined.

(** X23.  A sign-in or registration that the service refuses (a
    response that is not ok, in either variant of the service) or that
    could not be sent leaves the session as it was, shows an error toast
    and does not navigate. *)
Theorem refused_sign_in_changes_nothing
    (isLogin : bool) (fetched : Completion Api.Response) (a : Auth) :
  (forall response, fetched = Return response -> Api.ok response = false) ->
  (exists error, handleSubmit isLogin (api_login fetched) a =
                 (a, [ToastFailure error "Authentication failed"])) /\
  (exists error,
      handleSubmit isLogin
        (if isLogin then api_login_inline fetched else api_register_inline fetched) a =
      (a, [ToastFailure error "Authentication failed"])).
Proof.
  intros Hrefused. unfold api_login, api_login_inline, api_register_inline.
  destruct fetched as [response|e]; cbn [bind].
  - specialize (Hrefused response eq_refl).
    destruct (Rejection.handleResponse_not_ok response Hrefused) as (message & _ & ->).
    rewrite Hrefused. simpl negb. cbv iota. split; [eexists; reflexivity|].
    destruct isLogin; [eexists; reflexivity|].
    destruct (Api.json response) as [error|e]; cbn [bind]; [|eexists; reflexivity].
    unfold member. destruct (is_nullish error); eexists; reflexivity.
  - split; [eexists; reflexivity|]. destruct isLogin; eexists; reflexivity.
Qed.

Lemma refused_sign_in_changes_nothing_witness :
  (exists error, handleSubmit false (api_login (Return unauthorized)) signed_in =
                 (signed_in, [ToastFailure error "Authentication failed"])) /\
  (exists error,
      handleSubmit false
        (if false then api_login_inline (Return unauthorized)
         else api_register_inline (Return unauthorized)) signed_in =
      (signed_in, [ToastFailure error "Authentication failed"])).
Proof.
  apply (refused_sign_in_changes_nothing false (Return unauthorized) signed_in).
  intros response [= <-]. reflexivity.
Defined.

(** X24.  A sign-in that is answered with a body stores the body's
    [access_token] as the session token, greets the user and navigates to
    [/]; once the loading screen is gone the protected pages are shown
    exactly when that token is truthy, so a body without [access_token]
    greets the user and sends them back to /login. *)
Theorem answered_sign_in
    (isLogin : bool) (data : JsVal) (a : Auth) :
  is_nullish data = false ->
  loading a = false ->
  let a' := fst (handleSubmit isLogin (Return data) a) in
  snd (handleSubmit isLogin (Return data) a) =
    [Toast (if isLogin then "Welcome back!" else "Account created successfully!");
     Navigate "/"] /\
  token a' = prop data "access_token" /\
  user a' = prop data "user" /\
  stored a' = Some (prop data "access_token") /\
  ProtectedRoute a' =
    if ToBoolean (prop data "access_token") then Children else NavigateTo "/login".
Proof.
  intros Hdata Hloading a'. subst a'. unfold handleSubmit, member.
  cbn [bind]. rewrite Hdata. cbn [bind fst snd].
  repeat (split; [reflexivity|]).
  unfold ProtectedRoute, login, not. cbn [loading token]. rewrite Hloading.
  destruct (ToBoolean (prop data "access_token")); reflexivity.
Qed.

Definition ready : Auth := setLoading false (initialAuth None).

Lemma answered_sign_in_witness :
  ProtectedRoute (fst (handleSubmit true (Return (JObj ∅)) ready)) =
    if ToBoolean (prop (JObj ∅) "access_token") then Children else NavigateTo "/login".
Proof.
  apply (answered_sign_in true (JObj ∅) ready); reflexivity.
Defined.

End AppFacts.
